(* ===== verification/_CoqProject ===== *)
-Q . S2P
Prelude.v
Http.v
Storage.v
Language.v
State.v
Async.v
Session.v
Fetchers.v
Scheduler.v
Views.v
Termination.v
Render.v
App.v
Invariants.v
Timers.v
Feeds.v
Spinners.v
Scenarios.v
