(* ===== verification/Prelude.v ===== *)
(** * A verification development of the CryptoAI Digest dashboard client

    The program is the React client of [src/.../frontend/src/App.js]
    (component [AppContent] and the [LanguageDropdown] it renders) and its
    translation provider [src/.../frontend/src/contexts/LanguageContext.js].
    Its hard part is the data-orchestration and session layer: which HTTP
    requests are issued, in which order, with which fallback, how the
    session token kept in [localStorage] gates the admin view, and which
    timers re-run the fetches.  The rendering (JSX markup, CSS) is kept
    as far as it decides which user events exist in a state and which
    expressions of the markup can throw on the data the state holds.

    ** Parts of the program and where they are modelled

    - [Prelude] (this file): the scope [dash_scope] (the sequencing
      notation [p ;;; q] of programs lives there), the hint databases
      [dash] and [dash_rw] that the component files extend, and [some_eq].
    - [Http]: the values that cross the network: a JSON type, response
      bodies, requests (axios or fetch, method, URL, parameters, headers,
      body) and replies (network failure, or a status and a body).  The
      two client semantics the code relies on: axios rejects unless
      [validateStatus] accepts ([axios_outcome]); fetch resolves for every
      status and exposes [ok] ([fetch_outcome]).  [js_string] (String(v))
      and [js_prop] (property access that throws on [null]) model how
      [handleLogin] reads and stores [response.data.access_token].
    - [Storage]: [localStorage] as an interface ([Class WebStorage] and
      its laws [WebStorageLaws]) implemented by a [gmap string string];
      [Language] proves its persistence theorem against the laws only.
    - [Language]: LanguageContext.js: the three dictionaries copied in
      source order, [t] with its fallback chain [lang || en || key], the
      provider's initial language from storage, [changeLanguage], and the
      dropdown of App.js lines 35-75 as [dropdown_step].
    - [State]: [AppState], one field per [useState] hook of [AppContent]
      (App.js 81-112) with its initial value and setter; [View];
      [Callback], the closures passed to the timers; and the browser
      [World]: state, storage, the log of issued requests, the alerts,
      the timer table with the next timer id, and the clock.
    - [Async]: the async functions as programs [Prog]: a synchronous state
      change ([PAct]), a read of the world ([PRead]), a suspension on a
      request ([PAwait]) and a call that is not awaited ([PFork], which
      runs the callee to its first suspension and goes on).  [run] runs a
      program to its suspensions (one event-loop turn) and returns the
      pending continuations; [exec] runs it to completion on a list of
      replies.  [completes n p] bounds the replies every path of [p]
      awaits; [stmts S p] says every synchronous statement of [p] has the
      property [S], and [run_stmts] carries an invariant of [S] through a
      turn.  [hoare Inv P p Q] is a Hoare logic for programs relative to a
      world invariant [Inv], in which a read and the statements after it
      in the same synchronous segment see the same world.
    - [Session]: [handleLogin], [handleLogout], the token-restoring effect
      ([restoreSession], App.js 425-430) and [handlePasswordReset]; the
      specification's session machine ([sess_step]: Anonymous /
      Authenticated) and the map [session_of] from worlds to it.
    - [Fetchers]: every fetch function of App.js (articles with validate
      status < 500 and its fetch fallback, SEO statistics, market data,
      live streams with its fallback, the admin calls with their bearer
      header, article generation, the keep-alive ping) and the simulated
      feeds, each as a [Prog] that follows its try/catch/finally.
    - [Scheduler]: the mount effect (App.js 358-408): [loadCriticalData]
      forked, the six timeouts of [loadSecondaryData], the four intervals,
      the cleanup; the browser's timer queue [next_timer] (due time, then
      time armed, then id).
    - [Views]: the view effect (App.js 410-423), the user events of the
      markup ([UIEvent]), when each is offered ([enabled]: a control is
      offered whenever some part of the markup renders it; the dialogs are
      drawn over the page but its controls stay reachable from the
      keyboard) and the program its handler runs ([handler]);
      [isMarketOpen].
    - [App]: the page as a transition system: [load] runs the three
      effects in source order; a [step] is one macrotask (a reply for a
      pending request, the next timer, a user event, the admin view's
      reload, the unmount), after which React commits and re-runs the
      view effect when [currentView] or [selectedCategory] changed
      ([turn]).  [run_events] executes a list of events and is sound for
      [step].  [sys_hoare Inv] lifts a world invariant every program keeps
      in [hoare] to the page ([turn_hoare], [load_hoare]).
    - [Invariants]: the Hoare logic instantiated ([psafe]) with the invariant
      [page_inv] (admin view only when authenticated; authenticated only
      with a stored token), proved for every program and then for every
      reachable state by induction on [steps].
    - [Termination]: the reply bound [completes n] of every program
      (handlers, timer callbacks, the two effects) by [completes_tac].
    - [Render]: the JavaScript values the state holds ([jsval]), the
      operations of the markup that can throw ([get], [js_map],
      [slice_map], [spread_slice], [date_ok]), and per view whether its
      markup renders ([live_view_ok], [dashboard_ok], [admin_ok], ...),
      combined as [page_renders]; the date parser of [new Date(s)] is a
      section variable.
    - [Timers]: the timer table of the world: well-formed ids
      ([timers_wf]), the interval ids of the live intervals
      ([interval_ids]), the frame condition [tframe] of every statement
      of App.js on the timer table, and [timer_inv] over reachable states.
    - [Feeds]: the invariant [feeds_inv] of the collections the
      simulated feeds fill and of the clock ([clock_ok]: no timer
      overdue), kept by every program in [hoare] and by every step.
    - [Spinners]: [settles fl b p], what a program does on every path to
      one of the three loading flags, with [run_settles] for one turn and
      [spin_inv] over reachable states.
    - [Scenarios]: runs of the whole page evaluated by [vm_compute]: the
      requests of a load and their order, the dashboard's reply races,
      the login dialog, a refused stored token, 14 minutes of periodic
      timers, the teardown, and which replies make the markup throw.

    ** What the theorems show

    - Session: login success and failure on every reply, logout
      refinement of the specification's session machine ([Session]); over every
      reachable page state, the admin view is never shown without a
      session and a session always has a token ([Invariants]).
    - Fetch client: exactly one fallback per failed primary request and
      the value each collection ends with, on every reply; 4xx accepted as
      article data; no fallback for market data; logout on 401 for the
      statistics only; [Bearer null] without token ([Fetchers]).
    - Page: the last reply wins even when it contradicts the selected
      filter, and a 404 page in HTML makes the dashboard's render throw
      ([Scenarios]); every loading spinner shown is backed by a pending
      request whose continuation lowers it on every reply ([Spinners]).
    - Scheduling: the mount effect's requests and timers, the cleanup
      leaving the timeouts and the fixed periods of the intervals ([Scheduler], [Scenarios]).
    - Termination and bounds: every program runs to its end on two
      replies (handlers, callbacks), three (mount effect) or four (view
      effect), and these bounds are reached ([Termination]).
    - Timers: over every reachable state the timer ids are distinct and
      below the counter, the live intervals are exactly the four the
      cleanup clears while mounted and none after the unmount, and while
      mounted a timer is always due, so the periodic refresh never stops
      ([Timers]).
    - Rendering: in every reachable state the views fed by the simulated
      data (smart money, policies) render, whatever the server replies,
      while the clock is in the date range ([Feeds]); an article without
      [tags], a live-stream reply that is not an array, or a 404 page in
      HTML make the page throw ([Scenarios]).
    - Translation: every text App.js renders is translated in the three
      languages, the language survives a reload for any storage obeying
      the laws, and an unsupported stored language falls back to English
      ([Language]).

    ** Bounds and fuel

    [run] and [exec] are structural on the program (a continuation
    applied to a reply is a structural subterm), so no fuel is needed and
    both are total.  [run_events] is structural on the list of events.
    [Scenarios.fire_trace] takes the number of timer firings as fuel: 30
    firings reach the 14th minute, which covers every period (60 s to
    600 s) at least once and the coincidences at 120 s, 300 s and 600 s.
    The reply bounds of [Termination] are 0 to 4, the largest number of
    [await]s on one path of each program; [terminates_within] turns them
    into total correctness on any list of that many replies.  Time
    values of dates in [Render] are checked against the 8.64e15 ms range
    of ECMAScript dates, the only bound the markup's dates can break;
    [Feeds.simulated_views_render] assumes the clock stays in that range
    from the load (at most 8.64e15, at least 600000 below its negation,
    so the alerts dated ten minutes back are valid dates).
    Time values are unbounded [Z] milliseconds: JavaScript numbers are
    exact on integers far beyond any reachable clock value, and the code
    does no bit arithmetic.

    ** Not modelled

    Styling and the markup that cannot throw, [shareArticle] (the browser
    share API), [isSlowConnection] (never called), the text
    [formatDistanceToNow] produces (only whether it throws is kept), the
    engine's date-string parser (a variable of [Render]), React's
    rejection of an object given as a text child, [length] read from a
    numeric string, string lengths in UTF-16 units (taken as bytes), [useLanguage]'s
    error outside a provider, properties inherited from
    [Object.prototype] by the dictionaries, React dropping the state
    updates of an unmounted component (the model keeps applying them to
    the world), and
    the backend, a black box answering each request with an arbitrary
    reply.
*)

From stdpp Require Export base list option strings.
From Stdlib Require Export ZArith Lia.

Declare Scope dash_scope.
Delimit Scope dash_scope with dash.
Open Scope dash_scope.

Create HintDb dash discriminated.
Create Rewrite HintDb dash_rw.

(** Injectivity of [Some], stated so that it applies without reducing the
    compared terms (large records of the page state). *)
Lemma some_eq {A} (x y : A) : Some x = Some y -> x = y.
Proof. intros H. by injection H. Qed.
