(* ===== verification/Http.v ===== *)
(** * Http: the values that cross the network and the two HTTP clients

    App.js talks to the backend with two clients: axios ([axios.get],
    [axios.post]) and the browser's [fetch].  This file holds the data they
    exchange (JSON values, response bodies, requests, replies) and the
    part of each client's semantics the code depends on: when a promise is
    rejected, what [error.response?.status] is, what [response.ok] is, and
    what [response.json()] does on a body that is not JSON.  It also holds
    JavaScript's string conversion of a value, used when the code stores a
    value in [localStorage] or interpolates it in a template string. *)

From S2P Require Import Prelude.
From stdpp Require Import pretty.

Module Http.

(** ** Data *)

(** A JSON value.  Numbers are integers [JNum] or decimals [JDec m k]
    standing for [m * 10^-k] (the literals [2.3] or [-0.8] of App.js);
    the code never does arithmetic on them. *)
Inductive json : Type :=
| JNull
| JBool (b : bool)
| JNum (z : Z)
| JDec (m : Z) (k : nat)
| JStr (s : string)
| JArr (l : list json)
| JObj (fields : list (string * json)).

(** A response body as the clients see it: text that parses as JSON, or
    any other text.  axios keeps an unparsable body as the raw string
    ([response.data] is then a string); [fetch]'s [json()] rejects on it. *)
Inductive body : Type :=
| BJson (j : json)
| BText (s : string).

Inductive client : Type := Axios | Fetch.
Inductive method : Type := GET | POST.

#[export] Instance client_eq_dec : EqDecision client.
Proof. solve_decision. Defined.
#[export] Instance method_eq_dec : EqDecision method.
Proof. solve_decision. Defined.

(** One HTTP request as the code builds it: the client, the method, the
    URL (with any query string the code wrote into it), axios's [params]
    (a query string axios appends), the headers, and a JSON body. *)
Record request : Type := mkRequest {
  rq_client : client;
  rq_method : method;
  rq_url : string;
  rq_params : list (string * string);
  rq_headers : list (string * string);
  rq_data : option json
}.

(** What the backend (or the network) answers: a transport failure
    (unreachable host, CORS, dropped connection) or a response. *)
Inductive reply : Type :=
| NetError
| Resp (status : Z) (b : body).

(** ** axios *)

(** The result of an awaited axios call: it resolves with the status and
    [response.data], or rejects with an error whose [error.response] is
    present (with its status) when the server answered. *)
Inductive axios_result : Type :=
| AxOk (status : Z) (data : body)
| AxErr (resp_status : option Z).

(** axios's default [validateStatus]: [status >= 200 && status < 300]. *)
Definition default_validate (s : Z) : bool := (200 <=? s)%Z && (s <? 300)%Z.

(** [validateStatus: (status) => status < 500] of [fetchArticles]
    (App.js line 168). *)
Definition articles_validate (s : Z) : bool := (s <? 500)%Z.

Definition axios_outcome (validate : Z -> bool) (r : reply) : axios_result :=
  match r with
  | NetError => AxErr None
  | Resp s b => if validate s then AxOk s b else AxErr (Some s)
  end.

(** ** fetch *)

(** [fetch] rejects only on a transport failure; otherwise it resolves
    with [ok] set for a status in 200-299. *)
Inductive fetch_result : Type :=
| FRejected
| FResolved (ok : bool) (b : body).

Definition fetch_outcome (r : reply) : fetch_result :=
  match r with
  | NetError => FRejected
  | Resp s b => FResolved (default_validate s) b
  end.

(** [response.json()]: the parsed value, or a rejection ([None]). *)
Definition body_json (b : body) : option json :=
  match b with
  | BJson j => Some j
  | BText _ => None
  end.

(** ** JavaScript values read from a response *)

(** A JavaScript value read from [response.data]: [undefined] or a JSON
    value ([null] included). *)
Inductive jsval : Type :=
| JUndefined
| JDef (j : json).

(** The value of a key in a parsed object; [JSON.parse] keeps the last of
    duplicated keys. *)
Fixpoint obj_get (k : string) (fields : list (string * json)) : option json :=
  match fields with
  | [] => None
  | (k', v) :: rest =>
      match obj_get k rest with
      | Some v' => Some v'
      | None => if String.eqb k k' then Some v else None
      end
  end.

(** [data.key] on axios's [response.data]: a [TypeError] ([None]) when
    [data] is [null], [undefined] on a string, number, boolean or array
    (none of them has the key), the field's value on an object. *)
Definition js_prop (data : body) (k : string) : option jsval :=
  match data with
  | BJson JNull => None
  | BJson (JObj fs) =>
      Some (match obj_get k fs with Some v => JDef v | None => JUndefined end)
  | _ => Some JUndefined
  end.

(** The shortest decimal writing of [m * 10^-k], as JavaScript prints a
    number of moderate magnitude: trailing zeros of the fraction are
    dropped, and an integral value has no point. *)
Fixpoint dec_normalize (m : Z) (k : nat) : Z * nat :=
  match k with
  | O => (m, O)
  | S k' => if (Z.rem m 10 =? 0)%Z then dec_normalize (Z.quot m 10) k' else (m, k)
  end.

Definition dec_to_string (m : Z) (k : nat) : string :=
  let '(m', k') := dec_normalize m k in
  match k' with
  | O => pretty m'
  | _ =>
      let p := (10 ^ Z.of_nat k')%Z in
      let frac := pretty (Z.abs m' mod p)%Z in
      (if (m' <? 0)%Z then "-" else "") +:+ pretty (Z.abs m' / p)%Z +:+ "." +:+
      String.concat "" (repeat "0" (k' - String.length frac)) +:+ frac
  end.

(** [String(v)] on a JSON value: arrays are joined with [","] with [null]
    elements written as the empty string, objects give
    ["[object Object]"]. *)
Fixpoint json_to_string (j : json) : string :=
  match j with
  | JNull => "null"
  | JBool b => if b then "true" else "false"
  | JNum z => pretty z
  | JDec m k => dec_to_string m k
  | JStr s => s
  | JArr l =>
      (fix go (l : list json) : string :=
         match l with
         | [] => ""
         | x :: rest =>
             let sx := match x with JNull => "" | _ => json_to_string x end in
             match rest with
             | [] => sx
             | _ => sx +:+ "," +:+ go rest
             end
         end) l
  | JObj _ => "[object Object]"
  end.

(** [String(v)], as [localStorage.setItem] and template strings apply it. *)
Definition js_string (v : jsval) : string :=
  match v with
  | JUndefined => "undefined"
  | JDef j => json_to_string j
  end.

(** The authorisation header the admin calls build:
    [Authorization: `Bearer ${token}`] with [token] the result of
    [localStorage.getItem("token")], [null] when absent. *)
Definition bearer (token : option string) : string :=
  "Bearer " +:+ match token with Some t => t | None => "null" end.

(** [BACKEND_URL = process.env.REACT_APP_BACKEND_URL || 'http://localhost:8001']
    (App.js line 33; an empty variable is falsy) and
    [API = BACKEND_URL + "/api"] (line 80). *)
Definition BACKEND_URL (env : option string) : string :=
  match env with
  | Some u => if String.eqb u "" then "http://localhost:8001" else u
  | None => "http://localhost:8001"
  end.

Definition API (env : option string) : string := BACKEND_URL env +:+ "/api".

(** JavaScript truthiness of [localStorage.getItem(key)]: [null] and the
    empty string are falsy. *)
Definition js_truthy_str (o : option string) : bool :=
  match o with
  | Some s => negb (String.eqb s "")
  | None => false
  end.

(** ** Classification lemmas shared by the fetch handlers *)

Lemma axios_outcome_net v : axios_outcome v NetError = AxErr None.
Proof. done. Qed.

Lemma axios_outcome_ok v s b :
  v s = true -> axios_outcome v (Resp s b) = AxOk s b.
Proof. intros H. simpl. by rewrite H. Qed.

Lemma axios_outcome_err v s b :
  v s = false -> axios_outcome v (Resp s b) = AxErr (Some s).
Proof. intros H. simpl. by rewrite H. Qed.

#[export] Hint Rewrite axios_outcome_net : dash_rw.

End Http.
