(* ===== verification/Storage.v ===== *)
(** * Storage: the browser's [localStorage]

    App.js keeps the session token under the key ["token"]
    ([handleLogin], [handleLogout], the restoring effect, and the admin
    calls that read it back), and LanguageContext.js keeps the language
    under ["preferred-language"].  The code only uses [getItem] (which
    returns [null] for a missing key), [setItem] and [removeItem].

    The interface [WebStorage] with its laws [WebStorageLaws] is what the
    session code relies on; [gmap_storage] implements it with a
    [gmap string string], and the laws are discharged for it. *)

From S2P Require Import Prelude.
From stdpp Require Import gmap.

Class WebStorage (S : Type) := {
  getItem : string -> S -> option string;
  setItem : string -> string -> S -> S;
  removeItem : string -> S -> S
}.

Class WebStorageLaws (S : Type) `{WebStorage S} := {
  get_set_eq k v s : getItem k (setItem k v s) = Some v;
  get_set_ne k k' v s : k <> k' -> getItem k' (setItem k v s) = getItem k' s;
  get_remove_eq k s : getItem k (removeItem k s) = None;
  get_remove_ne k k' s : k <> k' -> getItem k' (removeItem k s) = getItem k' s;
  remove_remove k s : removeItem k (removeItem k s) = removeItem k s;
  remove_absent k s : getItem k s = None -> removeItem k s = s
}.

(** The implementation: a finite map from keys to strings. *)
#[export] Instance gmap_storage : WebStorage (gmap string string) := {|
  getItem k s := s !! k;
  setItem k v s := <[k := v]> s;
  removeItem k s := delete k s
|}.

#[export] Instance gmap_storage_laws : WebStorageLaws (gmap string string).
Proof.
  split; intros; simpl.
  - apply lookup_insert_eq.
  - by apply lookup_insert_ne.
  - apply lookup_delete_eq.
  - by apply lookup_delete_ne.
  - apply delete_id, lookup_delete_eq.
  - by apply delete_id.
Qed.


