(* ===== verification/Language.v ===== *)
(** * Language: the translation provider and the language dropdown

    [LanguageContext.js] holds three dictionaries ([en], [es], [it]), the
    provider's state [currentLanguage] (initialised from [localStorage]
    key ["preferred-language"], defaulting to ["en"]), [changeLanguage],
    which sets the state and persists the choice, and [t], which resolves
    a key through [translations[currentLanguage]?.[key] ||
    translations.en[key] || key].  [LanguageDropdown] in App.js (lines
    35-75) opens a list of [availableLanguages] and calls
    [changeLanguage] on a choice.

    The dictionaries are copied from the source in its order; [prop] is
    property access on an object literal (the last definition of a key
    wins) and [js_or] is [||] on a string that may be [undefined].  The
    provider is written against the [WebStorage] interface, so its
    persistence theorem holds for every storage satisfying the laws. *)

From S2P Require Import Prelude Storage.
From stdpp Require Import strings gmap.

Module Language.

Definition dict := list (string * string).

(** [o[k]] on an object literal given as its list of properties. *)
Fixpoint prop {A} (k : string) (o : list (string * A)) : option A :=
  match o with
  | [] => None
  | (k', v) :: rest =>
      match prop k rest with
      | Some v' => Some v'
      | None => if String.eqb k k' then Some v else None
      end
  end.

(** The English dictionary, in source order. *)
Definition en_dict : dict := [
  ("dashboard", "Dashboard");
  ("liveNow", "Live Now");
  ("smartMoney", "Smart Money");
  ("policies", "Policies");
  ("about", "About");
  ("admin", "Admin");
  ("privacy", "Privacy");
  ("title", "CryptoAI Digest");
  ("subtitle", "All Financial Intelligence in One Place");
  ("marketClosed", "MARKET CLOSED");
  ("live", "LIVE");
  ("financialDataUpdates", "Financial data updates every 30 seconds");
  ("aiNewsEvery", "AI news every 15 minutes");
  ("allNews", "All News");
  ("finance", "Finance");
  ("cryptocurrency", "Cryptocurrency");
  ("policyUpdates", "Policy Updates");
  ("read", "Read");
  ("share", "Share");
  ("refresh", "Refresh");
  ("loading", "Loading");
  ("loadingNews", "Loading latest financial news...");
  ("liveFinancialStreams", "📡 Live Financial Streams");
  ("liveDescription", "Watch live financial news, market analysis, and crypto events as they happen");
  ("noLiveStreams", "No Live Streams");
  ("noStreamsDescription", "No live financial streams are currently available. Check back soon!");
  ("refreshStreams", "Refresh Streams");
  ("smartMoneyTracker", "Smart Money Tracker");
  ("smartMoneyDescription", "Follow the moves of major investment funds, hedge funds, and institutional investors");
  ("quickLinks", "Quick Links");
  ("contact", "Contact");
  ("generalInquiries", "General Inquiries:");
  ("updates", "Updates:");
  ("liveUpdated", "Live • Updated every 15 minutes");
  ("language", "Language");
  ("english", "English");
  ("spanish", "Spanish");
  ("italian", "Italian")].

(** The Spanish dictionary, in source order. *)
Definition es_dict : dict := [
  ("dashboard", "Panel");
  ("liveNow", "En Vivo");
  ("smartMoney", "Dinero Inteligente");
  ("policies", "Políticas");
  ("about", "Acerca de");
  ("admin", "Admin");
  ("privacy", "Privacidad");
  ("title", "CryptoAI Digest");
  ("subtitle", "Toda la Inteligencia Financiera en Un Lugar");
  ("marketClosed", "MERCADO CERRADO");
  ("live", "EN VIVO");
  ("financialDataUpdates", "Datos financieros actualizados cada 30 segundos");
  ("aiNewsEvery", "Noticias IA cada 15 minutos");
  ("allNews", "Todas las Noticias");
  ("finance", "Finanzas");
  ("cryptocurrency", "Criptomonedas");
  ("policyUpdates", "Actualizaciones de Políticas");
  ("read", "Leer");
  ("share", "Compartir");
  ("refresh", "Actualizar");
  ("loading", "Cargando");
  ("loadingNews", "Cargando las últimas noticias financieras...");
  ("liveFinancialStreams", "📡 Transmisiones Financieras en Vivo");
  ("liveDescription", "Ve noticias financieras en vivo, análisis de mercado y eventos crypto mientras suceden");
  ("noLiveStreams", "Sin Transmisiones en Vivo");
  ("noStreamsDescription", "No hay transmisiones financieras en vivo disponibles. ¡Vuelve pronto!");
  ("refreshStreams", "Actualizar Transmisiones");
  ("smartMoneyTracker", "Rastreador de Dinero Inteligente");
  ("smartMoneyDescription", "Sigue los movimientos de fondos de inversión, hedge funds e inversores institucionales");
  ("quickLinks", "Enlaces Rápidos");
  ("contact", "Contacto");
  ("generalInquiries", "Consultas Generales:");
  ("updates", "Actualizaciones:");
  ("liveUpdated", "En Vivo • Actualizado cada 15 minutos");
  ("language", "Idioma");
  ("english", "Inglés");
  ("spanish", "Español");
  ("italian", "Italiano")].

(** The Italian dictionary, in source order. *)
Definition it_dict : dict := [
  ("dashboard", "Dashboard");
  ("liveNow", "Live Ora");
  ("smartMoney", "Smart Money");
  ("policies", "Politiche");
  ("about", "Chi Siamo");
  ("admin", "Admin");
  ("privacy", "Privacy");
  ("title", "CryptoAI Digest");
  ("subtitle", "Tutta l'Intelligenza Finanziaria in Un Posto");
  ("marketClosed", "MERCATO CHIUSO");
  ("live", "LIVE");
  ("financialDataUpdates", "Dati finanziari aggiornati ogni 30 secondi");
  ("aiNewsEvery", "Notizie AI ogni 15 minuti");
  ("allNews", "Tutte le Notizie");
  ("finance", "Finanza");
  ("cryptocurrency", "Criptovalute");
  ("policyUpdates", "Aggiornamenti Politiche");
  ("read", "Leggi");
  ("share", "Condividi");
  ("refresh", "Aggiorna");
  ("loading", "Caricamento");
  ("loadingNews", "Caricamento ultime notizie finanziarie...");
  ("liveFinancialStreams", "📡 Streaming Finanziari Live");
  ("liveDescription", "Guarda notizie finanziarie live, analisi di mercato ed eventi crypto mentre accadono");
  ("noLiveStreams", "Nessuno Streaming Live");
  ("noStreamsDescription", "Nessuno streaming finanziario live disponibile al momento. Torna presto!");
  ("refreshStreams", "Aggiorna Streaming");
  ("smartMoneyTracker", "Tracker Smart Money");
  ("smartMoneyDescription", "Segui le mosse di fondi di investimento, hedge fund e investitori istituzionali");
  ("quickLinks", "Link Rapidi");
  ("contact", "Contatti");
  ("generalInquiries", "Richieste Generali:");
  ("updates", "Aggiornamenti:");
  ("liveUpdated", "Live • Aggiornato ogni 15 minuti");
  ("language", "Lingua");
  ("english", "Inglese");
  ("spanish", "Spagnolo");
  ("italian", "Italiano")].

Definition translations : list (string * dict) :=
  [("en", en_dict); ("es", es_dict); ("it", it_dict)].

(** [a || b] where [a] is a string or [undefined]: the empty string is
    falsy. *)
Definition js_or (a : option string) (b : string) : string :=
  match a with
  | Some v => if String.eqb v "" then b else v
  | None => b
  end.

(** [t(key)] *)
Definition t (currentLanguage key : string) : string :=
  js_or (prop currentLanguage translations ≫= prop key)
    (js_or (prop "en" translations ≫= prop key) key).

(** ** Lookup and the fallback chain *)

Lemma prop_None {A} k (o : list (string * A)) : prop k o = None <-> ~ In k (map fst o).
Proof.
  induction o as [| [k' v] o IH]; simpl; [tauto |].
  destruct (prop k o) eqn:E.
  - split; [discriminate |]. intros Hn. exfalso. apply Hn. right.
    destruct (in_dec String.string_dec k (map fst o)) as [Hi | Hi]; [exact Hi |].
    by apply IH in Hi.
  - specialize (proj1 IH eq_refl) as Hni.
    destruct (String.eqb_spec k k') as [-> | Hne]; [split; [discriminate | tauto] |].
    split; [| done]. intros _ [-> | Hi]; [done | exact (Hni Hi)].
Qed.

Lemma prop_Some_in {A} k (o : list (string * A)) v : prop k o = Some v -> In v (map snd o).
Proof.
  induction o as [| [k' w] o IH]; simpl; [done |].
  destruct (prop k o); [intros [= ->]; right; by apply IH |].
  destruct (String.eqb k k'); [intros [= ->]; by left | done].
Qed.

Lemma js_or_idem a b : js_or a (js_or a b) = js_or a b.
Proof. destruct a as [v |]; simpl; [destruct (String.eqb v "") |]; done. Qed.

(** The keys App.js passes to [t]. *)
Definition app_keys : list string :=
  ["about"; "admin"; "aiNewsEvery"; "allNews"; "contact"; "cryptocurrency"; "dashboard"; "finance"; "financialDataUpdates"; "generalInquiries"; "live"; "liveDescription"; "liveFinancialStreams"; "liveNow"; "liveUpdated"; "loadingNews"; "marketClosed"; "noLiveStreams"; "noStreamsDescription"; "policies"; "policyUpdates"; "privacy"; "quickLinks"; "read"; "refreshStreams"; "share"; "smartMoney"; "smartMoneyDescription"; "smartMoneyTracker"; "subtitle"; "title"; "updates"].

Record lang_option := mkLang { code : string; name : string; flag : string }.

Definition availableLanguages : list lang_option :=
  [mkLang "en" "English" "🇺🇸"; mkLang "es" "Español" "🇪🇸";
   mkLang "it" "Italiano" "🇮🇹"].

Definition pref_key : string := "preferred-language".

Section Provider.
Context {St : Type} `{WebStorage St}.

Record Provider := mkProvider { currentLanguage : string; store : St }.

(** [useState(() => localStorage.getItem('preferred-language') || 'en')] *)
Definition mount (st : St) : Provider :=
  mkProvider (js_or (getItem pref_key st) "en") st.

Definition changeLanguage (langCode : string) (p : Provider) : Provider :=
  mkProvider langCode (setItem pref_key langCode (store p)).

(** [availableLanguages.find(lang => lang.code === currentLanguage)] *)
Definition currentLang (p : Provider) : option lang_option :=
  find (fun l => String.eqb (code l) (currentLanguage p)) availableLanguages.

Inductive DropEvent := Toggle | Choose (c : string).

(** The dropdown's [isOpen] with the provider: the toggle button, and the
    buttons of the open list, one per available language, whose handler
    calls [changeLanguage] and closes the list. *)
Definition dropdown_step (e : DropEvent) (isOpen : bool) (p : Provider)
    : option (bool * Provider) :=
  match e with
  | Toggle => Some (negb isOpen, p)
  | Choose c =>
      if isOpen && existsb (fun l => String.eqb (code l) c) availableLanguages
      then Some (false, changeLanguage c p) else None
  end.

End Provider.

(** ** Properties of the dictionaries and of [t] *)

(** [lang] has a non-empty entry for [k]. *)
Definition translated (lang k : string) : bool :=
  match prop lang translations ≫= prop k with
  | Some v => negb (String.eqb v "")
  | None => false
  end.

Lemma translated_t lang k :
  translated lang k = true ->
  exists v, (prop lang translations ≫= prop k) = Some v /\ v <> "" /\ t lang k = v.
Proof.
  unfold translated, t. destruct (prop lang translations ≫= prop k) as [v |]; [| done].
  intros Hv. exists v. simpl. destruct (String.eqb_spec v ""); done.
Qed.

Lemma all_translated :
  forallb (fun l => forallb (translated (code l)) (map fst en_dict)) availableLanguages = true.
Proof. vm_compute. reflexivity. Qed.

(** Every available language has a non-empty entry for every key of the
    English dictionary. *)
Lemma translations_complete l k :
  In l availableLanguages -> In k (map fst en_dict) ->
  exists v, (prop (code l) translations ≫= prop k) = Some v /\ v <> "" /\ t (code l) k = v.
Proof.
  intros Hl Hk. apply translated_t.
  pose proof all_translated as A. rewrite forallb_forall in A.
  specialize (A l Hl). rewrite forallb_forall in A. by apply A.
Qed.

Lemma app_keys_defined : Forall (fun k => k ∈ map fst en_dict) app_keys.
Proof. apply (bool_decide_unpack _). vm_compute. reflexivity. Qed.

(** The three dictionaries define the same keys. *)
Lemma dict_keys : Forall (fun d => map fst d = map fst en_dict) (map snd translations).
Proof. repeat constructor. Qed.

(** A key the English dictionary lacks is missing from every
    dictionary. *)
Lemma lookup_undefined lang k :
  ~ In k (map fst en_dict) -> (prop lang translations ≫= prop k) = None.
Proof.
  intros Hk. destruct (prop lang translations) as [d |] eqn:E; [simpl | done].
  apply prop_None. apply prop_Some_in in E.
  pose proof dict_keys as K. rewrite Forall_forall in K.
  by rewrite (K d (proj2 (list_elem_of_In _ _) E)).
Qed.

(** The fallback of [t] for a language without a dictionary. *)
Lemma t_no_dictionary lang k : prop lang translations = None -> t lang k = t "en" k.
Proof. intros Hl. unfold t. rewrite Hl. simpl. symmetry. apply js_or_idem. Qed.

(** C35: every text App.js renders through [t] is translated in each of
    the three languages of the dropdown: [t] returns that language's own
    non-empty entry, never the English one and never the bare key. *)
Theorem app_text_translated l k :
  In l availableLanguages -> In k app_keys ->
  exists v, (prop (code l) translations ≫= prop k) = Some v /\ v <> "" /\ t (code l) k = v.
Proof.
  intros Hl Hk. apply translations_complete; [done |].
  pose proof app_keys_defined as K. rewrite Forall_forall in K.
  apply list_elem_of_In, K. by apply list_elem_of_In.
Qed.

Lemma app_text_translated_witness :
  In (mkLang "it" "Italiano" "🇮🇹") availableLanguages /\ In "read" app_keys /\
  exists v, (prop "it" translations ≫= prop "read") = Some v /\ v <> "" /\ t "it" "read" = v.
Proof.
  assert (Hl : In (mkLang "it" "Italiano" "🇮🇹") availableLanguages) by (simpl; tauto).
  assert (Hk : In "read" app_keys) by (vm_compute; tauto).
  split; [exact Hl | split; [exact Hk | exact (app_text_translated _ _ Hl Hk)]].
Defined.

(** a key that the English dictionary does not define is rendered
    as the key itself, whatever the language. *)
Theorem t_undefined_key lang k : ~ In k (map fst en_dict) -> t lang k = k.
Proof.
  intros Hk. unfold t. by rewrite !lookup_undefined.
Qed.

Lemma find_existsb {A} (f : A -> bool) l :
  existsb f l = true -> exists x, find f l = Some x /\ In x l /\ f x = true.
Proof.
  intros Hf. destruct (find f l) as [x |] eqn:E.
  - exists x. split; [done |]. by apply find_some in E.
  - apply existsb_exists in Hf as (y & Hy & Hfy).
    by rewrite (find_none _ _ E y Hy) in Hfy.
Qed.

(** The codes of the dropdown are the languages that have a dictionary. *)
Lemma available_codes : map code availableLanguages = map fst translations.
Proof. reflexivity. Qed.

Section ProviderLaws.
Context {St : Type} `{WebStorageLaws St}.

(** C36: a language chosen with [changeLanguage] is shown at once and
    survives a reload: the provider mounted on the storage it leaves
    starts in that language (in English if the code is empty, which
    [||] treats as missing). *)
Theorem changeLanguage_persists c (p : Provider) :
  currentLanguage (changeLanguage c p) = c /\
  currentLanguage (mount (store (changeLanguage c p))) =
    (if String.eqb c "" then "en" else c).
Proof. unfold mount, changeLanguage. simpl. by rewrite get_set_eq. Qed.

(** C37: choosing a language in the dropdown is possible only while its
    list is open and for one of the three available codes; it closes the
    list, switches the provider to that language, persists it under
    ["preferred-language"], and the dropdown then shows that language's
    flag. *)
Theorem dropdown_choose c isOpen (p : Provider) isOpen' p' :
  dropdown_step (Choose c) isOpen p = Some (isOpen', p') ->
  isOpen = true /\ isOpen' = false /\ currentLanguage p' = c /\
  getItem pref_key (store p') = Some c /\
  exists l, In l availableLanguages /\ code l = c /\ currentLang p' = Some l.
Proof.
  unfold dropdown_step. destruct isOpen; cbn [andb]; [| done].
  destruct (existsb (fun l => String.eqb (code l) c) availableLanguages) eqn:E; [| done]. intros [= <- <-].
  destruct (find_existsb _ _ E) as (l & Hf & Hin & Hc).
  apply String.eqb_eq in Hc.
  do 3 (split; [done |]). split; [by apply get_set_eq |].
  exists l. split; [done |]. split; [done |].
  unfold currentLang. cbn [currentLanguage changeLanguage]. exact Hf.
Qed.

(** C38: a stored language without a dictionary (written by an older
    version or by hand) is not validated: the provider starts in it, the
    dropdown finds no entry for it (no flag), and every text falls back
    to English. *)
Theorem stored_unsupported_language st c :
  getItem pref_key st = Some c -> c <> "" -> prop c translations = None ->
  currentLanguage (mount st) = c /\ currentLang (mount st) = None /\
  forall k, t (currentLanguage (mount st)) k = t "en" k.
Proof.
  intros Hs Hc Hl. unfold mount. simpl. rewrite Hs. simpl.
  destruct (String.eqb_spec c "") as [| _]; [done |].
  split; [done | split]; [| intros k; by apply t_no_dictionary].
  unfold currentLang. cbn [currentLanguage].
  destruct (find (fun l => String.eqb (code l) c) availableLanguages) as [l |] eqn:E; [| done].
  apply find_some in E as [Hin Heq]. apply String.eqb_eq in Heq.
  apply prop_None in Hl. rewrite <-available_codes in Hl.
  destruct Hl. rewrite <-Heq. by apply in_map.
Qed.

End ProviderLaws.

Lemma changeLanguage_persists_witness :
  currentLanguage (changeLanguage "es" (mount (∅ : gmap string string))) = "es" /\
  currentLanguage (mount (store (changeLanguage "es" (mount (∅ : gmap string string))))) = "es".
Proof. exact (changeLanguage_persists (St := gmap string string) "es" (mount ∅)). Defined.

Lemma dropdown_choose_witness :
  dropdown_step (Choose "it") true (mount (∅ : gmap string string)) =
    Some (false, changeLanguage "it" (mount ∅)) /\
  currentLang (changeLanguage "it" (mount (∅ : gmap string string))) =
    Some (mkLang "it" "Italiano" "🇮🇹").
Proof.
  assert (H : dropdown_step (Choose "it") true (mount (∅ : gmap string string)) =
                Some (false, changeLanguage "it" (mount ∅))) by reflexivity.
  split; [exact H |].
  destruct (dropdown_choose _ _ _ _ _ H) as (_ & _ & _ & _ & l & Hin & Hc & ->).
  simpl in Hin. repeat destruct Hin as [<- | Hin]; try done.
Defined.

Lemma stored_unsupported_language_witness :
  getItem pref_key (<[pref_key := "fr"]> (∅ : gmap string string)) = Some "fr" /\
  currentLanguage (mount (<[pref_key := "fr"]> (∅ : gmap string string))) = "fr" /\
  currentLang (mount (<[pref_key := "fr"]> (∅ : gmap string string))) = None /\
  t (currentLanguage (mount (<[pref_key := "fr"]> (∅ : gmap string string)))) "title" =
    t "en" "title".
Proof.
  assert (Hs : getItem pref_key (<[pref_key := "fr"]> (∅ : gmap string string)) = Some "fr")
    by reflexivity.
  destruct (stored_unsupported_language _ "fr" Hs ltac:(done) ltac:(reflexivity))
    as (H1 & H2 & H3).
  split; [exact Hs | split; [exact H1 | split; [exact H2 | apply H3]]].
Defined.

End Language.
