(* ===== verification/State.v ===== *)
(** * State: the state of [AppContent] and of the browser around it

    [AppState] has one field per [useState] hook of [AppContent]
    (App.js lines 81-112), with the hook's initial value in
    [initial_state] and React's setter as [setX].  [World] adds what the
    browser holds: [localStorage], the requests issued so far (in issue
    order), the messages shown with [alert], the timers set with
    [setTimeout] and [setInterval], the next timer id and the clock
    ([Date.now()], in milliseconds).

    The timers' callbacks are the closures of App.js passed to
    [setTimeout] and [setInterval]; [Callback] has one constructor per
    closure, and [Scheduler] gives each its program. *)

From S2P Require Import Prelude Http Storage.
From stdpp Require Import gmap.
Import Http.

Module State.

(** The views [currentView] takes; App.js writes them as string
    literals, given by [view_id]. *)
Inductive View : Type :=
| Dashboard | LiveNow | SmartMoney | Policies | About | Privacy | Admin.

#[export] Instance View_eq_dec : EqDecision View.
Proof. solve_decision. Defined.

Definition view_id (v : View) : string :=
  match v with
  | Dashboard => "dashboard" | LiveNow => "live-now"
  | SmartMoney => "smart-money" | Policies => "policies"
  | About => "about" | Privacy => "privacy" | Admin => "admin"
  end.

(** [loginData]: the login form, [{ username, password }]. *)
Record login_data : Type := { username : string; password : string }.

Definition login_json (d : login_data) : json :=
  JObj [("username", JStr (username d)); ("password", JStr (password d))].

Record AppState : Type := mkAppState {
  currentView : View;
  selectedCategory : string;
  loading : bool;
  articles : body;
  selectedArticle : option json;
  marketData : body;
  marketLoading : bool;
  trendingTopics : body;
  marketAlerts : body;
  readingList : body;
  institutionalData : body;
  policyUpdates : body;
  liveStreams : body;
  liveStreamsLoading : bool;
  selectedStreamCategory : string;
  isAuthenticated : bool;
  showLogin : bool;
  showPasswordReset : bool;
  loginData : login_data;
  resetEmail : string;
  recoveryStep : nat;
  adminStats : body;
  newsSources : body;
  seoStats : body
}.

(** The initial values of the hooks, App.js lines 81-112. *)
Definition initial_state : AppState := {|
  currentView := Dashboard;
  selectedCategory := "all";
  loading := false;
  articles := BJson (JArr []);
  selectedArticle := None;
  marketData := BJson (JObj [("stocks", JArr []); ("cryptos", JArr [])]);
  marketLoading := false;
  trendingTopics := BJson (JArr []);
  marketAlerts := BJson (JArr []);
  readingList := BJson (JObj [("finance", JArr []); ("crypto", JArr [])]);
  institutionalData := BJson (JArr []);
  policyUpdates := BJson (JArr []);
  liveStreams := BJson (JArr []);
  liveStreamsLoading := false;
  selectedStreamCategory := "all";
  isAuthenticated := false;
  showLogin := false;
  showPasswordReset := false;
  loginData := {| username := ""; password := "" |};
  resetEmail := "";
  recoveryStep := 1;
  adminStats := BJson (JObj []);
  newsSources := BJson (JArr []);
  seoStats := BJson (JObj [])
|}.

(** The setters React returns with each hook, one per field. *)
Definition setCurrentView (x : View) (s : AppState) : AppState :=
  {| currentView := x; selectedCategory := selectedCategory s;
     loading := loading s; articles := articles s;
     selectedArticle := selectedArticle s; marketData := marketData s;
     marketLoading := marketLoading s; trendingTopics := trendingTopics s;
     marketAlerts := marketAlerts s; readingList := readingList s;
     institutionalData := institutionalData s;
     policyUpdates := policyUpdates s; liveStreams := liveStreams s;
     liveStreamsLoading := liveStreamsLoading s;
     selectedStreamCategory := selectedStreamCategory s;
     isAuthenticated := isAuthenticated s; showLogin := showLogin s;
     showPasswordReset := showPasswordReset s; loginData := loginData s;
     resetEmail := resetEmail s; recoveryStep := recoveryStep s;
     adminStats := adminStats s; newsSources := newsSources s;
     seoStats := seoStats s |}.
Definition setSelectedCategory (x : string) (s : AppState) : AppState :=
  {| currentView := currentView s; selectedCategory := x;
     loading := loading s; articles := articles s;
     selectedArticle := selectedArticle s; marketData := marketData s;
     marketLoading := marketLoading s; trendingTopics := trendingTopics s;
     marketAlerts := marketAlerts s; readingList := readingList s;
     institutionalData := institutionalData s;
     policyUpdates := policyUpdates s; liveStreams := liveStreams s;
     liveStreamsLoading := liveStreamsLoading s;
     selectedStreamCategory := selectedStreamCategory s;
     isAuthenticated := isAuthenticated s; showLogin := showLogin s;
     showPasswordReset := showPasswordReset s; loginData := loginData s;
     resetEmail := resetEmail s; recoveryStep := recoveryStep s;
     adminStats := adminStats s; newsSources := newsSources s;
     seoStats := seoStats s |}.
Definition setLoading (x : bool) (s : AppState) : AppState :=
  {| currentView := currentView s; selectedCategory := selectedCategory s;
     loading := x; articles := articles s;
     selectedArticle := selectedArticle s; marketData := marketData s;
     marketLoading := marketLoading s; trendingTopics := trendingTopics s;
     marketAlerts := marketAlerts s; readingList := readingList s;
     institutionalData := institutionalData s;
     policyUpdates := policyUpdates s; liveStreams := liveStreams s;
     liveStreamsLoading := liveStreamsLoading s;
     selectedStreamCategory := selectedStreamCategory s;
     isAuthenticated := isAuthenticated s; showLogin := showLogin s;
     showPasswordReset := showPasswordReset s; loginData := loginData s;
     resetEmail := resetEmail s; recoveryStep := recoveryStep s;
     adminStats := adminStats s; newsSources := newsSources s;
     seoStats := seoStats s |}.
Definition setArticles (x : body) (s : AppState) : AppState :=
  {| currentView := currentView s; selectedCategory := selectedCategory s;
     loading := loading s; articles := x;
     selectedArticle := selectedArticle s; marketData := marketData s;
     marketLoading := marketLoading s; trendingTopics := trendingTopics s;
     marketAlerts := marketAlerts s; readingList := readingList s;
     institutionalData := institutionalData s;
     policyUpdates := policyUpdates s; liveStreams := liveStreams s;
     liveStreamsLoading := liveStreamsLoading s;
     selectedStreamCategory := selectedStreamCategory s;
     isAuthenticated := isAuthenticated s; showLogin := showLogin s;
     showPasswordReset := showPasswordReset s; loginData := loginData s;
     resetEmail := resetEmail s; recoveryStep := recoveryStep s;
     adminStats := adminStats s; newsSources := newsSources s;
     seoStats := seoStats s |}.
Definition setSelectedArticle (x : option json) (s : AppState) : AppState :=
  {| currentView := currentView s; selectedCategory := selectedCategory s;
     loading := loading s; articles := articles s; selectedArticle := x;
     marketData := marketData s; marketLoading := marketLoading s;
     trendingTopics := trendingTopics s; marketAlerts := marketAlerts s;
     readingList := readingList s; institutionalData := institutionalData s;
     policyUpdates := policyUpdates s; liveStreams := liveStreams s;
     liveStreamsLoading := liveStreamsLoading s;
     selectedStreamCategory := selectedStreamCategory s;
     isAuthenticated := isAuthenticated s; showLogin := showLogin s;
     showPasswordReset := showPasswordReset s; loginData := loginData s;
     resetEmail := resetEmail s; recoveryStep := recoveryStep s;
     adminStats := adminStats s; newsSources := newsSources s;
     seoStats := seoStats s |}.
Definition setMarketData (x : body) (s : AppState) : AppState :=
  {| currentView := currentView s; selectedCategory := selectedCategory s;
     loading := loading s; articles := articles s;
     selectedArticle := selectedArticle s; marketData := x;
     marketLoading := marketLoading s; trendingTopics := trendingTopics s;
     marketAlerts := marketAlerts s; readingList := readingList s;
     institutionalData := institutionalData s;
     policyUpdates := policyUpdates s; liveStreams := liveStreams s;
     liveStreamsLoading := liveStreamsLoading s;
     selectedStreamCategory := selectedStreamCategory s;
     isAuthenticated := isAuthenticated s; showLogin := showLogin s;
     showPasswordReset := showPasswordReset s; loginData := loginData s;
     resetEmail := resetEmail s; recoveryStep := recoveryStep s;
     adminStats := adminStats s; newsSources := newsSources s;
     seoStats := seoStats s |}.
Definition setMarketLoading (x : bool) (s : AppState) : AppState :=
  {| currentView := currentView s; selectedCategory := selectedCategory s;
     loading := loading s; articles := articles s;
     selectedArticle := selectedArticle s; marketData := marketData s;
     marketLoading := x; trendingTopics := trendingTopics s;
     marketAlerts := marketAlerts s; readingList := readingList s;
     institutionalData := institutionalData s;
     policyUpdates := policyUpdates s; liveStreams := liveStreams s;
     liveStreamsLoading := liveStreamsLoading s;
     selectedStreamCategory := selectedStreamCategory s;
     isAuthenticated := isAuthenticated s; showLogin := showLogin s;
     showPasswordReset := showPasswordReset s; loginData := loginData s;
     resetEmail := resetEmail s; recoveryStep := recoveryStep s;
     adminStats := adminStats s; newsSources := newsSources s;
     seoStats := seoStats s |}.
Definition setTrendingTopics (x : body) (s : AppState) : AppState :=
  {| currentView := currentView s; selectedCategory := selectedCategory s;
     loading := loading s; articles := articles s;
     selectedArticle := selectedArticle s; marketData := marketData s;
     marketLoading := marketLoading s; trendingTopics := x;
     marketAlerts := marketAlerts s; readingList := readingList s;
     institutionalData := institutionalData s;
     policyUpdates := policyUpdates s; liveStreams := liveStreams s;
     liveStreamsLoading := liveStreamsLoading s;
     selectedStreamCategory := selectedStreamCategory s;
     isAuthenticated := isAuthenticated s; showLogin := showLogin s;
     showPasswordReset := showPasswordReset s; loginData := loginData s;
     resetEmail := resetEmail s; recoveryStep := recoveryStep s;
     adminStats := adminStats s; newsSources := newsSources s;
     seoStats := seoStats s |}.
Definition setMarketAlerts (x : body) (s : AppState) : AppState :=
  {| currentView := currentView s; selectedCategory := selectedCategory s;
     loading := loading s; articles := articles s;
     selectedArticle := selectedArticle s; marketData := marketData s;
     marketLoading := marketLoading s; trendingTopics := trendingTopics s;
     marketAlerts := x; readingList := readingList s;
     institutionalData := institutionalData s;
     policyUpdates := policyUpdates s; liveStreams := liveStreams s;
     liveStreamsLoading := liveStreamsLoading s;
     selectedStreamCategory := selectedStreamCategory s;
     isAuthenticated := isAuthenticated s; showLogin := showLogin s;
     showPasswordReset := showPasswordReset s; loginData := loginData s;
     resetEmail := resetEmail s; recoveryStep := recoveryStep s;
     adminStats := adminStats s; newsSources := newsSources s;
     seoStats := seoStats s |}.
Definition setReadingList (x : body) (s : AppState) : AppState :=
  {| currentView := currentView s; selectedCategory := selectedCategory s;
     loading := loading s; articles := articles s;
     selectedArticle := selectedArticle s; marketData := marketData s;
     marketLoading := marketLoading s; trendingTopics := trendingTopics s;
     marketAlerts := marketAlerts s; readingList := x;
     institutionalData := institutionalData s;
     policyUpdates := policyUpdates s; liveStreams := liveStreams s;
     liveStreamsLoading := liveStreamsLoading s;
     selectedStreamCategory := selectedStreamCategory s;
     isAuthenticated := isAuthenticated s; showLogin := showLogin s;
     showPasswordReset := showPasswordReset s; loginData := loginData s;
     resetEmail := resetEmail s; recoveryStep := recoveryStep s;
     adminStats := adminStats s; newsSources := newsSources s;
     seoStats := seoStats s |}.
Definition setInstitutionalData (x : body) (s : AppState) : AppState :=
  {| currentView := currentView s; selectedCategory := selectedCategory s;
     loading := loading s; articles := articles s;
     selectedArticle := selectedArticle s; marketData := marketData s;
     marketLoading := marketLoading s; trendingTopics := trendingTopics s;
     marketAlerts := marketAlerts s; readingList := readingList s;
     institutionalData := x; policyUpdates := policyUpdates s;
     liveStreams := liveStreams s;
     liveStreamsLoading := liveStreamsLoading s;
     selectedStreamCategory := selectedStreamCategory s;
     isAuthenticated := isAuthenticated s; showLogin := showLogin s;
     showPasswordReset := showPasswordReset s; loginData := loginData s;
     resetEmail := resetEmail s; recoveryStep := recoveryStep s;
     adminStats := adminStats s; newsSources := newsSources s;
     seoStats := seoStats s |}.
Definition setPolicyUpdates (x : body) (s : AppState) : AppState :=
  {| currentView := currentView s; selectedCategory := selectedCategory s;
     loading := loading s; articles := articles s;
     selectedArticle := selectedArticle s; marketData := marketData s;
     marketLoading := marketLoading s; trendingTopics := trendingTopics s;
     marketAlerts := marketAlerts s; readingList := readingList s;
     institutionalData := institutionalData s; policyUpdates := x;
     liveStreams := liveStreams s;
     liveStreamsLoading := liveStreamsLoading s;
     selectedStreamCategory := selectedStreamCategory s;
     isAuthenticated := isAuthenticated s; showLogin := showLogin s;
     showPasswordReset := showPasswordReset s; loginData := loginData s;
     resetEmail := resetEmail s; recoveryStep := recoveryStep s;
     adminStats := adminStats s; newsSources := newsSources s;
     seoStats := seoStats s |}.
Definition setLiveStreams (x : body) (s : AppState) : AppState :=
  {| currentView := currentView s; selectedCategory := selectedCategory s;
     loading := loading s; articles := articles s;
     selectedArticle := selectedArticle s; marketData := marketData s;
     marketLoading := marketLoading s; trendingTopics := trendingTopics s;
     marketAlerts := marketAlerts s; readingList := readingList s;
     institutionalData := institutionalData s;
     policyUpdates := policyUpdates s; liveStreams := x;
     liveStreamsLoading := liveStreamsLoading s;
     selectedStreamCategory := selectedStreamCategory s;
     isAuthenticated := isAuthenticated s; showLogin := showLogin s;
     showPasswordReset := showPasswordReset s; loginData := loginData s;
     resetEmail := resetEmail s; recoveryStep := recoveryStep s;
     adminStats := adminStats s; newsSources := newsSources s;
     seoStats := seoStats s |}.
Definition setLiveStreamsLoading (x : bool) (s : AppState) : AppState :=
  {| currentView := currentView s; selectedCategory := selectedCategory s;
     loading := loading s; articles := articles s;
     selectedArticle := selectedArticle s; marketData := marketData s;
     marketLoading := marketLoading s; trendingTopics := trendingTopics s;
     marketAlerts := marketAlerts s; readingList := readingList s;
     institutionalData := institutionalData s;
     policyUpdates := policyUpdates s; liveStreams := liveStreams s;
     liveStreamsLoading := x;
     selectedStreamCategory := selectedStreamCategory s;
     isAuthenticated := isAuthenticated s; showLogin := showLogin s;
     showPasswordReset := showPasswordReset s; loginData := loginData s;
     resetEmail := resetEmail s; recoveryStep := recoveryStep s;
     adminStats := adminStats s; newsSources := newsSources s;
     seoStats := seoStats s |}.
Definition setSelectedStreamCategory (x : string) (s : AppState) : AppState :=
  {| currentView := currentView s; selectedCategory := selectedCategory s;
     loading := loading s; articles := articles s;
     selectedArticle := selectedArticle s; marketData := marketData s;
     marketLoading := marketLoading s; trendingTopics := trendingTopics s;
     marketAlerts := marketAlerts s; readingList := readingList s;
     institutionalData := institutionalData s;
     policyUpdates := policyUpdates s; liveStreams := liveStreams s;
     liveStreamsLoading := liveStreamsLoading s; selectedStreamCategory := x;
     isAuthenticated := isAuthenticated s; showLogin := showLogin s;
     showPasswordReset := showPasswordReset s; loginData := loginData s;
     resetEmail := resetEmail s; recoveryStep := recoveryStep s;
     adminStats := adminStats s; newsSources := newsSources s;
     seoStats := seoStats s |}.
Definition setIsAuthenticated (x : bool) (s : AppState) : AppState :=
  {| currentView := currentView s; selectedCategory := selectedCategory s;
     loading := loading s; articles := articles s;
     selectedArticle := selectedArticle s; marketData := marketData s;
     marketLoading := marketLoading s; trendingTopics := trendingTopics s;
     marketAlerts := marketAlerts s; readingList := readingList s;
     institutionalData := institutionalData s;
     policyUpdates := policyUpdates s; liveStreams := liveStreams s;
     liveStreamsLoading := liveStreamsLoading s;
     selectedStreamCategory := selectedStreamCategory s;
     isAuthenticated := x; showLogin := showLogin s;
     showPasswordReset := showPasswordReset s; loginData := loginData s;
     resetEmail := resetEmail s; recoveryStep := recoveryStep s;
     adminStats := adminStats s; newsSources := newsSources s;
     seoStats := seoStats s |}.
Definition setShowLogin (x : bool) (s : AppState) : AppState :=
  {| currentView := currentView s; selectedCategory := selectedCategory s;
     loading := loading s; articles := articles s;
     selectedArticle := selectedArticle s; marketData := marketData s;
     marketLoading := marketLoading s; trendingTopics := trendingTopics s;
     marketAlerts := marketAlerts s; readingList := readingList s;
     institutionalData := institutionalData s;
     policyUpdates := policyUpdates s; liveStreams := liveStreams s;
     liveStreamsLoading := liveStreamsLoading s;
     selectedStreamCategory := selectedStreamCategory s;
     isAuthenticated := isAuthenticated s; showLogin := x;
     showPasswordReset := showPasswordReset s; loginData := loginData s;
     resetEmail := resetEmail s; recoveryStep := recoveryStep s;
     adminStats := adminStats s; newsSources := newsSources s;
     seoStats := seoStats s |}.
Definition setShowPasswordReset (x : bool) (s : AppState) : AppState :=
  {| currentView := currentView s; selectedCategory := selectedCategory s;
     loading := loading s; articles := articles s;
     selectedArticle := selectedArticle s; marketData := marketData s;
     marketLoading := marketLoading s; trendingTopics := trendingTopics s;
     marketAlerts := marketAlerts s; readingList := readingList s;
     institutionalData := institutionalData s;
     policyUpdates := policyUpdates s; liveStreams := liveStreams s;
     liveStreamsLoading := liveStreamsLoading s;
     selectedStreamCategory := selectedStreamCategory s;
     isAuthenticated := isAuthenticated s; showLogin := showLogin s;
     showPasswordReset := x; loginData := loginData s;
     resetEmail := resetEmail s; recoveryStep := recoveryStep s;
     adminStats := adminStats s; newsSources := newsSources s;
     seoStats := seoStats s |}.
Definition setLoginData (x : login_data) (s : AppState) : AppState :=
  {| currentView := currentView s; selectedCategory := selectedCategory s;
     loading := loading s; articles := articles s;
     selectedArticle := selectedArticle s; marketData := marketData s;
     marketLoading := marketLoading s; trendingTopics := trendingTopics s;
     marketAlerts := marketAlerts s; readingList := readingList s;
     institutionalData := institutionalData s;
     policyUpdates := policyUpdates s; liveStreams := liveStreams s;
     liveStreamsLoading := liveStreamsLoading s;
     selectedStreamCategory := selectedStreamCategory s;
     isAuthenticated := isAuthenticated s; showLogin := showLogin s;
     showPasswordReset := showPasswordReset s; loginData := x;
     resetEmail := resetEmail s; recoveryStep := recoveryStep s;
     adminStats := adminStats s; newsSources := newsSources s;
     seoStats := seoStats s |}.
Definition setResetEmail (x : string) (s : AppState) : AppState :=
  {| currentView := currentView s; selectedCategory := selectedCategory s;
     loading := loading s; articles := articles s;
     selectedArticle := selectedArticle s; marketData := marketData s;
     marketLoading := marketLoading s; trendingTopics := trendingTopics s;
     marketAlerts := marketAlerts s; readingList := readingList s;
     institutionalData := institutionalData s;
     policyUpdates := policyUpdates s; liveStreams := liveStreams s;
     liveStreamsLoading := liveStreamsLoading s;
     selectedStreamCategory := selectedStreamCategory s;
     isAuthenticated := isAuthenticated s; showLogin := showLogin s;
     showPasswordReset := showPasswordReset s; loginData := loginData s;
     resetEmail := x; recoveryStep := recoveryStep s;
     adminStats := adminStats s; newsSources := newsSources s;
     seoStats := seoStats s |}.
Definition setRecoveryStep (x : nat) (s : AppState) : AppState :=
  {| currentView := currentView s; selectedCategory := selectedCategory s;
     loading := loading s; articles := articles s;
     selectedArticle := selectedArticle s; marketData := marketData s;
     marketLoading := marketLoading s; trendingTopics := trendingTopics s;
     marketAlerts := marketAlerts s; readingList := readingList s;
     institutionalData := institutionalData s;
     policyUpdates := policyUpdates s; liveStreams := liveStreams s;
     liveStreamsLoading := liveStreamsLoading s;
     selectedStreamCategory := selectedStreamCategory s;
     isAuthenticated := isAuthenticated s; showLogin := showLogin s;
     showPasswordReset := showPasswordReset s; loginData := loginData s;
     resetEmail := resetEmail s; recoveryStep := x;
     adminStats := adminStats s; newsSources := newsSources s;
     seoStats := seoStats s |}.
Definition setAdminStats (x : body) (s : AppState) : AppState :=
  {| currentView := currentView s; selectedCategory := selectedCategory s;
     loading := loading s; articles := articles s;
     selectedArticle := selectedArticle s; marketData := marketData s;
     marketLoading := marketLoading s; trendingTopics := trendingTopics s;
     marketAlerts := marketAlerts s; readingList := readingList s;
     institutionalData := institutionalData s;
     policyUpdates := policyUpdates s; liveStreams := liveStreams s;
     liveStreamsLoading := liveStreamsLoading s;
     selectedStreamCategory := selectedStreamCategory s;
     isAuthenticated := isAuthenticated s; showLogin := showLogin s;
     showPasswordReset := showPasswordReset s; loginData := loginData s;
     resetEmail := resetEmail s; recoveryStep := recoveryStep s;
     adminStats := x; newsSources := newsSources s;
     seoStats := seoStats s |}.
Definition setNewsSources (x : body) (s : AppState) : AppState :=
  {| currentView := currentView s; selectedCategory := selectedCategory s;
     loading := loading s; articles := articles s;
     selectedArticle := selectedArticle s; marketData := marketData s;
     marketLoading := marketLoading s; trendingTopics := trendingTopics s;
     marketAlerts := marketAlerts s; readingList := readingList s;
     institutionalData := institutionalData s;
     policyUpdates := policyUpdates s; liveStreams := liveStreams s;
     liveStreamsLoading := liveStreamsLoading s;
     selectedStreamCategory := selectedStreamCategory s;
     isAuthenticated := isAuthenticated s; showLogin := showLogin s;
     showPasswordReset := showPasswordReset s; loginData := loginData s;
     resetEmail := resetEmail s; recoveryStep := recoveryStep s;
     adminStats := adminStats s; newsSources := x; seoStats := seoStats s |}.
Definition setSeoStats (x : body) (s : AppState) : AppState :=
  {| currentView := currentView s; selectedCategory := selectedCategory s;
     loading := loading s; articles := articles s;
     selectedArticle := selectedArticle s; marketData := marketData s;
     marketLoading := marketLoading s; trendingTopics := trendingTopics s;
     marketAlerts := marketAlerts s; readingList := readingList s;
     institutionalData := institutionalData s;
     policyUpdates := policyUpdates s; liveStreams := liveStreams s;
     liveStreamsLoading := liveStreamsLoading s;
     selectedStreamCategory := selectedStreamCategory s;
     isAuthenticated := isAuthenticated s; showLogin := showLogin s;
     showPasswordReset := showPasswordReset s; loginData := loginData s;
     resetEmail := resetEmail s; recoveryStep := recoveryStep s;
     adminStats := adminStats s; newsSources := newsSources s;
     seoStats := x |}.

(** ** Timers *)

(** The closures App.js hands to [setTimeout] and [setInterval]:
    the six staggered loads of [loadSecondaryData] (lines 373-378), the
    four intervals of the mount effect (lines 388-400), and the delayed
    [fetchAdminStats] of [triggerArticleGeneration] (line 466). *)
Inductive Callback : Type :=
| CbFetchTrendingTopics
| CbFetchMarketAlerts
| CbFetchReadingList
| CbFetchInstitutionalData
| CbFetchPolicyUpdates
| CbFetchLiveStreams
| CbFetchMarketData
| CbKeepAlive
| CbFetchAdminStats.

#[export] Instance Callback_eq_dec : EqDecision Callback.
Proof. solve_decision. Defined.

(** A pending timer: its id, the time it was (re)armed, its delay, whether
    it repeats ([setInterval]) or not ([setTimeout]), and its callback.  It
    is due at [tm_armed + tm_delay]. *)
Record Timer : Type := mkTimer {
  tm_id : nat;
  tm_armed : Z;
  tm_delay : Z;
  tm_repeat : bool;
  tm_cb : Callback
}.

Definition tm_due (t : Timer) : Z := tm_armed t + tm_delay t.

(** ** The browser world *)

Record World : Type := mkWorld {
  app : AppState;
  storage : gmap string string;
  log : list request;
  alerts : list string;
  timers : list Timer;
  next_tid : nat;
  now : Z
}.

Definition upd_app (f : AppState -> AppState) (w : World) : World :=
  {| app := f (app w); storage := storage w; log := log w; alerts := alerts w;
     timers := timers w; next_tid := next_tid w; now := now w |}.

Definition upd_storage (f : gmap string string -> gmap string string)
    (w : World) : World :=
  {| app := app w; storage := f (storage w); log := log w; alerts := alerts w;
     timers := timers w; next_tid := next_tid w; now := now w |}.

Lemma app_upd_app f w : app (upd_app f w) = f (app w).
Proof. done. Qed.
Lemma storage_upd_app f w : storage (upd_app f w) = storage w.
Proof. done. Qed.
Lemma log_upd_app f w : log (upd_app f w) = log w.
Proof. done. Qed.
Lemma timers_upd_app f w : timers (upd_app f w) = timers w.
Proof. done. Qed.

#[export] Hint Rewrite app_upd_app storage_upd_app log_upd_app timers_upd_app
  : dash_rw.

(** Issuing a request appends it to the log. *)
Definition issue (r : request) (w : World) : World :=
  {| app := app w; storage := storage w; log := log w ++ [r];
     alerts := alerts w; timers := timers w; next_tid := next_tid w;
     now := now w |}.

Lemma storage_upd_storage f w : storage (upd_storage f w) = f (storage w).
Proof. done. Qed.
Lemma app_upd_storage f w : app (upd_storage f w) = app w.
Proof. done. Qed.

#[export] Hint Rewrite storage_upd_storage app_upd_storage : dash_rw.

(** [alert(msg)]. *)
Definition alert (msg : string) (w : World) : World :=
  {| app := app w; storage := storage w; log := log w;
     alerts := alerts w ++ [msg]; timers := timers w; next_tid := next_tid w;
     now := now w |}.

Definition upd_timers (f : list Timer -> list Timer) (w : World) : World :=
  {| app := app w; storage := storage w; log := log w; alerts := alerts w;
     timers := f (timers w); next_tid := next_tid w; now := now w |}.

(** [setTimeout(cb, d)] ([repeat] false) and [setInterval(cb, d)]
    ([repeat] true): a new timer with the next id, armed now. *)
Definition add_timer (delay : Z) (repeat : bool) (cb : Callback)
    (w : World) : World :=
  {| app := app w; storage := storage w; log := log w; alerts := alerts w;
     timers := timers w ++ [mkTimer (next_tid w) (now w) delay repeat cb];
     next_tid := S (next_tid w); now := now w |}.

(** [clearInterval(id)]. *)
Definition clear_timer (id : nat) (w : World) : World :=
  upd_timers (filter (fun t => tm_id t <> id)) w.

Definition set_now (t : Z) (w : World) : World :=
  {| app := app w; storage := storage w; log := log w; alerts := alerts w;
     timers := timers w; next_tid := next_tid w; now := t |}.

(** A world at page load: the initial state, a given storage (what earlier
    visits left) and clock, nothing issued. *)
Definition boot (st : gmap string string) (t0 : Z) : World :=
  {| app := initial_state; storage := st; log := []; alerts := [];
     timers := []; next_tid := 1; now := t0 |}.

End State.
