(* ===== verification/Async.v ===== *)
(** * Async: the async functions of App.js as programs

    Every handler of App.js is an [async] function (or a synchronous one
    that only calls setters).  On the single JavaScript thread such a
    function runs synchronously up to its first [await] on a network call,
    and its continuation runs in a later turn of the event loop, when the
    reply arrives.  A call of an async function that is not awaited (as in
    [loadCriticalData(); loadSecondaryData();] or
    [fetchAdminStats(); fetchNewsSources();]) runs the callee up to its
    first suspension and then continues the caller.

    [Prog] has one constructor for each of these steps; [pseq] is the
    sequencing of [await f(); g()] and of consecutive statements.  [run]
    executes one event-loop turn and returns the suspended continuations,
    keyed by the index of the request they wait for in the world's log;
    [exec] runs a program to completion, answering its requests in order
    from a list of replies (each reply arriving as soon as its request is
    issued). *)

From S2P Require Import Prelude Http Storage State.
From stdpp Require Import gmap.
Import Http State.

Module Async.

Inductive Prog : Type :=
| PDone
| PAct (f : World -> World) (k : Prog)
| PRead (k : World -> Prog)
| PAwait (r : request) (k : reply -> Prog)
| PFork (p q : Prog).

(** [p; q] and [await p(); q]. *)
Fixpoint pseq (p q : Prog) : Prog :=
  match p with
  | PDone => q
  | PAct f k => PAct f (pseq k q)
  | PRead k => PRead (fun w => pseq (k w) q)
  | PAwait r k => PAwait r (fun x => pseq (k x) q)
  | PFork p1 p2 => PFork p1 (pseq p2 q)
  end.

Notation "p ;;; q" := (pseq p q) (at level 100, right associativity) : dash_scope.

(** A synchronous statement. *)
Definition act (f : World -> World) : Prog := PAct f PDone.

(** A call of React setters. *)
Definition set (f : AppState -> AppState) : Prog := act (upd_app f).

(** [await axios.get/post(...)] inside [try]: the [then] continuation
    receives the status and [response.data], the [catch] continuation
    [error.response?.status]. *)
Definition await_axios (validate : Z -> bool) (r : request)
    (ok : Z -> body -> Prog) (err : option Z -> Prog) : Prog :=
  PAwait r (fun x =>
    match axios_outcome validate x with
    | AxOk s d => ok s d
    | AxErr e => err e
    end).

(** [await fetch(...)]. *)
Definition await_fetch (r : request) (k : fetch_result -> Prog) : Prog :=
  PAwait r (fun x => k (fetch_outcome x)).

(** [localStorage.getItem(key)]. *)
Definition read_storage (key : string) (k : option string -> Prog) : Prog :=
  PRead (fun w => k (getItem key (storage w))).

(** ** One turn of the event loop *)

Definition pending : Type := (nat * (reply -> Prog))%type.

Fixpoint run (p : Prog) (w : World) : World * list pending :=
  match p with
  | PDone => (w, [])
  | PAct f k => run k (f w)
  | PRead k => run (k w) w
  | PAwait r k => (issue r w, [(length (log w), k)])
  | PFork p q =>
      let '(w1, ps1) := run p w in
      let '(w2, ps2) := run q w1 in
      (w2, ps1 ++ ps2)
  end.

(** ** Running to completion *)

Fixpoint exec (p : Prog) (rs : list reply) (w : World)
    : option (World * list reply) :=
  match p with
  | PDone => Some (w, rs)
  | PAct f k => exec k rs (f w)
  | PRead k => exec (k w) rs w
  | PAwait r k =>
      match rs with
      | [] => None
      | x :: rs' => exec (k x) rs' (issue r w)
      end
  | PFork p q =>
      match exec p rs w with
      | Some (w1, rs1) => exec q rs1 w1
      | None => None
      end
  end.

(** [exec] of a sequence is the sequence of the [exec]s. *)
Lemma exec_pseq p q rs w :
  exec (p ;;; q) rs w =
  match exec p rs w with
  | Some (w1, rs1) => exec q rs1 w1
  | None => None
  end.
Proof.
  revert rs w. induction p as [| f k IH | k IH | r k IH | p1 IH1 p2 IH2];
    intros rs w; simpl; try done.
  - destruct rs; [done | apply IH].
  - destruct (exec p1 rs w) as [[w1 rs1] |]; [apply IH2 | done].
Qed.

(** ** Termination: bounded programs complete *)

(** [completes n p]: on every path through [p] (whatever the world it
    reads and the replies it gets) at most [n] replies are awaited. *)
Inductive completes : nat -> Prog -> Prop :=
| comp_done n : completes n PDone
| comp_act n f k : completes n k -> completes n (PAct f k)
| comp_read n k : (forall w, completes n (k w)) -> completes n (PRead k)
| comp_await n r k : (forall x, completes n (k x)) -> completes (S n) (PAwait r k)
| comp_fork n m p q : completes n p -> completes m q -> completes (n + m) (PFork p q).

#[export] Hint Constructors completes : dash.

Lemma completes_mono n m p : completes n p -> n <= m -> completes m p.
Proof.
  intros H. revert m.
  induction H as [n | n f k _ IH | n k _ IH | n r k _ IH | n1 n2 p q _ IHp _ IHq];
    intros m Hm.
  - constructor.
  - constructor. by apply IH.
  - constructor. intros w. by apply IH.
  - destruct m as [| m]; [lia |]. constructor. intros x. apply IH. lia.
  - replace m with ((m - n2) + n2) by lia. constructor; [apply IHp; lia | by apply IHq].
Qed.

Lemma completes_pseq n m p q :
  completes n p -> completes m q -> completes (n + m) (p ;;; q).
Proof.
  intros H Hq. induction H as [n | n f k _ IH | n k _ IH | n r k _ IH | n1 n2 p1 p2 H1 _ _ IH];
    simpl.
  - apply (completes_mono m); [done | lia].
  - by constructor.
  - by constructor.
  - by constructor.
  - rewrite <-Nat.add_assoc. by constructor; [exact H1 |].
Qed.

Lemma completes_await_le n r k :
  (forall x, completes (pred n) (k x)) -> 1 <= n -> completes n (PAwait r k).
Proof. intros H Hn. destruct n as [| n]; [lia |]. by constructor. Qed.

Lemma completes_fork_le n m k p q :
  completes n p -> completes m q -> n + m <= k -> completes k (PFork p q).
Proof. intros Hp Hq Hk. apply (completes_mono (n + m)); [by constructor | done]. Qed.

(** [p] runs to its end on any world as soon as [n] replies are
    available, and consumes at most [n] of them, a prefix of the list. *)
Definition terminates_within (n : nat) (p : Prog) : Prop :=
  forall rs w, n <= length rs ->
  exists w' pre rs', exec p rs w = Some (w', rs') /\ rs = pre ++ rs' /\ length pre <= n.

Lemma exec_completes n p : completes n p -> terminates_within n p.
Proof.
  intros H. unfold terminates_within.
  induction H as [n | n f k _ IH | n k _ IH | n r k _ IH | n1 n2 p q _ IHp _ IHq];
    intros rs w Hn; simpl.
  - exists w, [], rs. split; [done | split; [done | simpl; lia]].
  - by apply IH.
  - by apply IH.
  - destruct rs as [| x rs]; simpl in Hn; [lia |].
    destruct (IH x rs (issue r w)) as (w' & pre & rs' & E & -> & Hl); [lia |].
    exists w', (x :: pre), rs'. simpl. split; [done | split; [done | lia]].
  - destruct (IHp rs w) as (w1 & pre1 & rs1 & E1 & -> & Hl1); [lia |]. rewrite E1.
    rewrite length_app in Hn.
    destruct (IHq rs1 w1) as (w2 & pre2 & rs2 & E2 & -> & Hl2); [lia |].
    exists w2, (pre1 ++ pre2), rs2. rewrite app_assoc, length_app. split; [done | split; [done | lia]].
Qed.

(** A program that awaits nothing leaves no continuation. *)
Lemma run_completes_zero p w : completes 0 p -> (run p w).2 = [].
Proof.
  intros H. remember 0 as n eqn:En. revert w.
  induction H as [n | n f k _ IH | n k _ IH | n r k _ _ | n m p q _ IHp _ IHq];
    intros w; simpl; try done; try (by apply IH); try lia.
  destruct (run p w) as [w1 ps1] eqn:E1. destruct (run q w1) as [w2 ps2] eqn:E2.
  simpl. assert (n = 0) as -> by lia. assert (m = 0) as -> by lia.
  specialize (IHp eq_refl w). specialize (IHq eq_refl w1).
  rewrite E1 in IHp. rewrite E2 in IHq. simpl in *. by subst.
Qed.

(** ** Programs built from a class of statements *)

(** [stmts S p]: every synchronous statement [p] can run satisfies [S]. *)
Inductive stmts (S : (World -> World) -> Prop) : Prog -> Prop :=
| st_done : stmts S PDone
| st_act f k : S f -> stmts S k -> stmts S (PAct f k)
| st_read k : (forall w, stmts S (k w)) -> stmts S (PRead k)
| st_await r k : (forall x, stmts S (k x)) -> stmts S (PAwait r k)
| st_fork p q : stmts S p -> stmts S q -> stmts S (PFork p q).

#[export] Hint Constructors stmts : dash.

Lemma stmts_pseq S p q : stmts S p -> stmts S q -> stmts S (p ;;; q).
Proof. intros Hp Hq. induction Hp; simpl; [done | by constructor ..]. Qed.

Section RunStmts.
Context (S : (World -> World) -> Prop) (I : World -> Prop).
Hypothesis S_inv : forall f w, S f -> I w -> I (f w).
Hypothesis issue_inv : forall r w, I w -> I (issue r w).

(** A world property that every statement of [S] and every request keeps
    holds after one turn, and the continuations left are again built from
    [S]. *)
Lemma run_stmts p w :
  stmts S p -> I w ->
  I (run p w).1 /\ Forall (fun pk => forall x, stmts S (pk.2 x)) (run p w).2.
Proof.
  intros Hp. revert w.
  induction Hp as [| f k Hf _ IH | k _ IH | r k Hk _ | p q _ IHp _ IHq]; intros w Hw; simpl.
  - split; [done | constructor].
  - apply IH. by apply S_inv.
  - by apply IH.
  - split; [by apply issue_inv | by repeat constructor].
  - destruct (IHp w Hw) as [H1 P1]. destruct (run p w) as [w1 ps1]. simpl in *.
    destruct (IHq w1 H1) as [H2 P2]. destruct (run q w1) as [w2 ps2]. simpl in *.
    split; [done | by apply Forall_app_2].
Qed.

End RunStmts.

(** ** A Hoare logic for programs, relative to a world invariant

    [hoare Inv P p Q]: running [p] from a world satisfying [Inv] and [P]
    keeps [Inv] at every synchronous statement, ends (if it does not
    suspend) in a world satisfying [Q], and leaves continuations that are
    safe whatever reply they get.  A synchronous segment of JavaScript is
    not interleaved with anything, so a read and the statements that
    follow it in the same segment are related through the preconditions:
    [ps_read] passes the world read on as [w' = w]. *)

Definition TT : World -> Prop := fun _ => True.

Section Hoare.
Context (Inv : World -> Prop).

Inductive hoare : (World -> Prop) -> Prog -> (World -> Prop) -> Prop :=
| ps_done P Q :
    (forall w, Inv w -> P w -> Q w) -> hoare P PDone Q
| ps_act P R Q f k :
    (forall w, Inv w -> P w -> Inv (f w) /\ R (f w)) ->
    hoare R k Q -> hoare P (PAct f k) Q
| ps_read P Q k :
    (forall w, hoare (fun w' => P w' /\ w' = w) (k w) Q) -> hoare P (PRead k) Q
| ps_await P Q r k :
    (forall x, hoare TT (k x) Q) -> hoare P (PAwait r k) Q
| ps_fork P Q p q :
    hoare P p TT -> hoare TT q Q -> hoare P (PFork p q) Q.

(** A pending continuation is safe when every reply leads to a safe
    program. *)
Definition pend_hoare (pk : pending) : Prop := forall x, hoare TT (pk.2 x) TT.

Lemma hoare_weaken P P' p Q Q' :
  hoare P p Q ->
  (forall w, Inv w -> P' w -> P w) ->
  (forall w, Inv w -> Q w -> Q' w) ->
  hoare P' p Q'.
Proof.
  intros H. revert P' Q'.
  induction H as [P Q HQ | P R Q f k Hf Hk IH | P Q k Hk IH | P Q r k Hk IH
                 | P Q p q Hp IHp Hq IHq];
    intros P' Q' HP HQ'.
  - constructor. eauto.
  - apply (ps_act _ R). { intros w Hw HPw. eauto. } apply IH; auto.
  - constructor. intros w. apply IH; [| done]. intros w' ? [? ?]; auto.
  - constructor. intros x. apply IH; auto.
  - constructor; [apply IHp | apply IHq]; auto.
Qed.

Lemma hoare_pseq P R Q p q :
  hoare P p R -> hoare R q Q -> hoare P (p ;;; q) Q.
Proof.
  intros H. revert q Q.
  induction H as [P R HR | P R' R f k Hf Hk IH | P R k Hk IH | P R r k Hk IH
                 | P R p1 p2 Hp IHp Hq IHq];
    intros q Q Hq'; simpl.
  - eapply hoare_weaken; [exact Hq' | | done]. eauto.
  - eapply ps_act; [exact Hf | by apply IH].
  - constructor. intros w. by apply IH.
  - constructor. intros x. by apply IH.
  - constructor; [done | by apply IHq].
Qed.

Hypothesis issue_inv : forall r w, Inv w -> Inv (issue r w).

(** One turn keeps the invariant and leaves safe continuations. *)
Lemma run_hoare P p Q w :
  hoare P p Q -> Inv w -> P w ->
  Inv (run p w).1 /\ Forall pend_hoare (run p w).2.
Proof.
  intros H. revert w.
  induction H as [P Q HQ | P R Q f k Hf Hk IH | P Q k Hk IH | P Q r k Hk IH
                 | P Q p q Hp IHp Hq IHq];
    intros w Hw HP; simpl.
  - split; [done | constructor].
  - destruct (Hf w Hw HP). by apply IH.
  - by apply IH.
  - split; [by apply issue_inv |].
    constructor; [| constructor]. intros x. eapply hoare_weaken; [apply Hk | done | done].
  - destruct (run p w) as [w1 ps1] eqn:E1.
    destruct (IHp w Hw HP) as [Hw1 Hps1]. rewrite E1 in Hw1, Hps1. simpl in *.
    destruct (run q w1) as [w2 ps2] eqn:E2.
    destruct (IHq w1 Hw1 I) as [Hw2 Hps2]. rewrite E2 in Hw2, Hps2. simpl in *.
    split; [done |]. by apply Forall_app.
Qed.

End Hoare.

Arguments ps_done {Inv} P Q _.
Arguments ps_act {Inv} P R Q f k _ _.
Arguments ps_read {Inv} P Q k _.
Arguments ps_await {Inv} P Q r k _.
Arguments ps_fork {Inv} P Q p q _ _.
#[export] Hint Constructors hoare : dash.

End Async.
