(* ===== verification/Session.v ===== *)
(** * Session: login, logout and the restored session

    The session of App.js is the pair of the [isAuthenticated] hook and
    the ["token"] entry of [localStorage]:
    - [handleLogin] (lines 122-134) posts the login form to
      [/admin/login], stores [response.data.access_token] and opens the
      admin view; any failure shows an alert and changes nothing else;
    - [handleLogout] (lines 136-140) removes the token, clears the flag
      and returns to the dashboard; [fetchAdminStats] calls it on a 401;
    - the effect of lines 425-430 ([restoreSession]) marks the session
      authenticated when a non-empty token is stored, without asking the
      server;
    - [handlePasswordReset] (lines 142-153) only shows an alert and moves
      the recovery dialog to its second step.

    The abstract session machine of the specification (Anonymous and
    Authenticated) is [Session.session] with its steps [sess_step]; the
    theorems show that each handler moves the concrete state along it. *)

From S2P Require Import Prelude Http Storage State Async.
From stdpp Require Import gmap.
Import Http State Async.

Module Session.

Definition login_failed_msg : string :=
  "Login failed. Please check your credentials and try again.".

Section Handlers.
Context (api : string).

(** [axios.post(`${API}/admin/login`, loginData)]. *)
Definition login_request (d : login_data) : request :=
  mkRequest Axios POST (api +:+ "/admin/login") [] [] (Some (login_json d)).

(** [setIsAuthenticated(true); setShowLogin(false); setCurrentView("admin")]. *)
Definition login_success (s : AppState) : AppState :=
  setCurrentView Admin (setShowLogin false (setIsAuthenticated true s)).

(** The [try] block reads [response.data.access_token]: on a [null]
    body this throws, and the [catch] block runs. *)
Definition handleLogin : Prog :=
  PRead (fun w =>
    await_axios default_validate (login_request (loginData (app w)))
      (fun _ data =>
         match js_prop data "access_token" with
         | Some v =>
             act (upd_storage (setItem "token" (js_string v))) ;;;
             set login_success
         | None => act (alert login_failed_msg)
         end)
      (fun _ => act (alert login_failed_msg))).

End Handlers.

(** [setIsAuthenticated(false); setCurrentView("dashboard")]. *)
Definition logout_state (s : AppState) : AppState :=
  setCurrentView Dashboard (setIsAuthenticated false s).

Definition handleLogout_world (w : World) : World :=
  upd_app logout_state (upd_storage (removeItem "token") w).

Definition handleLogout : Prog := act handleLogout_world.

(** The effect of lines 425-430. *)
Definition restoreSession : Prog :=
  read_storage "token" (fun t =>
    if js_truthy_str t then set (setIsAuthenticated true) else PDone).

(** [alert(`Password reset instructions sent to ${resetEmail}`);
    setRecoveryStep(2)]; the [catch] block is unreachable. *)
Definition handlePasswordReset : Prog :=
  PRead (fun w =>
    act (alert ("Password reset instructions sent to " +:+ resetEmail (app w)))) ;;;
  set (setRecoveryStep 2).

(** ** The abstract session machine of the specification *)

Inductive session : Type := Anonymous | Authenticated.

Inductive sess_event : Type :=
| SLoginOk | SLoginFailed | SLogout | SRestore (found : bool).

Inductive sess_step : session -> sess_event -> session -> Prop :=
| st_login_ok s : sess_step s SLoginOk Authenticated
| st_login_failed s : sess_step s SLoginFailed s
| st_logout s : sess_step s SLogout Anonymous
| st_restore_found s : sess_step s (SRestore true) Authenticated
| st_restore_none s : sess_step s (SRestore false) s.

#[export] Hint Constructors sess_step : dash.

Definition session_of (w : World) : session :=
  if isAuthenticated (app w) then Authenticated else Anonymous.

(** The abstract event a login reply stands for. *)
Definition login_event (r : reply) : sess_event :=
  match axios_outcome default_validate r with
  | AxOk _ d =>
      match js_prop d "access_token" with
      | Some _ => SLoginOk
      | None => SLoginFailed
      end
  | AxErr _ => SLoginFailed
  end.

(** The session invariant: an authenticated session has a stored token. *)
Definition auth_has_token (w : World) : Prop :=
  isAuthenticated (app w) = true -> is_Some (getItem "token" (storage w)).

(** ** Functional behaviour of the handlers *)

Definition login_world (api : string) (v : jsval) (w : World) : World :=
  upd_app login_success
    (upd_storage (setItem "token" (js_string v))
       (issue (login_request api (loginData (app w))) w)).

Definition login_failed_world (api : string) (w : World) : World :=
  alert login_failed_msg (issue (login_request api (loginData (app w))) w).

(** [handleLogin] on any reply: the token-bearing success, or the alert. *)
Lemma handleLogin_exec api w r :
  exec (handleLogin api) [r] w =
  Some (match axios_outcome default_validate r with
        | AxOk _ d =>
            match js_prop d "access_token" with
            | Some v => login_world api v w
            | None => login_failed_world api w
            end
        | AxErr _ => login_failed_world api w
        end, []).
Proof.
  unfold handleLogin, await_axios. simpl.
  destruct (axios_outcome _ r) as [s d | e]; [| done].
  by destruct (js_prop d "access_token").
Qed.

Lemma login_world_app api v w :
  app (login_world api v w) = login_success (app w).
Proof. by destruct w. Qed.

Lemma login_failed_world_app api w :
  app (login_failed_world api w) = app w.
Proof. by destruct w. Qed.

Lemma login_world_storage api v w :
  storage (login_world api v w) = setItem "token" (js_string v) (storage w).
Proof. by destruct w. Qed.

Lemma login_world_log api v w :
  log (login_world api v w) = log w ++ [login_request api (loginData (app w))].
Proof. by destruct w. Qed.

Lemma handleLogout_world_app w :
  app (handleLogout_world w) = logout_state (app w).
Proof. by destruct w. Qed.

Lemma handleLogout_world_storage w :
  storage (handleLogout_world w) = removeItem "token" (storage w).
Proof. by destruct w. Qed.

Lemma handleLogout_world_log w : log (handleLogout_world w) = log w.
Proof. by destruct w. Qed.

#[export] Hint Rewrite handleLogout_world_storage handleLogout_world_log
  : dash_rw.

#[export] Hint Rewrite login_world_app login_world_storage login_world_log
  login_failed_world_app
  handleLogout_world_app : dash_rw.

(** ** Properties *)

(** C3: a login answered with a 2xx response whose data has an
    [access_token] value [v] stores [String(v)] under ["token"], marks
    the session authenticated, closes the login dialog and opens the
    admin view; exactly the login request was issued. *)
Theorem handleLogin_success api w s data v :
  default_validate s = true ->
  js_prop data "access_token" = Some v ->
  exists w', exec (handleLogin api) [Resp s data] w = Some (w', []) /\
    getItem "token" (storage w') = Some (js_string v) /\
    isAuthenticated (app w') = true /\
    currentView (app w') = Admin /\
    showLogin (app w') = false /\
    log w' = log w ++ [login_request api (loginData (app w))].
Proof.
  intros Hs Hv. rewrite handleLogin_exec, (axios_outcome_ok _ _ _ Hs), Hv.
  eexists; split; [done |]. autorewrite with dash_rw. rewrite get_set_eq. by repeat split.
Qed.

(** The scenario of the specification: the form [admin]/[secret] and the
    answer [{access_token: "abc123"}] give the token ["abc123"] and the
    admin view. *)
Lemma handleLogin_success_witness :
  let w := upd_app (setLoginData {| username := "admin"; password := "secret" |})
             (boot ∅ 0) in
  default_validate 200 = true /\
  js_prop (BJson (JObj [("access_token", JStr "abc123")])) "access_token"
    = Some (JDef (JStr "abc123")) /\
  exists w', exec (handleLogin "http://localhost:8001/api")
               [Resp 200 (BJson (JObj [("access_token", JStr "abc123")]))] w
             = Some (w', []) /\
    getItem "token" (storage w') = Some "abc123" /\
    isAuthenticated (app w') = true /\ currentView (app w') = Admin /\
    showLogin (app w') = false /\
    log w' = log w ++ [login_request "http://localhost:8001/api"
                         {| username := "admin"; password := "secret" |}].
Proof.
  intros w. split; [reflexivity |]. split; [reflexivity |].
  exact (handleLogin_success "http://localhost:8001/api" w 200
           (BJson (JObj [("access_token", JStr "abc123")]))
           (JDef (JStr "abc123")) eq_refl eq_refl).
Defined.

(** C4: a login that axios rejects (transport failure or a non-2xx
    status), or whose data is [null], shows the failure alert and leaves
    the application state and the storage as they were. *)
Theorem handleLogin_failure api w r :
  match axios_outcome default_validate r with
  | AxOk _ d => js_prop d "access_token" = None
  | AxErr _ => True
  end ->
  exists w', exec (handleLogin api) [r] w = Some (w', []) /\
    app w' = app w /\ storage w' = storage w /\
    alerts w' = alerts w ++ [login_failed_msg] /\
    log w' = log w ++ [login_request api (loginData (app w))].
Proof.
  intros H. rewrite handleLogin_exec.
  destruct (axios_outcome _ r) as [s d | e];
    [rewrite H |]; eexists; split; try done; by destruct w.
Qed.

Lemma handleLogin_failure_witness :
  True /\
  exists w', exec (handleLogin "/api") [Resp 401 (BJson JNull)] (boot ∅ 0)
             = Some (w', []) /\
    app w' = app (boot ∅ 0) /\ storage w' = storage (boot ∅ 0) /\
    alerts w' = alerts (boot ∅ 0) ++ [login_failed_msg] /\
    log w' = log (boot ∅ 0) ++ [login_request "/api" (loginData (app (boot ∅ 0)))].
Proof.
  split; [exact I |].
  exact (handleLogin_failure "/api" (boot ∅ 0) (Resp 401 (BJson JNull)) I).
Defined.

(** C29: [handlePasswordReset] sends nothing: it issues no request and
    leaves the storage alone, only alerts that instructions were sent to
    the entered address and moves the dialog to its second step. *)
Theorem handlePasswordReset_exec w :
  exists w', exec handlePasswordReset [] w = Some (w', []) /\
    log w' = log w /\ storage w' = storage w /\
    alerts w' = alerts w ++ ["Password reset instructions sent to " +:+ resetEmail (app w)] /\
    app w' = setRecoveryStep 2 (app w).
Proof. eexists; split; [reflexivity |]. by destruct w. Qed.

(** [handleLogout] is idempotent: logging out twice leaves the same
    world as logging out once. *)
Theorem handleLogout_idempotent w :
  exec (handleLogout ;;; handleLogout) [] w = exec handleLogout [] w.
Proof.
  cbn -[handleLogout_world]. do 2 f_equal.
  unfold handleLogout_world, upd_app, upd_storage.
  cbn -[removeItem]. by rewrite remove_remove.
Qed.

Lemma restoreSession_exec w :
  exec restoreSession [] w =
  Some (if js_truthy_str (getItem "token" (storage w))
        then upd_app (setIsAuthenticated true) w else w, []).
Proof. unfold restoreSession, read_storage. simpl. by destruct (js_truthy_str _). Qed.

(** C5: refinement of the specification's session machine: [handleLogin]
    on any reply, [handleLogout] and the restoring effect each move the
    session (Anonymous or Authenticated) along the abstract step labelled
    by the event the run determines: the login succeeds exactly when a
    2xx reply carries an object or primitive data (not [null]), the
    restore finds a session exactly when a non-empty token is stored. *)
Theorem session_handlers_refine api w r :
  (exists w', exec (handleLogin api) [r] w = Some (w', []) /\
     sess_step (session_of w) (login_event r) (session_of w')) /\
  (exists w', exec handleLogout [] w = Some (w', []) /\
     sess_step (session_of w) SLogout (session_of w')) /\
  (exists w', exec restoreSession [] w = Some (w', []) /\
     sess_step (session_of w)
       (SRestore (js_truthy_str (getItem "token" (storage w)))) (session_of w')).
Proof.
  split; [| split].
  - rewrite handleLogin_exec. eexists; split; [done |].
    unfold login_event, session_of.
    destruct (axios_outcome _ r) as [s d | e];
      [destruct (js_prop d "access_token") |];
      autorewrite with dash_rw; cbn; eauto with dash.
  - eexists; split; [done |]. unfold session_of.
    rewrite handleLogout_world_app. eauto with dash.
  - rewrite restoreSession_exec. eexists; split; [done |].
    unfold session_of. destruct (js_truthy_str _); [destruct w; simpl; eauto with dash |].
    eauto with dash.
Qed.

End Session.
