(* ===== verification/Fetchers.v ===== *)
(** * Fetchers: the data-acquisition functions of App.js

    One program per function of App.js that fills a collection:
    - [fetchArticles] (lines 156-199): axios with a relaxed
      [validateStatus] (every status below 500 is a result), then one
      fallback [fetch] of [?limit=10], then the empty list;
    - [fetchSeoStats] (220-228), [fetchMarketData] (230-240): axios only,
      the collection is kept on failure;
    - the simulated feeds [fetchTrendingTopics], [fetchMarketAlerts],
      [fetchReadingList], [fetchInstitutionalData], [fetchPolicyUpdates]
      (242-321), which write constants and issue no request;
    - [fetchLiveStreams] (332-355): axios, then one fallback [fetch] with
      the same category, the collection kept when both fail;
    - the admin calls [fetchAdminStats] (432-445, which logs out on a
      401), [fetchNewsSources] (447-457) and [triggerArticleGeneration]
      (459-471, which re-reads the stats two seconds later);
    - the keep-alive ping of the mount effect (393-400).

    The backend URL [api] is a parameter of the section ([API] of
    [Http] gives its value). *)

From S2P Require Import Prelude Http Storage State Async Session.
From stdpp Require Import gmap.
Import Http State Async Session.

Module Fetchers.

(** [[]], the empty list the code writes on failure. *)
Definition empty_array : body := BJson (JArr []).

Definition obj (fs : list (string * json)) : json := JObj fs.

(** ** The simulated feeds' constants *)

Definition trending_topics_data : json :=
  JArr [obj [("topic", JStr "Bitcoin ETF"); ("volume", JNum 12500)];
        obj [("topic", JStr "Federal Reserve"); ("volume", JNum 8900)];
        obj [("topic", JStr "Ethereum Upgrade"); ("volume", JNum 7200)];
        obj [("topic", JStr "Market Volatility"); ("volume", JNum 6800)];
        obj [("topic", JStr "Crypto Regulation"); ("volume", JNum 5400)]].

(** The alerts carry [new Date(Date.now() - 300000)] and
    [new Date(Date.now() - 600000)]; a date is kept as its time value. *)
Definition market_alerts_data (t : Z) : json :=
  JArr [obj [("id", JNum 1); ("type", JStr "price");
             ("title", JStr "Bitcoin reaches $45,000");
             ("message", JStr "BTC hits resistance level");
             ("timestamp", JNum (t - 300000)); ("severity", JStr "medium")];
        obj [("id", JNum 2); ("type", JStr "volume");
             ("title", JStr "High trading volume on ETH");
             ("message", JStr "Ethereum sees 200% volume increase");
             ("timestamp", JNum (t - 600000)); ("severity", JStr "high")]].

Definition reading_list_data : json :=
  obj [("finance", JArr [JStr "Understanding Market Cycles";
                         JStr "Federal Reserve Policy Impact";
                         JStr "Investment Strategy Guide"]);
       ("crypto", JArr [JStr "DeFi Protocols Explained";
                        JStr "Blockchain Technology Basics";
                        JStr "Crypto Market Analysis"])].

Definition institutional_data : json :=
  JArr [obj [("institution", JStr "BlackRock"); ("asset", JStr "BTC");
             ("amount", JNum 28450); ("change", JDec 23 1)];
        obj [("institution", JStr "Grayscale"); ("asset", JStr "ETH");
             ("amount", JNum 15670); ("change", JDec (-8) 1)];
        obj [("institution", JStr "MicroStrategy"); ("asset", JStr "BTC");
             ("amount", JNum 132500); ("change", JDec 0 1)];
        obj [("institution", JStr "Tesla"); ("asset", JStr "BTC");
             ("amount", JNum 42902); ("change", JDec 12 1)]].

Definition policy_updates_data : json :=
  JArr [obj [("id", JStr "1"); ("title", JStr "EU Digital Asset Regulation");
             ("country", JStr "European Union"); ("impact", JStr "High");
             ("date", JStr "2024-01-15"); ("status", JStr "Proposed")];
        obj [("id", JStr "2"); ("title", JStr "US Bitcoin ETF Approval");
             ("country", JStr "United States"); ("impact", JStr "Very High");
             ("date", JStr "2024-01-10"); ("status", JStr "Approved")]].

Definition fetchTrendingTopics : Prog :=
  set (setTrendingTopics (BJson trending_topics_data)).

Definition fetchMarketAlerts : Prog :=
  PRead (fun w => set (setMarketAlerts (BJson (market_alerts_data (now w))))).

Definition fetchReadingList : Prog :=
  set (setReadingList (BJson reading_list_data)).

Definition fetchInstitutionalData : Prog :=
  set (setInstitutionalData (BJson institutional_data)).

Definition fetchPolicyUpdates : Prog :=
  set (setPolicyUpdates (BJson policy_updates_data)).

Section Requests.
Context (api : string).

(** A plain [axios.get(url)]. *)
Definition axios_get (path : string) : request :=
  mkRequest Axios GET (api +:+ path) [] [] None.

(** ** Articles *)

(** [category && category !== "all" ? ...?category=X&limit=20 : ...?limit=20]. *)
Definition articles_url (category : option string) : string :=
  match category with
  | Some c =>
      if String.eqb c "" || String.eqb c "all"
      then api +:+ "/articles?limit=20"
      else api +:+ "/articles?category=" +:+ c +:+ "&limit=20"
  | None => api +:+ "/articles?limit=20"
  end.

Definition articles_headers : list (string * string) :=
  [("Accept", "application/json"); ("Cache-Control", "no-cache")].

Definition articles_request (category : option string) : request :=
  mkRequest Axios GET (articles_url category) [] articles_headers None.

(** [fetch(`${API}/articles?limit=10`)]: the category is not passed on. *)
Definition articles_fallback_request : request :=
  mkRequest Fetch GET (api +:+ "/articles?limit=10") [] [] None.

Definition fetchArticles (category : option string) : Prog :=
  set (setLoading true) ;;;
  await_axios articles_validate (articles_request category)
    (fun _ data => set (setArticles data))
    (fun _ =>
       await_fetch articles_fallback_request (fun fr =>
         match fr with
         | FResolved true b =>
             match body_json b with
             | Some j =>
                 set (setArticles (BJson j)) ;;;
                 (* console.log(..., fallbackData.length, ...) throws on null:
                    the catch runs and the code goes on to setArticles([]) *)
                 match j with JNull => set (setArticles empty_array) | _ => PDone end
             | None => set (setArticles empty_array)
             end
         | _ => set (setArticles empty_array)
         end)) ;;;
  set (setLoading false).

(** ** SEO statistics and market data *)

Definition seo_stats_request : request := axios_get "/seo-stats".

Definition fetchSeoStats : Prog :=
  await_axios default_validate seo_stats_request
    (fun _ data => set (setSeoStats data)) (fun _ => PDone).

Definition market_data_request : request := axios_get "/market-data".

Definition fetchMarketData : Prog :=
  set (setMarketLoading true) ;;;
  await_axios default_validate market_data_request
    (fun _ data => set (setMarketData data)) (fun _ => PDone) ;;;
  set (setMarketLoading false).

(** ** Live streams *)

(** [axios.get(`${API}/live-streams`, { params })] with
    [params = category !== "all" ? { category } : {}]. *)
Definition live_request (category : string) : request :=
  mkRequest Axios GET (api +:+ "/live-streams")
    (if String.eqb category "all" then [] else [("category", category)])
    [] None.

Definition live_fallback_request (category : string) : request :=
  mkRequest Fetch GET
    (api +:+ "/live-streams" +:+
     (if String.eqb category "all" then "" else "?category=" +:+ category))
    [] [] None.

(** A rejected fallback or [json()] is caught by the outer [catch], which
    only logs: the collection keeps its value. *)
Definition fetchLiveStreams (category : string) : Prog :=
  set (setLiveStreamsLoading true) ;;;
  await_axios default_validate (live_request category)
    (fun _ data => set (setLiveStreams data))
    (fun _ =>
       await_fetch (live_fallback_request category) (fun fr =>
         match fr with
         | FResolved true b =>
             match body_json b with
             | Some j => set (setLiveStreams (BJson j))
             | None => PDone
             end
         | _ => PDone
         end)) ;;;
  set (setLiveStreamsLoading false).

(** ** Admin calls *)

Definition auth_get (path : string) (token : option string) : request :=
  mkRequest Axios GET (api +:+ path) [] [("Authorization", bearer token)] None.

Definition admin_stats_request (token : option string) : request :=
  auth_get "/admin/stats" token.

Definition fetchAdminStats : Prog :=
  read_storage "token" (fun token =>
    await_axios default_validate (admin_stats_request token)
      (fun _ data => set (setAdminStats data))
      (fun st => if decide (st = Some 401%Z) then handleLogout else PDone)).

Definition news_sources_request (token : option string) : request :=
  auth_get "/news-sources" token.

Definition fetchNewsSources : Prog :=
  read_storage "token" (fun token =>
    await_axios default_validate (news_sources_request token)
      (fun _ data => set (setNewsSources data)) (fun _ => PDone)).

(** [axios.post(`${API}/admin/generate-now`, {}, { headers })]. *)
Definition generate_request (token : option string) : request :=
  mkRequest Axios POST (api +:+ "/admin/generate-now") []
    [("Authorization", bearer token)] (Some (JObj [])).

Definition triggerArticleGeneration : Prog :=
  read_storage "token" (fun token =>
    await_axios default_validate (generate_request token)
      (fun _ _ =>
         act (alert "Article generation triggered successfully!") ;;;
         act (add_timer 2000 false CbFetchAdminStats))
      (fun _ => act (alert "Failed to trigger article generation"))).

(** ** Keep-alive *)

Definition keep_alive_request : request := axios_get "/".

Definition keepAlive : Prog :=
  await_axios default_validate keep_alive_request (fun _ _ => PDone) (fun _ => PDone).

End Requests.

(** ** Reference results: what each fetch leaves in its collection *)

(** The articles [fetchArticles] leaves, given the reply to the axios
    call and the reply to the fallback [fetch]: a fallback [null] is
    stored, then [fallbackData.length] throws and the code goes on to
    [setArticles([])]. *)
Definition articles_result (r1 r2 : reply) : body :=
  match axios_outcome articles_validate r1 with
  | AxOk _ d => d
  | AxErr _ =>
      match fetch_outcome r2 with
      | FResolved true b =>
          match body_json b with
          | Some JNull | None => empty_array
          | Some j => BJson j
          end
      | _ => empty_array
      end
  end.

(** The live streams [fetchLiveStreams] leaves, from the previous value. *)
Definition live_result (prev : body) (r1 r2 : reply) : body :=
  match axios_outcome default_validate r1 with
  | AxOk _ d => d
  | AxErr _ =>
      match fetch_outcome r2 with
      | FResolved true b =>
          match body_json b with Some j => BJson j | None => prev end
      | _ => prev
      end
  end.

(** Whether a reply makes axios reject. *)
Definition rejected (v : Z -> bool) (r : reply) : bool :=
  match axios_outcome v r with AxOk _ _ => false | AxErr _ => true end.

(** [exec] on these programs: unfold the client combinators, split on
    the clients' outcomes, and compare the worlds field by field. *)
Ltac exec_cases :=
  unfold await_axios, await_fetch, read_storage, rejected; simpl;
  repeat match goal with
  | |- context [axios_outcome ?v ?r] => destruct (axios_outcome v r) eqn:?; simpl
  | |- context [fetch_outcome ?r] =>
      destruct (fetch_outcome r) as [| [] ?b] eqn:?; simpl
  | |- context [body_json ?b] => destruct (body_json b) as [[] |] eqn:?; simpl
  | |- context [decide ?P] => destruct (decide P); simpl
  end;
  lazymatch goal with
  | |- exists _ _, _ => do 2 eexists
  | |- exists _, _ => eexists
  end;
  (split; [reflexivity |]); simpl; rewrite <-?app_assoc;
  repeat split.

(** ** Properties of the fetchers *)

(** C1: [fetchArticles] is the specification's resilient fetch: it
    issues the axios request, and exactly when axios rejects (a transport
    failure or a status of 500 or more) one fallback [fetch] of
    [?limit=10], never a third request; it consumes one reply per request,
    leaves [articles] as [articles_result] says (the axios data, else the
    fallback's JSON, else the empty list; a fallback answering [null] ends
    with the empty list too, because logging its [length] throws into the
    catch) and clears [loading]. *)
Theorem fetchArticles_one_fallback api c r1 r2 rs w :
  exists w', exec (fetchArticles api c) (r1 :: r2 :: rs) w =
    Some (w', if rejected articles_validate r1 then rs else r2 :: rs) /\
    log w' = log w ++ articles_request api c ::
               (if rejected articles_validate r1
                then [articles_fallback_request api] else []) /\
    articles (app w') = articles_result r1 r2 /\
    loading (app w') = false.
Proof. unfold fetchArticles, articles_result. exec_cases. Qed.


(** C32: every status below 500, 4xx included, is a result for
    [fetchArticles]: the error payload of a 404 or 401 becomes the
    [articles] collection and no fallback is tried. *)
Theorem fetchArticles_4xx_is_data api c s d rs w :
  (s < 500)%Z ->
  exists w', exec (fetchArticles api c) (Resp s d :: rs) w = Some (w', rs) /\
    articles (app w') = d /\
    log w' = log w ++ [articles_request api c].
Proof.
  intros Hs. unfold fetchArticles, await_axios. simpl.
  unfold articles_validate. rewrite (proj2 (Z.ltb_lt s 500) Hs). simpl.
  eexists; split; [reflexivity |]. by destruct w.
Qed.

(** The payload [{detail: "Not Found"}] of a 404 is stored: [articles] is
    no longer an array. *)
Lemma fetchArticles_4xx_is_data_witness :
  (404 < 500)%Z /\
  exists w', exec (fetchArticles "/api" (Some "finance"))
               [Resp 404 (BJson (JObj [("detail", JStr "Not Found")]))] (boot ∅ 0)
             = Some (w', []) /\
    articles (app w') = BJson (JObj [("detail", JStr "Not Found")]) /\
    log w' = log (boot ∅ 0) ++ [articles_request "/api" (Some "finance")].
Proof.
  split; [lia |].
  exact (fetchArticles_4xx_is_data "/api" (Some "finance") 404 _ [] (boot ∅ 0)
           ltac:(lia)).
Defined.

(** C16: [fetchLiveStreams] issues the axios request and, exactly when
    axios rejects (any non-2xx status or a transport failure), one
    fallback [fetch] of the same category; the collection becomes the
    axios data, else the fallback's JSON, and otherwise keeps its
    previous value (it is not emptied); the loading flag is cleared. *)
Theorem fetchLiveStreams_one_fallback api c r1 r2 rs w :
  exists w', exec (fetchLiveStreams api c) (r1 :: r2 :: rs) w =
    Some (w', if rejected default_validate r1 then rs else r2 :: rs) /\
    log w' = log w ++ live_request api c ::
               (if rejected default_validate r1
                then [live_fallback_request api c] else []) /\
    liveStreams (app w') = live_result (liveStreams (app w)) r1 r2 /\
    liveStreamsLoading (app w') = false.
Proof. unfold fetchLiveStreams, live_result. exec_cases. Qed.

(** C17: [fetchMarketData] has no fallback: it issues one request, takes
    the data of a 2xx reply, and on any failure keeps the previous market
    snapshot; the loading flag is cleared. *)
Theorem fetchMarketData_no_fallback api r rs w :
  exists w', exec (fetchMarketData api) (r :: rs) w = Some (w', rs) /\
    log w' = log w ++ [market_data_request api] /\
    marketData (app w') =
      match axios_outcome default_validate r with
      | AxOk _ d => d
      | AxErr _ => marketData (app w)
      end /\
    marketLoading (app w') = false.
Proof. unfold fetchMarketData. exec_cases. Qed.

Definition generation_ok_msg : string := "Article generation triggered successfully!".
Definition generation_failed_msg : string := "Failed to trigger article generation".

(** C7: an admin-statistics call answered 401 runs [handleLogout]: the
    session becomes anonymous, the token is removed and the dashboard is
    shown again; the request was issued with the stored token. *)
Theorem fetchAdminStats_401_logout api b rs w :
  let w' := handleLogout_world
              (issue (admin_stats_request api (getItem "token" (storage w))) w) in
  exec (fetchAdminStats api) (Resp 401 b :: rs) w = Some (w', rs) /\
  session_of w' = Anonymous /\
  getItem "token" (storage w') = None /\
  currentView (app w') = Dashboard.
Proof.
  intros w'. split; [reflexivity |]. subst w'.
  unfold session_of. autorewrite with dash_rw.
  rewrite get_remove_eq. by repeat split.
Qed.

(** C27: a news-sources call answered 401 does not log out: the
    application state and the storage are unchanged, unlike the admin
    statistics call. *)
Theorem fetchNewsSources_401_keeps_session api b rs w :
  exists w', exec (fetchNewsSources api) (Resp 401 b :: rs) w = Some (w', rs) /\
    app w' = app w /\ storage w' = storage w /\
    session_of w' = session_of w.
Proof. eexists; split; [reflexivity |]. by destruct w. Qed.

(** C28: with no stored token the three admin calls still send an
    [Authorization] header, whose value is ["Bearer null"]. *)
Theorem admin_calls_bearer_null api w r :
  getItem "token" (storage w) = None ->
  (exists w', exec (fetchAdminStats api) [r] w = Some (w', []) /\
     log w' = log w ++ [admin_stats_request api None]) /\
  (exists w', exec (fetchNewsSources api) [r] w = Some (w', []) /\
     log w' = log w ++ [news_sources_request api None]) /\
  (exists w', exec (triggerArticleGeneration api) [r] w = Some (w', []) /\
     log w' = log w ++ [generate_request api None]) /\
  rq_headers (admin_stats_request api None) = [("Authorization", "Bearer null")] /\
  rq_headers (news_sources_request api None) = [("Authorization", "Bearer null")] /\
  rq_headers (generate_request api None) = [("Authorization", "Bearer null")].
Proof.
  intros H. simpl in H.
  unfold fetchAdminStats, fetchNewsSources, triggerArticleGeneration,
    read_storage. simpl. rewrite H.
  split; [| split; [| split]]; try done; exec_cases; by destruct w.
Qed.

Lemma admin_calls_bearer_null_witness :
  getItem "token" (storage (boot ∅ 0)) = None /\
  ((exists w', exec (fetchAdminStats "/api") [NetError] (boot ∅ 0) = Some (w', []) /\
      log w' = log (boot ∅ 0) ++ [admin_stats_request "/api" None]) /\
   (exists w', exec (fetchNewsSources "/api") [NetError] (boot ∅ 0) = Some (w', []) /\
      log w' = log (boot ∅ 0) ++ [news_sources_request "/api" None]) /\
   (exists w', exec (triggerArticleGeneration "/api") [NetError] (boot ∅ 0)
                 = Some (w', []) /\
      log w' = log (boot ∅ 0) ++ [generate_request "/api" None]) /\
   rq_headers (admin_stats_request "/api" None) = [("Authorization", "Bearer null")] /\
   rq_headers (news_sources_request "/api" None) = [("Authorization", "Bearer null")] /\
   rq_headers (generate_request "/api" None) = [("Authorization", "Bearer null")]).
Proof.
  split; [reflexivity |].
  exact (admin_calls_bearer_null "/api" (boot ∅ 0) NetError eq_refl).
Defined.

(** C33: [triggerArticleGeneration] never changes the session or the
    application state: on success it shows the success alert and sets a
    two-second timer that re-reads the admin statistics; on any failure,
    a 401 included, it only shows the failure alert. *)
Theorem triggerArticleGeneration_exec api r rs w :
  exists w', exec (triggerArticleGeneration api) (r :: rs) w = Some (w', rs) /\
    app w' = app w /\ storage w' = storage w /\
    log w' = log w ++ [generate_request api (getItem "token" (storage w))] /\
    if rejected default_validate r
    then alerts w' = alerts w ++ [generation_failed_msg] /\ timers w' = timers w
    else alerts w' = alerts w ++ [generation_ok_msg] /\
         timers w' = timers w ++ [mkTimer (next_tid w) (now w) 2000 false
                                    CbFetchAdminStats].
Proof.
  unfold triggerArticleGeneration, rejected, await_axios, read_storage. simpl.
  destruct (axios_outcome _ r); eexists; (split; [reflexivity |]); by destruct w.
Qed.

End Fetchers.
