(* ===== verification/Scheduler.v ===== *)
(** * Scheduler: the mount effect, its timers and the timer queue

    The first [useEffect] of [AppContent] (App.js lines 358-408) runs once
    at mount:
    - [loadCriticalData] awaits [fetchMarketData()] and then
      [fetchArticles()]; it is called without [await], so the effect goes
      on as soon as the market-data request is issued;
    - [loadSecondaryData] sets six timeouts, 1000 to 3500 ms, for the
      simulated feeds and the live streams;
    - four intervals re-run [fetchMarketData] (60 s), [fetchTrendingTopics]
      (600 s), [fetchMarketAlerts] (120 s) and the keep-alive ping (300 s);
    - the cleanup it returns clears the four intervals, and only them.

    [callback_prog] gives the program of each timer callback.  The timer
    queue of the browser is [next_timer]: the pending timer due first,
    and among timers due at the same time the one armed first (the HTML
    timer ordering), then the one created first. *)

From S2P Require Import Prelude Http Storage State Async Session Fetchers.
From stdpp Require Import gmap.
Import Http State Async Session Fetchers.

Module Scheduler.

(** The staggered loads of [loadSecondaryData], in source order. *)
Definition secondary_schedule : list (Z * Callback) :=
  [(1000, CbFetchTrendingTopics); (1500, CbFetchMarketAlerts);
   (2000, CbFetchReadingList); (2500, CbFetchInstitutionalData);
   (3000, CbFetchPolicyUpdates); (3500, CbFetchLiveStreams)]%Z.

(** The four intervals of the mount effect, in source order. *)
Definition interval_schedule : list (Z * Callback) :=
  [(60000, CbFetchMarketData); (600000, CbFetchTrendingTopics);
   (120000, CbFetchMarketAlerts); (300000, CbKeepAlive)]%Z.

(** A sequence of [setTimeout] or [setInterval] calls. *)
Definition set_timers (repeat : bool) (sched : list (Z * Callback)) : Prog :=
  fold_right (fun '(d, cb) p => act (add_timer d repeat cb) ;;; p) PDone sched.

Section Mount.
Context (api : string).

Definition callback_prog (cb : Callback) : Prog :=
  match cb with
  | CbFetchTrendingTopics => fetchTrendingTopics
  | CbFetchMarketAlerts => fetchMarketAlerts
  | CbFetchReadingList => fetchReadingList
  | CbFetchInstitutionalData => fetchInstitutionalData
  | CbFetchPolicyUpdates => fetchPolicyUpdates
  | CbFetchLiveStreams => fetchLiveStreams api "all"
  | CbFetchMarketData => fetchMarketData api
  | CbKeepAlive => keepAlive api
  | CbFetchAdminStats => fetchAdminStats api
  end.

(** [await fetchMarketData(); await fetchArticles();] in a [try] whose
    [catch] is unreachable (both functions catch their errors). *)
Definition loadCriticalData : Prog :=
  fetchMarketData api ;;; fetchArticles api None.

Definition loadSecondaryData : Prog := set_timers false secondary_schedule.

(** [loadCriticalData(); loadSecondaryData();] and the four
    [setInterval]s. *)
Definition mountEffect : Prog :=
  PFork loadCriticalData
    (loadSecondaryData ;;; set_timers true interval_schedule).

End Mount.

(** The ids the mount effect gives its four intervals when it runs in
    world [w]: the synchronous part of [loadCriticalData] sets no timer,
    so they follow the six timeouts. *)
Definition mount_interval_ids (w : World) : list nat :=
  [6 + next_tid w; 7 + next_tid w; 8 + next_tid w; 9 + next_tid w].

(** The cleanup of the mount effect: [clearInterval] of the four ids. *)
Definition mountCleanup (ids : list nat) : Prog :=
  act (fun w => fold_left (fun w id => clear_timer id w) ids w).

(** ** The timer queue *)

(** [a] fires before [b]: due first, then armed first, then created first. *)
Definition fires_before (a b : Timer) : bool :=
  (tm_due a <? tm_due b)%Z ||
  ((tm_due a =? tm_due b)%Z &&
   ((tm_armed a <? tm_armed b)%Z ||
    ((tm_armed a =? tm_armed b)%Z && Nat.ltb (tm_id a) (tm_id b)))).

Fixpoint earliest (best : Timer) (ts : list Timer) : Timer :=
  match ts with
  | [] => best
  | t :: rest => earliest (if fires_before t best then t else best) rest
  end.

Definition next_timer (ts : list Timer) : option Timer :=
  match ts with
  | [] => None
  | t :: rest => Some (earliest t rest)
  end.

(** Taking timer [t] out of the queue to run it: a timeout is removed; an
    interval stays, and is re-armed once its callback has run. *)
Definition take_timer (t : Timer) (w : World) : World :=
  upd_timers (fun ts => if tm_repeat t then ts
                        else filter (fun t' => tm_id t' <> tm_id t) ts)
    (set_now (tm_due t) w).

Definition rearm (now_ : Z) (t : Timer) : Timer :=
  mkTimer (tm_id t) now_ (tm_delay t) (tm_repeat t) (tm_cb t).

(** After the callback: the interval [id], if still pending, is re-armed
    at the current time. *)
Definition rearm_timer (id : nat) (w : World) : World :=
  upd_timers (map (fun t => if decide (tm_id t = id) then rearm (now w) t else t)) w.

(** ** Properties of the timer queue and of the mount effect *)

Lemma fires_before_irrefl t : fires_before t t = false.
Proof.
  unfold fires_before. by rewrite !Z.ltb_irrefl, !Z.eqb_refl, Nat.ltb_irrefl.
Qed.

Lemma fires_before_true a b :
  fires_before a b = true <->
  (tm_due a < tm_due b \/
   (tm_due a = tm_due b /\
    (tm_armed a < tm_armed b \/ (tm_armed a = tm_armed b /\ (tm_id a < tm_id b)%nat))))%Z.
Proof.
  unfold fires_before.
  by rewrite orb_true_iff, andb_true_iff, orb_true_iff, andb_true_iff,
    Z.ltb_lt, Z.eqb_eq, Z.ltb_lt, Z.eqb_eq, Nat.ltb_lt.
Qed.

Lemma fires_before_trans a b c :
  fires_before a b = true -> fires_before b c = true -> fires_before a c = true.
Proof. rewrite !fires_before_true. lia. Qed.

Lemma fires_before_asym a b :
  fires_before a b = true -> fires_before b a = false.
Proof.
  intros Hab. destruct (fires_before b a) eqn:Hba; [| done].
  pose proof (fires_before_trans _ _ _ Hab Hba) as H.
  by rewrite fires_before_irrefl in H.
Qed.

(** [earliest best ts] is [best] or an element of [ts] before [best], and
    no element of [ts] fires before it. *)
Lemma earliest_spec best ts :
  (earliest best ts = best \/
   (In (earliest best ts) ts /\ fires_before (earliest best ts) best = true)) /\
  Forall (fun t => fires_before t (earliest best ts) = false) ts.
Proof.
  revert best. induction ts as [| t rest IH]; intros best; simpl.
  { split; [by left | constructor]. }
  destruct (fires_before t best) eqn:Htb;
    destruct (IH (if fires_before t best then t else best)) as [Hin Hall];
    rewrite Htb in Hin, Hall; set (e := earliest _ rest) in *.
  - split.
    + right. destruct Hin as [-> | [Hin He]]; [by auto |].
      split; [by right |]. exact (fires_before_trans _ _ _ He Htb).
    + constructor; [| done].
      destruct Hin as [-> | [_ He]]; [apply fires_before_irrefl |].
      by apply fires_before_asym.
  - split.
    + destruct Hin as [-> | [Hin He]]; [by left | by right; split; [right |]].
    + constructor; [| done].
      destruct Hin as [-> | [_ He]]; [done |].
      destruct (fires_before t e) eqn:Hte; [| done].
      by rewrite (fires_before_trans _ _ _ Hte He) in Htb.
Qed.

(** The timer queue's selection is correct: [next_timer] returns
    nothing exactly on an empty queue, and otherwise a pending timer that
    no pending timer fires before (earliest due time, then earliest armed,
    then lowest id). *)
Theorem next_timer_spec ts :
  (next_timer ts = None <-> ts = []) /\
  (forall t, next_timer ts = Some t ->
     In t ts /\ Forall (fun t' => fires_before t' t = false) ts).
Proof.
  split; [by destruct ts |].
  intros t Ht. destruct ts as [| t0 rest]; [done |].
  injection Ht as <-. destruct (earliest_spec t0 rest) as [Hin Hall].
  split.
  - destruct Hin as [-> | [Hin _]]; [by left | by right].
  - constructor; [| done].
    destruct Hin as [-> | [_ He]]; [apply fires_before_irrefl |].
    by apply fires_before_asym.
Qed.

(** The ten timers of the mount effect at page load, armed at [t0]. *)
Definition mount_timeouts (t0 : Z) : list Timer :=
  [mkTimer 1 t0 1000 false CbFetchTrendingTopics;
   mkTimer 2 t0 1500 false CbFetchMarketAlerts;
   mkTimer 3 t0 2000 false CbFetchReadingList;
   mkTimer 4 t0 2500 false CbFetchInstitutionalData;
   mkTimer 5 t0 3000 false CbFetchPolicyUpdates;
   mkTimer 6 t0 3500 false CbFetchLiveStreams].

Definition mount_intervals (t0 : Z) : list Timer :=
  [mkTimer 7 t0 60000 true CbFetchMarketData;
   mkTimer 8 t0 600000 true CbFetchTrendingTopics;
   mkTimer 9 t0 120000 true CbFetchMarketAlerts;
   mkTimer 10 t0 300000 true CbKeepAlive].

(** C8: at page load the mount effect issues exactly one request, the
    market data (so it precedes every other request of the critical
    tier), suspends on it, sets the six staggered timeouts 1000-3500 ms
    and the four intervals 60 s, 600 s, 120 s and 300 s, and shows the
    market loading flag. *)
Theorem mountEffect_at_load api st t0 :
  let '(w, ps) := run (mountEffect api) (boot st t0) in
  log w = [market_data_request api] /\
  map fst ps = [0] /\
  timers w = mount_timeouts t0 ++ mount_intervals t0 /\
  marketLoading (app w) = true /\
  next_tid w = 11%nat.
Proof. vm_compute. by repeat split. Qed.

(** C9: the mount effect's cleanup clears the four intervals and nothing
    else: the six staggered timeouts stay pending, so they still fire
    when the component is torn down within 3.5 s of the load. *)
Theorem mount_cleanup_leaves_timeouts api st t0 :
  let '(w, _) := run (mountEffect api) (boot st t0) in
  exists w', exec (mountCleanup (mount_interval_ids (boot st t0))) [] w = Some (w', []) /\
    timers w' = mount_timeouts t0 /\
    Forall (fun t => tm_repeat t = false) (timers w').
Proof. vm_compute. eexists; split; [reflexivity |]. split; [done |]. repeat constructor. Qed.

End Scheduler.
