(* ===== verification/Views.v ===== *)
(** * Views: the view-driven effect and the events each render offers

    - [viewEffect] is the second [useEffect] of [AppContent] (App.js lines
      410-423), re-run whenever [currentView] or [selectedCategory]
      changes: it re-fetches the articles of the selected category, the
      admin statistics and news sources on the admin view, and the SEO
      statistics on the dashboard; none of these calls is awaited.
    - [UIEvent] lists the user actions the rendered markup offers:
      the navigation buttons of [Header] (lines 473-622) and of the
      footer (1420-1452), the category filters of [DashboardView]
      (1046-1062) and [LiveNowView] (634-655), the refresh buttons, the
      admin view's actions (1295-1308), the login dialog (1481-1533), the
      password-recovery dialog (1536-1607) and the article dialog
      (1332-1390, 1610-1615).  [enabled] says when the markup renders a
      control.  The dialogs are drawn over the page but disable nothing:
      the page's controls stay in the document and reach the keyboard, so
      a control is offered whenever some part of the markup renders it.
    - [handler] is the program each control's [onClick] or [onSubmit]
      runs.
    - [dashboard_articles] is what the dashboard shows in place of its
      article list (lines 1067-1074), [None] when rendering throws.
    - [isMarketOpen] (lines 115-120) decides the header's market badge. *)

From S2P Require Import Prelude Http Storage State Async Session Fetchers Scheduler.
From stdpp Require Import gmap.
Import Http State Async Session Fetchers Scheduler.

Module Views.

(** A call of an async function that is not awaited. *)
Definition fork (p : Prog) : Prog := PFork p PDone.

Inductive UIEvent : Type :=
| ClickNav (v : View)
| ClickAdminLogin
| ClickAdmin
| ClickLogout
| ClickCategory (c : string)
| ClickRead (i : nat)
| ClickCloseArticle
| ClickStreamCategory (c : string)
| ClickRefreshStreams
| ClickGenerateNow
| InputUsername (s : string)
| InputPassword (s : string)
| SubmitLogin
| ClickForgotPassword
| ClickCancelLogin
| InputResetEmail (s : string)
| SubmitReset
| ClickBackToLogin
| ClickCancelReset
| ClickCloseReset.

(** The categories of the dashboard's filter and of the live view's. *)
Definition article_categories : list string := ["all"; "finance"; "crypto"].
Definition stream_categories : list string := ["all"; "finance"; "crypto"; "economics"].

Definition in_list (s : string) (l : list string) : bool :=
  existsb (String.eqb s) l.

(** The articles the dashboard renders, each with its Read button
    ([ClickRead i] is the button of the [i]-th one). *)
Definition article_items (b : body) : list json :=
  match b with BJson (JArr l) => l | _ => [] end.

(** What the dashboard shows in place of its article list (lines
    1067-1074): the spinner while [loading]; otherwise
    [articles.length > 0 ? articles.map(...) : <no articles>]. *)
Inductive article_list : Type := Spinner | Items (l : list json) | NoArticles.

(** [None] is a [TypeError] thrown while rendering: [null] has no
    [length]; a non-empty string has
    a positive [length] but no [map], and so has an object whose
    [length] property is a positive number (or [true], which [>]
    converts to 1).  A [length] given as a numeric string is taken as no
    list. *)
Definition dashboard_articles (s : AppState) : option article_list :=
  if loading s then Some Spinner else
  match articles s with
  | BJson JNull => None
  | BJson (JArr l) => Some (if decide (0 < length l)%nat then Items l else NoArticles)
  | BJson (JStr str) | BText str =>
      if decide (0 < String.length str)%nat then None else Some NoArticles
  | BJson (JObj fs) =>
      match obj_get "length" fs with
      | Some (JNum n) | Some (JDec n _) =>
          if decide (0 < n)%Z then None else Some NoArticles
      | Some (JBool true) => None
      | _ => Some NoArticles
      end
  | _ => Some NoArticles
  end.

(** Which control the current render offers.  The navigation buttons of
    the header and of the footer lead to every view but the admin view;
    the header's admin button opens the login dialog when anonymous and
    the admin view when authenticated, and the logout button exists only
    when authenticated. *)
Definition page_enabled (s : AppState) (e : UIEvent) : bool :=
  match e with
  | ClickNav v => negb (bool_decide (v = Admin))
  | ClickAdminLogin => negb (isAuthenticated s)
  | ClickAdmin | ClickLogout => isAuthenticated s
  | ClickCategory c =>
      bool_decide (currentView s = Dashboard) && in_list c article_categories
  | ClickRead i =>
      bool_decide (currentView s = Dashboard) && negb (loading s) &&
      Nat.ltb i (length (article_items (articles s)))
  | ClickStreamCategory c =>
      bool_decide (currentView s = LiveNow) && in_list c stream_categories
  | ClickRefreshStreams => bool_decide (currentView s = LiveNow)
  | ClickGenerateNow => bool_decide (currentView s = Admin)
  | _ => false
  end.

(** The login dialog; its inputs are [required], so the form is only
    submitted with a non-empty username and password. *)
Definition login_enabled (s : AppState) (e : UIEvent) : bool :=
  match e with
  | InputUsername _ | InputPassword _ | ClickForgotPassword | ClickCancelLogin => true
  | SubmitLogin =>
      negb (String.eqb (username (loginData s)) "") &&
      negb (String.eqb (password (loginData s)) "")
  | _ => false
  end.

(** The password-recovery dialog, by step; the e-mail input is
    [required]. *)
Definition reset_enabled (s : AppState) (e : UIEvent) : bool :=
  match recoveryStep s, e with
  | 1%nat, (InputResetEmail _ | ClickBackToLogin | ClickCancelReset) => true
  | 1%nat, SubmitReset => negb (String.eqb (resetEmail s) "")
  | 2%nat, ClickCloseReset => true
  | _, _ => false
  end.

Definition enabled (s : AppState) (e : UIEvent) : bool :=
  page_enabled s e ||
  (showLogin s && login_enabled s e) ||
  (showPasswordReset s && reset_enabled s e) ||
  match selectedArticle s, e with Some _, ClickCloseArticle => true | _, _ => false end.

Section Handlers.
Context (api : string).

Definition handler (e : UIEvent) : Prog :=
  match e with
  | ClickNav v => set (setCurrentView v)
  | ClickAdminLogin => set (setShowLogin true)
  | ClickAdmin => set (setCurrentView Admin)
  | ClickLogout => handleLogout
  | ClickCategory c => set (setSelectedCategory c)
  | ClickRead i => set (fun s => setSelectedArticle (article_items (articles s) !! i) s)
  | ClickCloseArticle => set (setSelectedArticle None)
  | ClickStreamCategory c =>
      set (setSelectedStreamCategory c) ;;; fork (fetchLiveStreams api c)
  | ClickRefreshStreams =>
      PRead (fun w => fork (fetchLiveStreams api (selectedStreamCategory (app w))))
  | ClickGenerateNow => fork (triggerArticleGeneration api)
  | InputUsername u =>
      set (fun s => setLoginData {| username := u; password := password (loginData s) |} s)
  | InputPassword p =>
      set (fun s => setLoginData {| username := username (loginData s); password := p |} s)
  | SubmitLogin => fork (handleLogin api)
  | ClickForgotPassword => set (setShowPasswordReset true)
  | ClickCancelLogin => set (setShowLogin false)
  | InputResetEmail m => set (setResetEmail m)
  | SubmitReset => fork handlePasswordReset
  | ClickBackToLogin => set (fun s => setShowLogin true (setShowPasswordReset false s))
  | ClickCancelReset => set (setShowPasswordReset false)
  | ClickCloseReset =>
      set (fun s => setResetEmail "" (setRecoveryStep 1 (setShowPasswordReset false s)))
  end.

(** The effect of lines 410-423 for the view [v] and the category [c]. *)
Definition viewEffectFor (v : View) (c : string) : Prog :=
  fork (fetchArticles api (Some c)) ;;;
  (if decide (v = Admin)
   then fork (fetchAdminStats api) ;;; fork (fetchNewsSources api)
   else PDone) ;;;
  (if decide (v = Dashboard) then fork (fetchSeoStats api) else PDone).

Definition viewEffect : Prog :=
  PRead (fun w => viewEffectFor (currentView (app w)) (selectedCategory (app w))).

End Handlers.

(** [utcHours >= 14 && utcHours < 21], with [utcHours] the hour of the
    UTC day of the time value [t] (milliseconds since the epoch). *)
Definition utc_hours (t : Z) : Z := (t / 3600000) mod 24.

Definition isMarketOpen (t : Z) : bool :=
  (14 <=? utc_hours t)%Z && (utc_hours t <? 21)%Z.

(** The time of day of [t], in milliseconds, splits into the hour and the
    rest of the hour. *)
Lemma ms_of_day t :
  (t mod 86400000 = t mod 3600000 + 3600000 * utc_hours t)%Z /\
  (0 <= t mod 3600000 < 3600000)%Z /\ (0 <= utc_hours t < 24)%Z.
Proof.
  unfold utc_hours. split; [| split; apply Z.mod_pos_bound; lia].
  change 86400000%Z with (3600000 * 24)%Z. apply Z.rem_mul_r; lia.
Qed.

(** C34: the market badge shows "open" exactly from 14:00 to 21:00 UTC,
    measured in milliseconds of the UTC day; so at 14:05 UTC the market
    is reported open, although the comment of the source gives the
    opening as 14:30 UTC (9:30 EST). *)
Theorem isMarketOpen_window t :
  (isMarketOpen t = true <-> (14 * 3600000 <= t mod 86400000 < 21 * 3600000)%Z) /\
  isMarketOpen (14 * 3600000 + 5 * 60000)%Z = true.
Proof.
  split; [| reflexivity].
  destruct (ms_of_day t) as (-> & Hr & Hh). unfold isMarketOpen.
  rewrite andb_true_iff, Z.leb_le, Z.ltb_lt. lia.
Qed.

End Views.
