(* ===== verification/Termination.v ===== *)
(** * Termination: every program of App.js completes on a bounded number of replies

    No handler of App.js loops: each awaits a fixed, small number of
    network replies on every path, whatever the replies are.  This file
    gives each program its bound as [Async.completes n p] and derives, by
    [Async.exec_completes], that it runs to the end as soon as [n]
    replies are available, consuming at most [n] of them:
    - 1 reply: [fetchSeoStats], [fetchMarketData], the admin calls,
      [keepAlive], [handleLogin];
    - 2 replies: [fetchArticles] and [fetchLiveStreams] (primary request,
      then at most one fallback);
    - 3 replies: the mount effect ([fetchMarketData] then [fetchArticles]);
    - 4 replies: the view effect on the admin view (articles, statistics,
      news sources);
    - 0 replies: the simulated feeds, [handleLogout], the restoring effect
      and [handlePasswordReset]. *)

From S2P Require Import Prelude Http Storage State Async Session Fetchers Scheduler Views.
From stdpp Require Import gmap.
Import Http State Async Session Fetchers Scheduler Views.

Module Termination.

(** Decompose a program into its steps, splitting on the replies and the
    values it reads. *)
Ltac completes_tac :=
  repeat (simpl; match goal with
  | |- completes _ PDone => apply comp_done
  | |- completes _ (PAct _ _) => apply comp_act
  | |- completes _ (PRead _) => apply comp_read; intros ?
  | |- completes _ (PAwait _ _) => apply completes_await_le; [intros ? | lia]
  | |- completes _ (match ?x with _ => _ end) => destruct x
  | |- completes _ (if ?b then _ else _) => destruct b
  | |- completes _ (pseq (match ?x with _ => _ end) _) => destruct x
  | |- completes _ (pseq (if ?b then _ else _) _) => destruct b
  end).

Section Bounds.
Context (api : string).

Lemma fetchArticles_completes c : completes 2 (fetchArticles api c).
Proof. unfold fetchArticles, await_axios, await_fetch, set, act. completes_tac. Qed.

Lemma fetchLiveStreams_completes c : completes 2 (fetchLiveStreams api c).
Proof. unfold fetchLiveStreams, await_axios, await_fetch, set, act. completes_tac. Qed.

Lemma one_request_completes :
  completes 1 (fetchSeoStats api) /\ completes 1 (fetchMarketData api) /\
  completes 1 (fetchAdminStats api) /\ completes 1 (fetchNewsSources api) /\
  completes 1 (triggerArticleGeneration api) /\ completes 1 (keepAlive api) /\
  completes 1 (handleLogin api).
Proof.
  unfold fetchSeoStats, fetchMarketData, fetchAdminStats, fetchNewsSources,
    triggerArticleGeneration, keepAlive, handleLogin, handleLogout,
    await_axios, read_storage, set, act.
  repeat split; completes_tac.
Qed.

Lemma local_completes :
  completes 0 fetchTrendingTopics /\ completes 0 fetchMarketAlerts /\
  completes 0 fetchReadingList /\ completes 0 fetchInstitutionalData /\
  completes 0 fetchPolicyUpdates /\ completes 0 handleLogout /\
  completes 0 restoreSession /\ completes 0 handlePasswordReset.
Proof.
  unfold fetchTrendingTopics, fetchMarketAlerts, fetchReadingList,
    fetchInstitutionalData, fetchPolicyUpdates, handleLogout, restoreSession,
    handlePasswordReset, read_storage, set, act.
  repeat split; completes_tac.
Qed.

Lemma callback_completes cb : completes 2 (callback_prog api cb).
Proof.
  destruct local_completes as (? & ? & ? & ? & ? & _).
  destruct one_request_completes as (_ & ? & ? & _ & _ & ? & _).
  destruct cb; simpl;
    try (eapply completes_mono; [eassumption | lia]).
  apply fetchLiveStreams_completes.
Qed.

Lemma fork_completes n p : completes n p -> completes n (fork p).
Proof. intros H. unfold fork. replace n with (n + 0) by lia. apply comp_fork; [exact H | constructor]. Qed.

Lemma handler_completes e : completes 2 (handler api e).
Proof.
  destruct local_completes as (_ & _ & _ & _ & _ & Hlo & _ & Hpr).
  destruct one_request_completes as (_ & _ & _ & _ & Htg & _ & Hli).
  destruct e; simpl; unfold set, act; try completes_tac;
    match goal with
    | |- completes _ (fork (fetchLiveStreams _ _)) =>
        apply fork_completes, fetchLiveStreams_completes
    | |- completes _ (fork _) => apply fork_completes; eapply completes_mono; [eassumption | lia]
    | |- completes _ _ => eapply completes_mono; [eassumption | lia]
    end.
Qed.

Lemma viewEffect_completes : completes 4 (viewEffect api).
Proof.
  destruct one_request_completes as (Hseo & _ & Hst & Hns & _).
  constructor. intros w. unfold viewEffectFor.
  apply (completes_pseq 2 2); [apply fork_completes, fetchArticles_completes |].
  destruct (decide (_ = Admin)) as [-> | ?]; simpl.
  - apply (completes_fork_le 1 1); [exact Hst | | lia].
    apply (completes_fork_le 1 0); [exact Hns | constructor | lia].
  - destruct (decide (_ = Dashboard)); simpl; [| constructor].
    apply fork_completes. eapply completes_mono; [exact Hseo | lia].
Qed.

Lemma set_timers_completes r sched : completes 0 (set_timers r sched).
Proof.
  induction sched as [| [d cb] sched IH]; simpl; [constructor |].
  by constructor.
Qed.

Lemma mountEffect_completes : completes 3 (mountEffect api).
Proof.
  destruct one_request_completes as (_ & Hmd & _).
  apply (completes_fork_le 3 0); [| | lia].
  - apply (completes_pseq 1 2); [exact Hmd | apply fetchArticles_completes].
  - apply (completes_pseq 0 0); apply set_timers_completes.
Qed.

End Bounds.

(** A program that completes within [n] replies cannot be one that gets
    stuck on some [n] replies. *)
Lemma not_completes n p rs w :
  length rs = n -> exec p rs w = None -> ~ completes n p.
Proof.
  intros Hl E H. destruct (exec_completes n p H rs w) as (w' & pre & rs' & E' & _); [lia |].
  by rewrite E in E'.
Qed.

(** C13: every program of App.js runs to its end once enough replies
    arrive, consuming at most that many: two for every user event and
    every timer callback, four for the view effect, three for the mount
    effect, none for the restoring effect. *)
Theorem programs_terminate api :
  (forall e, terminates_within 2 (handler api e)) /\
  (forall cb, terminates_within 2 (callback_prog api cb)) /\
  terminates_within 4 (viewEffect api) /\
  terminates_within 3 (mountEffect api) /\
  terminates_within 0 restoreSession.
Proof.
  split; [intros e; apply exec_completes, handler_completes |].
  split; [intros cb; apply exec_completes, callback_completes |].
  split; [apply exec_completes, viewEffect_completes |].
  split; [apply exec_completes, mountEffect_completes |].
  apply exec_completes, local_completes.
Qed.

(** C14: the bounds are exact: the mount effect can need three replies
    (market data, articles, the articles' fallback), the view effect of
    the admin view four, and a click on a live-stream category two. *)
Theorem request_bounds_exact api :
  completes 3 (mountEffect api) /\ ~ completes 2 (mountEffect api) /\
  completes 4 (viewEffect api) /\ ~ completes 3 (viewEffect api) /\
  completes 2 (handler api (ClickStreamCategory "all")) /\
  ~ completes 1 (handler api (ClickStreamCategory "all")).
Proof.
  split; [apply mountEffect_completes |].
  split; [apply (not_completes _ _ [NetError; NetError] (boot ∅ 0)); reflexivity |].
  split; [apply viewEffect_completes |].
  split; [apply (not_completes _ _ [NetError; NetError; NetError]
                   (upd_app (setCurrentView Admin) (boot ∅ 0))); reflexivity |].
  split; [apply handler_completes |].
  apply (not_completes _ _ [NetError] (boot ∅ 0)); reflexivity.
Qed.

End Termination.
