(* ===== verification/Render.v ===== *)
(** * Render: which states the markup of App.js renders without throwing

    React calls the component functions on every state change; an
    exception thrown while evaluating the JSX (a property read on
    [undefined] or [null], a [map] or [slice] on a value that has none,
    [formatDistanceToNow] on an invalid date) unmounts the whole tree.
    This file models, for each part of the page, the expressions of its
    markup that can throw, over the JavaScript values the state holds:
    - the header's SEO counters (App.js 613-617), shown on every view;
    - [LiveNowView] (625-790): the per-category counts, the stream cards
      and the empty-state test;
    - [SmartMoneyView] (793-876) and [PoliciesView] (965-1003);
    - [DashboardView] (1039-1243): the article list and cards, and the
      sidebar (market data, trending topics, reading list);
    - [AdminView] (1245-1330): the counters and the recent articles;
    - [ArticleModal] (1332-1390), shown while [selectedArticle] is set.
    [page_renders] combines them as the main render (1393-1617) does.

    [new Date(s)] on a string depends on the engine's date parser, which
    is left abstract as [parse_date]: every theorem holds for any parser.
    Text children are taken to render whatever their value (React throws
    on an object given as a child; that case is not modelled), and a
    [length] compared with [0] is taken from numbers and booleans only. *)

From S2P Require Import Prelude Http Storage State Async Session Fetchers Scheduler Views.
From stdpp Require Import gmap.
Import Http State Async Session Fetchers Scheduler Views.

Module Render.

(** ** JavaScript values and the operations the markup uses *)

(** The value a state field holds: axios keeps an unparsed body as a
    string. *)
Definition body_val (b : body) : jsval :=
  JDef (match b with BJson j => j | BText s => JStr s end).

Definition nonnull (v : jsval) : bool :=
  match v with JUndefined | JDef JNull => false | _ => true end.

Definition js_truthy (v : jsval) : bool :=
  match v with
  | JUndefined | JDef JNull => false
  | JDef (JBool b) => b
  | JDef (JNum z) | JDef (JDec z _) => negb (Z.eqb z 0)
  | JDef (JStr s) => negb (String.eqb s "")
  | JDef (JArr _) | JDef (JObj _) => true
  end.

(** [v.p]; [None] is the [TypeError] of reading a property of
    [undefined] or [null]. *)
Definition get (v : jsval) (p : string) : option jsval :=
  match v with
  | JUndefined | JDef JNull => None
  | JDef (JObj fs) => Some (match obj_get p fs with Some x => JDef x | None => JUndefined end)
  | JDef (JArr l) =>
      Some (if String.eqb p "length" then JDef (JNum (Z.of_nat (length l))) else JUndefined)
  | JDef (JStr s) =>
      Some (if String.eqb p "length" then JDef (JNum (Z.of_nat (String.length s))) else JUndefined)
  | JDef _ => Some JUndefined
  end.

(** [v.p] where [v] is known not to be [undefined] or [null]. *)
Definition field (v : jsval) (p : string) : jsval :=
  match get v p with Some x => x | None => JUndefined end.

(** [v > 0]. *)
Definition gt0 (v : jsval) : bool :=
  match v with
  | JDef (JNum z) | JDef (JDec z _) => Z.ltb 0 z
  | JDef (JBool b) => b
  | _ => false
  end.

(** [v.map(f)]: only an array has [map]. *)
Definition js_map (v : jsval) : option (list json) :=
  match v with JDef (JArr l) => Some l | _ => None end.

(** [v.slice(0, n).map(f)]: a string's [slice] is a string, which has no
    [map]. *)
Definition slice_map (v : jsval) (n : nat) : option (list json) :=
  match v with JDef (JArr l) => Some (firstn n l) | _ => None end.

(** [v?.slice(0, n).map(f)]: nothing when [v] is [undefined] or [null]. *)
Definition opt_slice_map (v : jsval) (n : nat) : option (list json) :=
  match v with JUndefined | JDef JNull => Some [] | _ => slice_map v n end.

Fixpoint chars (s : string) : list json :=
  match s with
  | EmptyString => []
  | String c rest => JStr (String c EmptyString) :: chars rest
  end.

(** [...v.slice(0, n)]: an array's elements or a string's characters. *)
Definition spread_slice (v : jsval) (n : nat) : option (list json) :=
  match v with
  | JDef (JArr l) => Some (firstn n l)
  | JDef (JStr s) => Some (firstn n (chars s))
  | _ => None
  end.

(** Time values of [Date] objects lie within 8.64e15 ms of the epoch. *)
Definition time_value_ok (z : Z) : bool := Z.leb (Z.abs z) 8640000000000000.

(** [x.toUpperCase()]. *)
Definition is_string (v : jsval) : bool :=
  match v with JDef (JStr _) => true | _ => false end.

Definition is_some {A} (o : option A) : bool :=
  match o with Some _ => true | None => false end.

Section Markup.
Context (parse_date : string -> bool).

(** [formatDistanceToNow(new Date(v))] does not throw: [new Date(v)] is a
    valid date.  A date object of the simulated data is kept as its time
    value, a number. *)
Definition date_ok (v : jsval) : bool :=
  match v with
  | JUndefined => false
  | JDef JNull | JDef (JBool _) => true
  | JDef (JNum z) => time_value_ok z
  | JDef (JDec m k) => Z.leb (Z.abs m) (8640000000000000 * 10 ^ Z.of_nat k)
  | JDef (JStr s) => parse_date s
  | JDef j => parse_date (js_string (JDef j))
  end.

(** [formatDistanceToNow(v)] on the value itself (the alerts'
    timestamps): a number of the date range. *)
Definition date_value_ok (v : jsval) : bool :=
  match v with JDef (JNum z) => time_value_ok z | _ => false end.

(** [{seoStats.total_articles || 0} articles] and the same for today. *)
Definition header_ok (s : AppState) : bool := nonnull (body_val (seoStats s)).

(** One stream card (lines 665-760). *)
Definition stream_card_ok (st : json) : bool :=
  let v := JDef st in
  let tags := field v "tags" in
  nonnull v && is_string (field v "category") && date_ok (field v "started_at") &&
  (negb (js_truthy tags) || negb (gt0 (field tags "length")) || is_some (slice_map tags 2)).

Definition live_view_ok (s : AppState) : bool :=
  let ls := body_val (liveStreams s) in
  (* the counts of the category buttons: liveStreams.filter(s => s.category ...) *)
  match js_map ls with Some l => forallb (fun st => nonnull (JDef st)) l | None => false end &&
  (liveStreamsLoading s ||
   match js_map ls with Some l => forallb stream_card_ok l | None => false end) &&
  (* liveStreams.length === 0 *)
  nonnull ls.

(** A [map] whose callback reads properties of each element. *)
Definition map_fields (v : jsval) (ok : json -> bool) : bool :=
  match js_map v with Some l => forallb (fun x => nonnull (JDef x) && ok x) l | None => false end.

(** The holdings read [holding.amount.toLocaleString()] (line 815), the
    alerts give [alert.timestamp] to [formatDistanceToNow] (line 867). *)
Definition smart_money_ok (s : AppState) : bool :=
  map_fields (body_val (institutionalData s)) (fun h => nonnull (field (JDef h) "amount")) &&
  map_fields (body_val (policyUpdates s)) (fun _ => true) &&
  map_fields (body_val (marketAlerts s)) (fun a => date_value_ok (field (JDef a) "timestamp")).

Definition policies_ok (s : AppState) : bool :=
  map_fields (body_val (policyUpdates s)) (fun _ => true).

(** One article card (lines 1075-1130). *)
Definition article_card_ok (a : json) : bool :=
  nonnull (JDef a) && date_ok (field (JDef a) "published_at") &&
  is_some (slice_map (field (JDef a) "tags") 3).

(** A [?.slice(0, 5).map] of the market data whose callback reads the
    fields of each element and needs [ok] of it. *)
Definition market_list_ok (md : jsval) (p : string) (ok : json -> bool) : bool :=
  match get md p with
  | Some v =>
      match opt_slice_map v 5 with
      | Some l => forallb (fun x => nonnull (JDef x) && ok x) l
      | None => false
      end
  | None => false
  end.

Definition sidebar_ok (s : AppState) : bool :=
  let md := body_val (marketData s) in
  let rl := body_val (readingList s) in
  (* [stock.price] is rendered as is; [crypto.price.toLocaleString()] (line 1197) *)
  (marketLoading s || market_list_ok md "stocks" (fun _ => true)) &&
  market_list_ok md "cryptos" (fun x => nonnull (field (JDef x) "price")) &&
  map_fields (body_val (trendingTopics s)) (fun x => nonnull (field (JDef x) "volume")) &&
  match get rl "finance", get rl "crypto" with
  | Some f, Some c => is_some (spread_slice f 2) && is_some (spread_slice c 2)
  | _, _ => false
  end.

Definition dashboard_ok (s : AppState) : bool :=
  match dashboard_articles s with
  | None => false
  | Some (Items l) => forallb article_card_ok l
  | Some _ => true
  end && sidebar_ok s.

Definition admin_ok (s : AppState) : bool :=
  let st := body_val (adminStats s) in
  nonnull st && nonnull (body_val (seoStats s)) &&
  match opt_slice_map (field st "recent_articles") 5 with
  | Some l => forallb (fun a => nonnull (JDef a) && date_ok (field (JDef a) "published_at")) l
  | None => false
  end.

Definition article_modal_ok (a : json) : bool :=
  date_ok (field (JDef a) "published_at") && is_some (js_map (field (JDef a) "tags")).

Definition view_renders (s : AppState) : bool :=
  match currentView s with
  | Dashboard => dashboard_ok s
  | LiveNow => live_view_ok s
  | SmartMoney => smart_money_ok s
  | Policies => policies_ok s
  | About | Privacy => true
  | Admin => admin_ok s
  end.

(** The main render: the header, the current view, and the article
    dialog when [selectedArticle] is truthy. *)
Definition page_renders (s : AppState) : bool :=
  header_ok s && view_renders s &&
  match selectedArticle s with
  | Some a => negb (js_truthy (JDef a)) || article_modal_ok a
  | None => true
  end.

End Markup.

(** ** Dates of the simulated alerts *)

#[local] Arguments time_value_ok : simpl never.

(** The alerts of [fetchMarketAlerts] are dated five and ten minutes
    before the clock reading [t]; both are valid dates when [t] is. *)
Lemma alert_times_ok t :
  (600000 - 8640000000000000 <= t <= 8640000000000000)%Z ->
  time_value_ok (t - 300000) = true /\ time_value_ok (t - 600000) = true.
Proof. intros Ht. unfold time_value_ok. split; apply Z.leb_le; lia. Qed.

End Render.
