(* ===== verification/App.v ===== *)
(** * App: the page as a transition system

    [Sys] is the state of a loaded page: the browser world, the
    continuations suspended on network requests (keyed by the index of
    their request in the log), the dependencies the view effect last ran
    with, whether the component is mounted, and the interval ids its
    cleanup clears.

    [load] is a page load: the three effects of [AppContent] run in
    source order after the first render (mount effect, view effect,
    session restore).  A step of [step] is one macrotask of the event
    loop:
    - a reply arrives for a pending request and its continuation runs;
    - the timer queue's next timer fires and its callback runs;
    - the user uses a control the current render offers;
    - the admin view's "Refresh Dashboard" button reloads the page;
    - the component is unmounted, which runs the mount effect's cleanup.
    After each macrotask React commits: when [currentView] or
    [selectedCategory] changed, the view effect runs ([turn]).

    [step_fn] and [run_events] execute a given sequence of events and are
    sound for [step]; the scenarios of the specification are runs of
    [run_events] evaluated by computation. *)

From S2P Require Import Prelude Http Storage State Async Session Fetchers Scheduler Views.
From stdpp Require Import gmap.
Import Http State Async Session Fetchers Scheduler Views.

Module App.

Record Sys : Type := mkSys {
  sw : World;
  pend : list pending;
  deps : View * string;
  mounted : bool;
  cleanup : list nat
}.

Definition deps_of (w : World) : View * string :=
  (currentView (app w), selectedCategory (app w)).

Inductive Event : Type :=
| EResolve (i : nat) (r : reply)
| EFire
| EClick (e : UIEvent)
| EReload
| EUnmount.

(** The first pending continuation waiting for request [i], with the
    others. *)
Fixpoint take_pending (i : nat) (ps : list pending)
    : option ((reply -> Prog) * list pending) :=
  match ps with
  | [] => None
  | (j, k) :: rest =>
      if Nat.eqb i j then Some (k, rest)
      else match take_pending i rest with
           | Some (k', rest') => Some (k', (j, k) :: rest')
           | None => None
           end
  end.

Section System.
Context (api : string).

(** One macrotask running [p], the other pending continuations being
    [rest], followed by React's commit. *)
Definition turn (p : Prog) (s : Sys) (rest : list pending) : Sys :=
  let '(w1, ps1) := run p (sw s) in
  if mounted s && negb (bool_decide (deps_of w1 = deps s)) then
    let '(w2, ps2) := run (viewEffect api) w1 in
    mkSys w2 (rest ++ ps1 ++ ps2) (deps_of w1) (mounted s) (cleanup s)
  else mkSys w1 (rest ++ ps1) (deps s) (mounted s) (cleanup s).

(** A page load with storage [st] at time [t0]. *)
Definition load (st : gmap string string) (t0 : Z) : Sys :=
  let w0 := boot st t0 in
  let '(w1, ps1) := run (mountEffect api) w0 in
  let '(w2, ps2) := run (viewEffect api) w1 in
  let '(w3, ps3) := run restoreSession w2 in
  mkSys w3 (ps1 ++ ps2 ++ ps3) (deps_of w3) true (mount_interval_ids w0).

Definition with_world (w : World) (s : Sys) : Sys :=
  mkSys w (pend s) (deps s) (mounted s) (cleanup s).

(** The timer [t] fires: it leaves the queue (or, for an interval, is
    re-armed after its callback). *)
Definition fire_turn (t : Timer) (s : Sys) : Sys :=
  let s1 := turn (callback_prog api (tm_cb t))
              (with_world (take_timer t (sw s)) s) (pend s) in
  if tm_repeat t then with_world (rearm_timer (tm_id t) (sw s1)) s1 else s1.

Definition unmount (s : Sys) : Sys :=
  let '(w1, ps1) := run (mountCleanup (cleanup s)) (sw s) in
  mkSys w1 (pend s ++ ps1) (deps s) false (cleanup s).

Inductive step : Sys -> Sys -> Prop :=
| StepResolve s i r k rest :
    take_pending i (pend s) = Some (k, rest) ->
    step s (turn (k r) s rest)
| StepFire s t :
    next_timer (timers (sw s)) = Some t ->
    step s (fire_turn t s)
| StepClick s e :
    mounted s = true -> enabled (app (sw s)) e = true ->
    step s (turn (handler api e) s (pend s))
| StepReload s :
    mounted s = true -> currentView (app (sw s)) = Admin ->
    step s (load (storage (sw s)) (now (sw s)))
| StepUnmount s :
    mounted s = true -> step s (unmount s).

Definition step_fn (s : Sys) (ev : Event) : option Sys :=
  match ev with
  | EResolve i r =>
      match take_pending i (pend s) with
      | Some (k, rest) => Some (turn (k r) s rest)
      | None => None
      end
  | EFire =>
      match next_timer (timers (sw s)) with
      | Some t => Some (fire_turn t s)
      | None => None
      end
  | EClick e =>
      if mounted s && enabled (app (sw s)) e
      then Some (turn (handler api e) s (pend s)) else None
  | EReload =>
      if mounted s && bool_decide (currentView (app (sw s)) = Admin)
      then Some (load (storage (sw s)) (now (sw s))) else None
  | EUnmount => if mounted s then Some (unmount s) else None
  end.

Fixpoint run_events (s : Sys) (evs : list Event) : option Sys :=
  match evs with
  | [] => Some s
  | ev :: rest =>
      match step_fn s ev with
      | Some s' => run_events s' rest
      | None => None
      end
  end.

(** A property of every pending continuation holds of the one taken and
    of the others. *)
Lemma take_pending_Forall (P : pending -> Prop) i ps k rest :
  take_pending i ps = Some (k, rest) -> Forall P ps -> P (i, k) /\ Forall P rest.
Proof.
  revert rest. induction ps as [| [j k'] ps IH]; intros rest; simpl; [done |].
  intros H Hall. apply Forall_cons in Hall as [Hk' Hall].
  destruct (Nat.eqb_spec i j) as [-> |].
  - injection H as <- <-. done.
  - destruct (take_pending i ps) as [[k'' rest'] |]; [| done].
    injection H as <- <-. destruct (IH rest' eq_refl Hall). split; [done |].
    by constructor.
Qed.

(** Reflexive-transitive closure of [step]. *)
Inductive steps : Sys -> Sys -> Prop :=
| steps_refl s : steps s s
| steps_step s1 s2 s3 : step s1 s2 -> steps s2 s3 -> steps s1 s3.

(** The states a page reaches from some load. *)
Definition reachable (s : Sys) : Prop :=
  exists st t0, steps (load st t0) s.

Lemma step_fn_sound s ev s' : step_fn s ev = Some s' -> step s s'.
Proof.
  destruct ev as [i r | | e | |]; unfold step_fn.
  - destruct (take_pending i (pend s)) as [[k rest] |] eqn:E; [| done].
    intros H. apply some_eq in H; subst s'. eapply StepResolve; exact E.
  - destruct (next_timer _) eqn:E; [| done].
    intros H. apply some_eq in H; subst s'. apply StepFire; exact E.
  - destruct (mounted s) eqn:Hm, (enabled _ e) eqn:He; try done.
    intros H. apply some_eq in H; subst s'. apply StepClick; assumption.
  - destruct (mounted s) eqn:Hm; [| done].
    destruct (bool_decide _) eqn:Hv; [| done].
    apply bool_decide_eq_true in Hv. intros H. apply some_eq in H; subst s'. apply StepReload; assumption.
  - destruct (mounted s) eqn:Hm; [| done]. intros H. apply some_eq in H; subst s'. apply StepUnmount; assumption.
Qed.

Lemma run_events_sound s evs s' : run_events s evs = Some s' -> steps s s'.
Proof.
  revert s. induction evs as [| ev rest IH]; intros s; cbn [run_events].
  - intros H. apply some_eq in H; subst s'. apply steps_refl.
  - destruct (step_fn s ev) as [s1 |] eqn:E; [| done].
    intros H. apply (steps_step _ s1); [exact (step_fn_sound s ev s1 E) | apply IH; exact H].
Qed.

(** The executable interpreter and the step relation agree: a step
    of the page is exactly one event of [step_fn] that is accepted. *)
Theorem step_iff_step_fn s s' : step s s' <-> exists ev, step_fn s ev = Some s'.
Proof.
  split; [| intros [ev H]; exact (step_fn_sound s ev s' H)].
  intros Hs. destruct Hs as [s i r k rest E | s t E | s e Hm He | s Hm Hv | s Hm].
  - exists (EResolve i r). unfold step_fn. by rewrite E.
  - exists EFire. unfold step_fn. by rewrite E.
  - exists (EClick e). unfold step_fn. by rewrite Hm, He.
  - exists EReload. unfold step_fn. rewrite Hm, bool_decide_eq_true_2 by exact Hv. done.
  - exists EUnmount. unfold step_fn. by rewrite Hm.
Qed.

End System.

(** ** Invariants of the page from invariants of its programs

    A world invariant that every program keeps in the Hoare logic of
    [Async] holds after each macrotask, together with the safety of the
    continuations left pending. *)

Section SysHoare.
Context (api : string) (Inv : World -> Prop).
Hypothesis issue_inv : forall r w, Inv w -> Inv (issue r w).
Hypothesis view_safe : hoare Inv TT (viewEffect api) TT.

Definition sys_hoare (s : Sys) : Prop := Inv (sw s) /\ Forall (pend_hoare Inv) (pend s).

Lemma turn_hoare P p s rest :
  hoare Inv P p TT -> P (sw s) -> Inv (sw s) -> Forall (pend_hoare Inv) rest ->
  sys_hoare (turn api p s rest).
Proof.
  intros Hp HP Hw Hrest. unfold turn.
  pose proof (run_hoare Inv issue_inv _ _ _ _ Hp Hw HP) as [Hw1 Hps1].
  destruct (run p (sw s)) as [w1 ps1]. cbn [fst snd] in Hw1, Hps1.
  destruct (_ && _).
  - pose proof (run_hoare Inv issue_inv _ _ _ _ view_safe Hw1 I) as [Hw2 Hps2].
    destruct (run (viewEffect api) w1) as [w2 ps2]. cbn [fst snd] in *.
    split; [done |]. by repeat apply Forall_app_2.
  - split; [done |]. by apply Forall_app_2.
Qed.

Lemma resolve_hoare s i r k rest :
  take_pending i (pend s) = Some (k, rest) -> sys_hoare s -> sys_hoare (turn api (k r) s rest).
Proof.
  intros E [Hw Hp]. destruct (take_pending_Forall _ _ _ _ _ E Hp) as [Hk Hrest].
  by apply (turn_hoare TT).
Qed.

Lemma load_hoare st t0 :
  hoare Inv TT (mountEffect api) TT -> hoare Inv TT restoreSession TT ->
  Inv (boot st t0) -> sys_hoare (load api st t0).
Proof.
  intros Hm Hr Hb. unfold load.
  pose proof (run_hoare Inv issue_inv _ _ _ _ Hm Hb I) as [H1 P1].
  destruct (run (mountEffect api) (boot st t0)) as [w1 ps1]. cbn [fst snd] in H1, P1.
  pose proof (run_hoare Inv issue_inv _ _ _ _ view_safe H1 I) as [H2 P2].
  destruct (run (viewEffect api) w1) as [w2 ps2]. cbn [fst snd] in H2, P2.
  pose proof (run_hoare Inv issue_inv _ _ _ _ Hr H2 I) as [H3 P3].
  destruct (run restoreSession w2) as [w3 ps3]. cbn [fst snd] in H3, P3.
  split; [done |]. by repeat apply Forall_app_2.
Qed.

End SysHoare.

End App.
