(* ===== verification/Invariants.v ===== *)
(** * Invariants: what holds in every state a page reaches

    The page invariant [page_inv] is the session gate of the
    specification, as App.js maintains it:
    - the admin view is shown only to an authenticated session, and
    - an authenticated session has a token in [localStorage].

    The programs of the code are checked against it in the Hoare logic
    of [Async] ([psafe] is [hoare page_inv]): [psafe P p Q] says that
    running [p] from a world satisfying the invariant and [P] keeps the
    invariant at every synchronous step, ends in [Q] and leaves safe
    continuations.  Every program of App.js is
    proved safe ([fetchers_safe], [session_safe], [handler_safe], ...), and
    the transition system of [App] then keeps [sys_inv] by induction on its
    steps. *)

From S2P Require Import Prelude Http Storage State Async Session Fetchers Scheduler Views App.
From stdpp Require Import gmap.
Import Http State Async Session Fetchers Scheduler Views App.

Module Invariants.

Definition page_inv (w : World) : Prop :=
  (currentView (app w) = Admin -> isAuthenticated (app w) = true) /\
  auth_has_token w.

(** The programs are checked against [page_inv] in the Hoare logic
    [Async.hoare]. *)
Notation psafe := (hoare page_inv).
Notation pend_safe := (pend_hoare page_inv).

Lemma issue_page_inv r w : page_inv w -> page_inv (issue r w).
Proof. intros [Hv Ht]. split; [done |]. intros Ha. specialize (Ht Ha). by destruct w. Qed.

Lemma psafe_pseq P R Q p q : psafe P p R -> psafe R q Q -> psafe P (p ;;; q) Q.
Proof. apply hoare_pseq. Qed.

Lemma run_safe P p Q w :
  psafe P p Q -> page_inv w -> P w ->
  page_inv (run p w).1 /\ Forall pend_safe (run p w).2.
Proof. apply run_hoare, issue_page_inv. Qed.

(** ** Safety of the primitive statements *)

Lemma page_inv_frame f w :
  app (f w) = app w -> storage (f w) = storage w -> page_inv w -> page_inv (f w).
Proof.
  intros Ha Hs [Hv Ht]. unfold page_inv, auth_has_token in *.
  rewrite Ha, Hs. done.
Qed.

(** A statement that touches neither the application state nor the
    storage ([alert], a timer, a request). *)
Lemma frame_safe P f :
  (forall w, app (f w) = app w /\ storage (f w) = storage w) ->
  psafe P (act f) TT.
Proof.
  intros Hf. apply (ps_act _ TT); [| by constructor].
  intros w Hw _. destruct (Hf w). split; [by apply page_inv_frame | done].
Qed.

(** Setters that change neither the view nor the authentication flag. *)
Lemma set_safe P f :
  (forall s, currentView (f s) = currentView s) ->
  (forall s, isAuthenticated (f s) = isAuthenticated s) ->
  psafe P (set f) TT.
Proof.
  intros Hv Ha. apply (ps_act _ TT); [| by constructor].
  intros w [Hw1 Hw2] _. split; [| done]. split.
  - rewrite app_upd_app, Hv, Ha. exact Hw1.
  - unfold auth_has_token in *. rewrite app_upd_app, storage_upd_app, Ha. exact Hw2.
Qed.

Lemma handleLogout_safe P : psafe P handleLogout TT.
Proof.
  apply (ps_act _ TT); [| by constructor].
  intros w _ _. split; [| done].
  unfold page_inv, auth_has_token. rewrite handleLogout_world_app. done.
Qed.

#[export] Hint Resolve frame_safe handleLogout_safe : dash.

(** Decompose a program into its statements. *)
Ltac psafe_auto :=
  repeat match goal with
  | |- psafe _ (_ ;;; _) _ => apply (psafe_pseq _ TT)
  | |- psafe _ PDone _ => by constructor
  | |- psafe _ (PAwait _ _) _ => constructor; intros
  | |- psafe _ (PRead _) _ => constructor; intros
  | |- psafe _ (PFork _ _) _ => constructor
  | |- psafe _ (set _) _ => apply set_safe; intros; reflexivity
  | |- psafe _ (act (alert _)) _ => apply frame_safe; intros []
  | |- psafe _ (act (add_timer _ _ _)) _ => apply frame_safe; intros []
  | |- psafe _ handleLogout _ => apply handleLogout_safe
  | |- psafe _ (PAct (add_timer _ _ _) _) _ =>
      apply (ps_act _ TT); [intros ? ? _; split; [by apply page_inv_frame | done] |]
  | |- psafe _ (match ?x with _ => _ end) _ => destruct x
  | |- psafe _ (if ?b then _ else _) _ => destruct b
  end; try done.

(** ** Safety of the programs of App.js *)

Section Programs.
Context (api : string).

Lemma fetchers_safe P c cat :
  psafe P (fetchArticles api c) TT /\ psafe P (fetchSeoStats api) TT /\
  psafe P (fetchMarketData api) TT /\ psafe P (fetchLiveStreams api cat) TT /\
  psafe P (fetchAdminStats api) TT /\ psafe P (fetchNewsSources api) TT /\
  psafe P (triggerArticleGeneration api) TT /\ psafe P (keepAlive api) TT.
Proof.
  unfold fetchArticles, fetchSeoStats, fetchMarketData, fetchLiveStreams,
    fetchAdminStats, fetchNewsSources, triggerArticleGeneration, keepAlive,
    await_axios, await_fetch, read_storage.
  repeat split; psafe_auto.
Qed.

Lemma fetchLiveStreams_safe P cat : psafe P (fetchLiveStreams api cat) TT.
Proof. by destruct (fetchers_safe P None cat) as (_ & _ & _ & H & _). Qed.

Lemma callback_safe P cb : psafe P (callback_prog api cb) TT.
Proof.
  destruct (fetchers_safe P None "all") as (? & ? & ? & ? & ? & ? & ? & ?).
  destruct cb; simpl; try done;
    unfold fetchTrendingTopics, fetchMarketAlerts, fetchReadingList,
      fetchInstitutionalData, fetchPolicyUpdates; psafe_auto.
Qed.

(** The login stores the token before it marks the session
    authenticated: the intermediate world has the token. *)
Lemma handleLogin_safe P : psafe P (handleLogin api) TT.
Proof.
  unfold handleLogin, await_axios. constructor; intros w0. constructor; intros x.
  destruct (axios_outcome _ x) as [st d | e]; [| psafe_auto].
  destruct (js_prop d "access_token") as [v |]; [| psafe_auto].
  apply (psafe_pseq _ (fun w => is_Some (getItem "token" (storage w)))).
  - apply (ps_act _ (fun w => is_Some (getItem "token" (storage w)))); [| by constructor].
    intros w [Hv Ht] _. unfold page_inv, auth_has_token.
    rewrite storage_upd_storage, app_upd_storage, get_set_eq.
    split; [| by eexists]. split; [done |]. by eexists.
  - apply (ps_act _ TT); [| by constructor].
    intros w _ Htok. split; [| done]. split; [done |].
    unfold auth_has_token. by rewrite storage_upd_app.
Qed.

(** The restore reads the token and, in the same synchronous segment,
    marks the session authenticated only when it is there. *)
Lemma restoreSession_safe P : psafe P restoreSession TT.
Proof.
  unfold restoreSession, read_storage. constructor. intros w0.
  destruct (js_truthy_str (getItem "token" (storage w0))) eqn:E; [| by constructor].
  apply (ps_act _ TT); [| by constructor].
  intros w [Hv Ht] [_ ->]. split; [| done]. split; [done |].
  unfold auth_has_token. rewrite storage_upd_app. intros _.
  destruct (getItem "token" (storage w0)); [by eexists | discriminate E].
Qed.

Lemma handlePasswordReset_safe P : psafe P handlePasswordReset TT.
Proof. unfold handlePasswordReset. psafe_auto. Qed.

Lemma viewEffect_safe P : psafe P (viewEffect api) TT.
Proof.
  unfold viewEffect. constructor. intros w. unfold viewEffectFor, fork.
  destruct (fetchers_safe (fun w' => P w' /\ w' = w) (Some (selectedCategory (app w))) "all")
    as (? & ? & ? & ? & ? & ? & ? & ?).
  destruct (fetchers_safe TT None "all") as (? & ? & ? & ? & ? & ? & ? & ?).
  psafe_auto.
Qed.

Lemma set_timers_safe P r sched : psafe P (set_timers r sched) TT.
Proof.
  revert P. induction sched as [| [d cb] rest IH]; intros P; simpl; [by constructor |].
  apply (ps_act _ TT); [| apply IH].
  intros w Hw _. split; [by apply page_inv_frame | done].
Qed.

Lemma mountEffect_safe P : psafe P (mountEffect api) TT.
Proof.
  unfold mountEffect, loadCriticalData, loadSecondaryData.
  destruct (fetchers_safe P None "all") as (? & ? & ? & ? & ? & ? & ? & ?).
  destruct (fetchers_safe TT None "all") as (? & ? & ? & ? & ? & ? & ? & ?).
  constructor; apply (psafe_pseq _ TT); auto using set_timers_safe.
Qed.

End Programs.

(** ** The events the render offers *)

Lemma enabled_admin s : enabled s ClickAdmin = true -> isAuthenticated s = true.
Proof.
  unfold enabled, reset_enabled, login_enabled, page_enabled.
  destruct (selectedArticle s), (recoveryStep s) as [| [| [|]]];
    rewrite ?andb_false_r, ?orb_false_r; done.
Qed.

Lemma enabled_nav s v : enabled s (ClickNav v) = true -> v <> Admin.
Proof.
  unfold enabled, reset_enabled, login_enabled, page_enabled. intros H Hv. subst v.
  destruct (selectedArticle s), (recoveryStep s) as [| [| [|]]];
    rewrite ?andb_false_r, ?orb_false_r in H; discriminate H.
Qed.

Lemma handler_safe api e w :
  enabled (app w) e = true -> psafe (fun w' => w' = w) (handler api e) TT.
Proof.
  intros He.
  destruct (fetchers_safe api (fun w' => w' = w) None "all")
    as (? & ? & ? & ? & ? & ? & ? & ?).
  destruct e; cbn [handler]; unfold fork; try (psafe_auto; fail).
  - (* ClickNav *)
    apply (ps_act _ TT); [| by constructor]. intros w' [_ Ht] _.
    split; [| done]. split.
    + simpl. intros ->. by apply (enabled_nav (app w) Admin) in He.
    + exact Ht.
  - (* ClickAdmin *)
    apply (ps_act _ TT); [| by constructor]. intros w' [_ Ht] ->.
    split; [| done]. split; [intros _; by apply enabled_admin | exact Ht].
  - (* ClickStreamCategory *)
    apply (psafe_pseq _ TT); [psafe_auto |].
    constructor; [apply fetchLiveStreams_safe | by constructor].
  - (* ClickRefreshStreams *)
    constructor. intros w'. constructor; [apply fetchLiveStreams_safe | by constructor].
  - (* SubmitLogin *)
    constructor; [apply handleLogin_safe | by constructor].
  - (* SubmitReset *)
    constructor; [apply handlePasswordReset_safe | by constructor].
Qed.

(** ** The transition system keeps the invariant *)

Notation sys_inv := (sys_hoare page_inv).

Lemma boot_inv st t0 : page_inv (boot st t0).
Proof. split; [done |]. intros H. discriminate H. Qed.

Lemma load_inv api st t0 : sys_inv (load api st t0).
Proof.
  apply load_hoare; [apply issue_page_inv | apply viewEffect_safe | apply mountEffect_safe
                    | apply restoreSession_safe | apply boot_inv].
Qed.

Lemma clear_timers_frame ids w :
  app (fold_left (fun w id => clear_timer id w) ids w) = app w /\
  storage (fold_left (fun w id => clear_timer id w) ids w) = storage w.
Proof.
  revert w. induction ids as [| id ids IH]; intros w; simpl; [done |].
  destruct (IH (clear_timer id w)) as [-> ->]. done.
Qed.

Lemma step_inv api s s' : step api s s' -> sys_inv s -> sys_inv s'.
Proof.
  intros Hstep Hs. pose proof (viewEffect_safe api TT) as Hv.
  destruct Hs as [Hw Hp], Hstep as [s i r k rest Ht | s t Ht | s e Hm He | s Hm Hv' | s Hm].
  - by apply (resolve_hoare api _ issue_page_inv Hv s i r k rest).
  - unfold fire_turn.
    assert (Hw' : page_inv (sw (with_world (take_timer t (sw s)) s)))
      by (by apply page_inv_frame).
    pose proof (turn_hoare api _ issue_page_inv Hv TT (callback_prog api (tm_cb t))
                  (with_world (take_timer t (sw s)) s) (pend s)
                  (callback_safe api TT _) I Hw' Hp) as [H1 P1].
    destruct (tm_repeat t); [| done].
    split; [by apply page_inv_frame | done].
  - by apply (turn_hoare api _ issue_page_inv Hv (fun w' => w' = sw s)); [apply handler_safe | | |].
  - apply load_inv.
  - unfold unmount, mountCleanup. simpl.
    destruct (clear_timers_frame (cleanup s) (sw s)) as [Ha Hs].
    split; [by apply page_inv_frame | by rewrite app_nil_r].
Qed.

(** C2: in every state a loaded page reaches (whatever the replies, the
    timers and the user do), the admin view is shown only to an
    authenticated session, and an authenticated session has a token in
    [localStorage]. *)
Theorem reachable_page_inv api s : reachable api s -> page_inv (sw s).
Proof.
  intros (st & t0 & Hs).
  assert (H : sys_inv (load api st t0)) by apply load_inv.
  induction Hs as [s | s1 s2 s3 H12 H23 IH]; [apply H | apply IH].
  by apply (step_inv api s1).
Qed.

(** The invariant at the load of a returning administrator's page. *)
Lemma reachable_page_inv_witness :
  reachable "/api" (load "/api" (<["token" := "abc"]> ∅) 0) /\
  page_inv (sw (load "/api" (<["token" := "abc"]> ∅) 0)).
Proof.
  assert (H : reachable "/api" (load "/api" (<["token" := "abc"]> ∅) 0)).
  { exists (<["token" := "abc"]> ∅), 0%Z. apply steps_refl. }
  split; [exact H | exact (reachable_page_inv "/api" _ H)].
Defined.

End Invariants.
