(* ===== verification/Timers.v ===== *)
(** * Timers: the timer table in every reachable state

    The browser keeps one table of timers; App.js adds to it with
    [setTimeout] ([triggerArticleGeneration], the six loads of
    [loadSecondaryData]) and [setInterval] (the four intervals of the
    mount effect), and removes from it with [clearInterval] (the mount
    effect's cleanup) and by running a timeout.  This file shows, for
    every state a page reaches:
    - the table is well formed: the ids are distinct, positive and below
      the next id ([timers_wf]);
    - the intervals pending are exactly those the cleanup will clear while
      the component is mounted, and there is none after the unmount
      ([interval_ids]);
    and hence that a mounted page always has a timer to fire while an
    unmounted one only runs what is left of its timeouts.

    Every program of App.js but the mount effect is built from statements
    that keep the table's intervals and its well-formedness ([tframe]):
    setters, storage writes, alerts, requests and [setTimeout]. *)

From S2P Require Import Prelude Http Storage State Async Session Fetchers Scheduler Views Termination App.
From stdpp Require Import gmap.
Import Http State Async Session Fetchers Scheduler Views Termination App.

Module Timers.

(** The ids are distinct, positive and below [next_tid]. *)
Definition timers_wf (w : World) : Prop :=
  NoDup (map tm_id (timers w)) /\ Forall (fun t => 0 < tm_id t < next_tid w)%nat (timers w) /\
  (0 < next_tid w)%nat.

(** The ids of the pending intervals, in table order. *)
Definition interval_ids (w : World) : list nat :=
  map tm_id (filter (fun t => tm_repeat t = true) (timers w)).

(** A statement that keeps the table well formed and its intervals. *)
Definition tframe (f : World -> World) : Prop :=
  forall w, timers_wf w -> timers_wf (f w) /\ interval_ids (f w) = interval_ids w.

(** ** Lists of timers *)

Lemma NoDup_map_filter {A B} (f : A -> B) (P : A -> Prop) `{!forall x, Decision (P x)} l :
  NoDup (map f l) -> NoDup (map f (filter P l)).
Proof.
  induction l as [| a l IH]; simpl; [done |]. rewrite filter_cons.
  intros Hnd. apply NoDup_cons in Hnd as [Ha Hl].
  destruct (decide (P a)); simpl; [| by apply IH].
  apply NoDup_cons. split; [| by apply IH].
  intros Hin. apply Ha. apply list_elem_of_In in Hin. apply list_elem_of_In.
  apply in_map_iff in Hin as (y & <- & Hy). apply in_map.
  apply list_elem_of_In, list_elem_of_filter in Hy as [_ Hy]. by apply list_elem_of_In.
Qed.

(** Two elements of a list with distinct images are equal when their
    images are. *)
Lemma NoDup_map_eq {A B} (f : A -> B) l x y :
  NoDup (map f l) -> In x l -> In y l -> f x = f y -> x = y.
Proof.
  induction l as [| a l IH]; simpl; [done |]. intros Hnd. apply NoDup_cons in Hnd as [Ha Hl].
  assert (Hn : forall z, In z l -> f z <> f a).
  { intros z Hz Hza. apply Ha. apply list_elem_of_In. rewrite <-Hza. by apply in_map. }
  intros [-> | Hx] [-> | Hy] Hxy; [done | | | by apply IH].
  - by destruct (Hn y Hy).
  - by destruct (Hn x Hx).
Qed.

(** Filtering out elements that are not intervals keeps the intervals. *)
Lemma filter_repeat_filter (P : Timer -> Prop) `{!forall x, Decision (P x)} l :
  (forall t, In t l -> tm_repeat t = true -> P t) ->
  filter (fun t => tm_repeat t = true) (filter P l) = filter (fun t => tm_repeat t = true) l.
Proof.
  induction l as [| a l IH]; simpl; [done |]. intros HP.
  assert (HP' : forall t, In t l -> tm_repeat t = true -> P t) by (intros; apply HP; [right |]; done).
  rewrite !filter_cons, <-(IH HP'). destruct (decide (P a)) as [Ha | Ha].
  - by rewrite filter_cons.
  - destruct (decide (tm_repeat a = true)) as [Hr |]; [| done].
    by destruct (Ha (HP a (or_introl eq_refl) Hr)).
Qed.

Lemma wf_filter (P : Timer -> Prop) `{!forall x, Decision (P x)} w :
  timers_wf w -> timers_wf (upd_timers (filter P) w).
Proof.
  intros (Hnd & Hb & Hn). split; [by apply NoDup_map_filter |]. split; [| done].
  simpl. rewrite Forall_forall in *. intros x Hx.
  apply list_elem_of_filter in Hx as [_ Hx]. by apply Hb.
Qed.

(** ** The statements of the programs *)

Lemma tframe_same f :
  (forall w, timers (f w) = timers w /\ next_tid (f w) = next_tid w) -> tframe f.
Proof.
  intros Hf w Hw. destruct (Hf w) as [Ht Hn]. unfold timers_wf, interval_ids in *.
  rewrite Ht, Hn. done.
Qed.

(** [setTimeout]: the new id is fresh, and the new timer is no interval. *)
Lemma tframe_timeout d cb : tframe (add_timer d false cb).
Proof.
  intros w (Hnd & Hb & Hn). unfold timers_wf, interval_ids; simpl.
  rewrite filter_app, filter_cons_False, filter_nil, app_nil_r by done.
  split; [| done]. rewrite map_app. split; [| split; [| lia]].
  - apply NoDup_app. split; [done |]. split; [| apply NoDup_singleton].
    intros x Hx Hy. apply list_elem_of_In in Hx. apply list_elem_of_singleton in Hy as ->.
    apply in_map_iff in Hx as (t & Ht & Hin). rewrite Forall_forall in Hb.
    apply list_elem_of_In in Hin. specialize (Hb t Hin). cbn in Hb, Ht. lia.
  - apply Forall_app. split; [| repeat constructor; simpl; lia].
    eapply Forall_impl; [exact Hb | simpl; lia].
Qed.

(** Decompose a program into its statements. *)
Ltac stmts_tac :=
  repeat (simpl; match goal with
  | |- stmts _ PDone => apply st_done
  | |- stmts _ (PAct (add_timer _ false _) _) => apply st_act; [apply tframe_timeout |]
  | |- stmts _ (PAct _ _) =>
      apply st_act; [apply tframe_same; intros ?; split; reflexivity |]
  | |- stmts _ (PRead _) => apply st_read; intros ?
  | |- stmts _ (PAwait _ _) => apply st_await; intros ?
  | |- stmts _ (PFork _ _) => apply st_fork
  | |- stmts _ (match ?x with _ => _ end) => destruct x
  | |- stmts _ (if ?b then _ else _) => destruct b
  | |- stmts _ (pseq (match ?x with _ => _ end) _) => destruct x
  | |- stmts _ (pseq (if ?b then _ else _) _) => destruct b
  end).

Section Programs.
Context (api : string).

Lemma fetchers_tframe c cat :
  stmts tframe (fetchArticles api c) /\ stmts tframe (fetchSeoStats api) /\
  stmts tframe (fetchMarketData api) /\ stmts tframe (fetchLiveStreams api cat) /\
  stmts tframe (fetchAdminStats api) /\ stmts tframe (fetchNewsSources api) /\
  stmts tframe (triggerArticleGeneration api) /\ stmts tframe (keepAlive api) /\
  stmts tframe (handleLogin api) /\ stmts tframe handleLogout /\
  stmts tframe handlePasswordReset /\ stmts tframe restoreSession.
Proof.
  unfold fetchArticles, fetchSeoStats, fetchMarketData, fetchLiveStreams,
    fetchAdminStats, fetchNewsSources, triggerArticleGeneration, keepAlive,
    handleLogin, handleLogout, handlePasswordReset, restoreSession,
    await_axios, await_fetch, read_storage, set, act.
  repeat split; stmts_tac.
Qed.

Lemma callback_tframe cb : stmts tframe (callback_prog api cb).
Proof.
  destruct (fetchers_tframe None "all") as (? & ? & ? & ? & ? & ? & ? & ? & _).
  destruct cb; simpl; try done;
    unfold fetchTrendingTopics, fetchMarketAlerts, fetchReadingList,
      fetchInstitutionalData, fetchPolicyUpdates, set, act; stmts_tac.
Qed.

Lemma fetchLiveStreams_tframe c : stmts tframe (fetchLiveStreams api c).
Proof. by destruct (fetchers_tframe None c) as (_ & _ & _ & ? & _). Qed.

Lemma handler_tframe e : stmts tframe (handler api e).
Proof.
  destruct (fetchers_tframe None "all") as (_ & _ & _ & _ & _ & _ & ? & _ & ? & ? & ? & _).
  destruct e; simpl; unfold fork, set, act; stmts_tac;
    first [apply fetchLiveStreams_tframe | assumption].
Qed.

Lemma viewEffect_tframe : stmts tframe (viewEffect api).
Proof.
  apply st_read. intros w. unfold viewEffectFor, fork.
  destruct (fetchers_tframe (Some (selectedCategory (app w))) "all")
    as (? & ? & _ & _ & ? & ? & _).
  apply stmts_pseq; [constructor; [assumption | constructor] |].
  apply stmts_pseq.
  - destruct (decide _); [| constructor].
    apply stmts_pseq; (constructor; [assumption | constructor]).
  - destruct (decide _); [constructor; [assumption | constructor] | constructor].
Qed.

Lemma loadCriticalData_tframe : stmts tframe (loadCriticalData api).
Proof.
  destruct (fetchers_tframe None "all") as (? & _ & ? & _).
  by apply stmts_pseq.
Qed.

End Programs.

(** ** The timer queue and the cleanup *)

Lemma in_interval_ids n w :
  In n (interval_ids w) <-> exists t, In t (timers w) /\ tm_repeat t = true /\ tm_id t = n.
Proof.
  unfold interval_ids. rewrite in_map_iff. split.
  - intros (t & <- & Ht). apply list_elem_of_In, list_elem_of_filter in Ht as [Hr Ht].
    exists t. split; [by apply list_elem_of_In | done].
  - intros (t & Ht & Hr & <-). exists t. split; [done |].
    apply list_elem_of_In, list_elem_of_filter. split; [done | by apply list_elem_of_In].
Qed.

Lemma run_tframe p w :
  stmts tframe p -> timers_wf w ->
  timers_wf (run p w).1 /\ interval_ids (run p w).1 = interval_ids w /\
  Forall (fun pk => forall x, stmts tframe (pk.2 x)) (run p w).2.
Proof.
  intros Hp Hw.
  set (I := fun w' => timers_wf w' /\ interval_ids w' = interval_ids w).
  assert (HS : forall f w', tframe f -> I w' -> I (f w')).
  { intros f w' Hf [Hw' Hi]. destruct (Hf w' Hw') as [? Hi']. split; [done | by rewrite Hi']. }
  assert (HI : forall r w', I w' -> I (issue r w')).
  { intros r w'. apply HS. by apply tframe_same; intros; split. }
  destruct (run_stmts _ _ HS HI p w Hp (conj Hw eq_refl)) as [[H1 H2] H3]. done.
Qed.

(** Taking a pending timer out of the table to run it. *)
Lemma take_timer_tframe t w :
  In t (timers w) -> timers_wf w ->
  timers_wf (take_timer t w) /\ interval_ids (take_timer t w) = interval_ids w.
Proof.
  intros Hin Hw. unfold take_timer. destruct (tm_repeat t) eqn:Hr; [done |].
  split; [by apply (wf_filter (fun t' => tm_id t' <> tm_id t) (set_now (tm_due t) w)) |].
  unfold interval_ids. simpl. f_equal. apply filter_repeat_filter.
  intros t' Ht' Hr' Hid. destruct Hw as [Hnd _].
  rewrite (NoDup_map_eq tm_id (timers w) t' t Hnd Ht' Hin Hid) in Hr'. congruence.
Qed.

Lemma rearm_timer_tframe id w :
  timers_wf w -> timers_wf (rearm_timer id w) /\ interval_ids (rearm_timer id w) = interval_ids w.
Proof.
  unfold rearm_timer, timers_wf, interval_ids. simpl.
  set (g := fun t => if decide (tm_id t = id) then rearm (now w) t else t).
  assert (Hg : forall t, tm_id (g t) = tm_id t /\ tm_repeat (g t) = tm_repeat t)
    by (intros t; unfold g; by destruct (decide _)).
  assert (Hids : map tm_id (map g (timers w)) = map tm_id (timers w)).
  { rewrite map_map. apply map_ext. intros t. apply Hg. }
  intros (Hnd & Hb & Hn). rewrite Hids. split; [split; [done | split; [| done]] |].
  - apply Forall_map. eapply Forall_impl; [exact Hb |]. intros t. simpl. by rewrite (proj1 (Hg t)).
  - clear Hids Hnd Hb. induction (timers w) as [| t ts IH]; simpl; [done |].
    rewrite !filter_cons, (proj2 (Hg t)).
    destruct (decide (tm_repeat t = true)); simpl; [rewrite (proj1 (Hg t)), IH |]; done.
Qed.

Lemma in_clear_timers t ids w :
  In t (timers (fold_left (fun w id => clear_timer id w) ids w)) <->
  In t (timers w) /\ ~ In (tm_id t) ids.
Proof.
  revert w. induction ids as [| id ids IH]; intros w; simpl; [tauto |].
  rewrite IH. unfold clear_timer. simpl.
  rewrite <-list_elem_of_In, list_elem_of_filter, list_elem_of_In. intuition.
Qed.

Lemma clear_timers_wf ids w :
  timers_wf w -> timers_wf (fold_left (fun w id => clear_timer id w) ids w).
Proof.
  revert w. induction ids as [| id ids IH]; intros w Hw; simpl; [done |].
  apply IH. by apply wf_filter.
Qed.

(** ** The page keeps its timer table in order *)

Definition pend_tframe (pk : pending) : Prop := forall x, stmts tframe (pk.2 x).

(** The table is well formed, its intervals are those the cleanup clears
    (none once unmounted), and the continuations pending are built from
    statements that keep both. *)
Definition timer_inv (s : Sys) : Prop :=
  timers_wf (sw s) /\
  interval_ids (sw s) = (if mounted s then cleanup s else []) /\
  length (cleanup s) = 4%nat /\ Forall pend_tframe (pend s).

Section System.
Context (api : string).

Lemma turn_timer_inv p s rest :
  stmts tframe p -> timers_wf (sw s) ->
  interval_ids (sw s) = (if mounted s then cleanup s else []) ->
  length (cleanup s) = 4%nat -> Forall pend_tframe rest ->
  timer_inv (turn api p s rest).
Proof.
  intros Hp Hw Hi Hc Hr. unfold turn, pend_tframe in *.
  destruct (run_tframe p (sw s) Hp Hw) as (Hw1 & Hi1 & Hps1).
  destruct (run p (sw s)) as [w1 ps1]. cbn [fst snd] in *.
  destruct (_ && _).
  - destruct (run_tframe _ w1 (viewEffect_tframe api) Hw1) as (Hw2 & Hi2 & Hps2).
    destruct (run (viewEffect api) w1) as [w2 ps2]. cbn [fst snd] in *.
    unfold timer_inv; cbn [sw mounted cleanup pend]. split; [done |]. split; [by rewrite Hi2, Hi1 |]. split; [done |].
    by repeat apply Forall_app_2.
  - unfold timer_inv; cbn [sw mounted cleanup pend]. split; [done |]. split; [by rewrite Hi1 |]. split; [done |]. by apply Forall_app_2.
Qed.

Lemma mount_pending w : (run (mountEffect api) w).2 = (run (loadCriticalData api) w).2.
Proof.
  unfold mountEffect. cbn [run]. destruct (run (loadCriticalData api) w) as [w1 ps1].
  pose proof (run_completes_zero (loadSecondaryData ;;; set_timers true interval_schedule) w1)
    as H.
  destruct (run _ w1) as [w2 ps2]. cbn [snd] in *. rewrite H; [by rewrite app_nil_r |].
  apply (completes_pseq 0 0); apply set_timers_completes.
Qed.

Lemma mount_timers st t0 :
  timers (run (mountEffect api) (boot st t0)).1 = mount_timeouts t0 ++ mount_intervals t0 /\
  next_tid (run (mountEffect api) (boot st t0)).1 = 11%nat.
Proof. split; reflexivity. Qed.

Lemma load_timer_inv st t0 : timer_inv (load api st t0).
Proof.
  unfold load.
  destruct (mount_timers st t0) as [Ht Hn].
  pose proof (mount_pending (boot st t0)) as Hp.
  assert (Hb : timers_wf (boot st t0)) by (split; [constructor | split; [constructor | simpl; lia]]).
  destruct (run_tframe _ (boot st t0) (loadCriticalData_tframe api) Hb) as (_ & _ & Hps1).
  rewrite <-Hp in Hps1.
  destruct (run (mountEffect api) (boot st t0)) as [w1 ps1]. simpl in Ht, Hn, Hps1.
  assert (Hw1 : timers_wf w1).
  { unfold timers_wf. rewrite Ht, Hn. split; [| split; [| lia]];
      apply (bool_decide_unpack _); vm_compute; reflexivity. }
  assert (Hi1 : interval_ids w1 = [7; 8; 9; 10]%nat) by (unfold interval_ids; by rewrite Ht).
  destruct (run_tframe _ w1 (viewEffect_tframe api) Hw1) as (Hw2 & Hi2 & Hps2).
  destruct (run (viewEffect api) w1) as [w2 ps2]. simpl in Hw2, Hi2, Hps2.
  destruct (fetchers_tframe api None "all") as (_ & _ & _ & _ & _ & _ & _ & _ & _ & _ & _ & Hr).
  destruct (run_tframe _ w2 Hr Hw2) as (Hw3 & Hi3 & Hps3).
  destruct (run restoreSession w2) as [w3 ps3]. simpl in Hw3, Hi3, Hps3.
  split; [done |]. split; [simpl; by rewrite Hi3, Hi2, Hi1 |]. split; [done |].
  by repeat apply Forall_app_2.
Qed.

Lemma unmount_timers s :
  timers_wf (sw s) -> interval_ids (sw s) = cleanup s ->
  timers_wf (sw (unmount s)) /\ interval_ids (sw (unmount s)) = [] /\ pend (unmount s) = pend s.
Proof.
  intros Hw Hi. unfold unmount, mountCleanup, act. cbn [run sw pend].
  split; [by apply clear_timers_wf |]. split; [| by rewrite app_nil_r].
  set (w' := fold_left _ _ _).
  destruct (interval_ids w') as [| n ns] eqn:E; [done | exfalso].
  assert (Hn : In n (interval_ids w')) by (rewrite E; by left).
  apply in_interval_ids in Hn as (t & Ht & Hr & <-).
  apply in_clear_timers in Ht as [Ht Hnot]. apply Hnot. rewrite <-Hi.
  apply in_interval_ids. by exists t.
Qed.

Lemma step_timer_inv s s' : step api s s' -> timer_inv s -> timer_inv s'.
Proof.
  intros Hstep (Hw & Hi & Hc & Hp).
  destruct Hstep as [s i r k rest E | s t E | s e Hm He | s Hm Hv | s Hm].
  - destruct (take_pending_Forall pend_tframe _ _ _ _ E Hp) as [Hk Hrest].
    by apply turn_timer_inv.
  - destruct (next_timer_spec (timers (sw s))) as [_ Hnext].
    destruct (Hnext t E) as [Hin _].
    destruct (take_timer_tframe t (sw s) Hin Hw) as [Hw' Hi'].
    unfold fire_turn.
    pose proof (turn_timer_inv (callback_prog api (tm_cb t))
                  (with_world (take_timer t (sw s)) s) (pend s)
                  (callback_tframe api _) Hw' ltac:(simpl; by rewrite Hi') Hc Hp)
      as (Hw1 & Hi1 & Hc1 & Hp1).
    destruct (tm_repeat t); [| done].
    destruct (rearm_timer_tframe (tm_id t) _ Hw1) as [Hw2 Hi2].
    split; [done |]. split; [simpl; by rewrite Hi2 |]. done.
  - by apply turn_timer_inv; [apply handler_tframe | | | |].
  - apply load_timer_inv.
  - rewrite Hm in Hi. destruct (unmount_timers s Hw Hi) as (Hw' & Hi' & Hp').
    split; [done |]. split; [done |]. split; [done |]. by rewrite Hp'.
Qed.

(** Every reachable state satisfies [timer_inv]. *)
Lemma reachable_timer_inv s : reachable api s -> timer_inv s.
Proof.
  intros (st & t0 & Hs). pose proof (load_timer_inv st t0) as H.
  induction Hs as [s | s1 s2 s3 H12 _ IH]; [done |].
  apply IH. by apply (step_timer_inv s1).
Qed.

End System.

(** ** Properties *)

(** C10: no interval leaks: in every state a page reaches, the pending
    intervals are exactly the four the cleanup clears while the component
    is mounted, and none is left once it is unmounted. *)
Theorem reachable_intervals api s :
  reachable api s ->
  interval_ids (sw s) = (if mounted s then cleanup s else []) /\ length (cleanup s) = 4%nat.
Proof. intros H. by destruct (reachable_timer_inv api s H) as (_ & ? & ? & _). Qed.

Lemma reachable_intervals_witness :
  reachable "/api" (load "/api" ∅ 0) /\
  interval_ids (sw (load "/api" ∅ 0)) =
    (if mounted (load "/api" ∅ 0) then cleanup (load "/api" ∅ 0) else []) /\
  length (cleanup (load "/api" ∅ 0)) = 4%nat.
Proof.
  assert (H : reachable "/api" (load "/api" ∅ 0)) by (exists ∅, 0%Z; apply steps_refl).
  split; [exact H | exact (reachable_intervals "/api" _ H)].
Defined.

(** C11: the periodic refresh goes on until teardown: a mounted page
    always has a timer to fire, and once unmounted only timeouts fire. *)
Theorem periodic_refresh_live api s :
  reachable api s ->
  (mounted s = true -> exists s', step_fn api s EFire = Some s') /\
  (mounted s = false -> forall t, next_timer (timers (sw s)) = Some t -> tm_repeat t = false).
Proof.
  intros H. destruct (reachable_timer_inv api s H) as (_ & Hi & Hc & _). split.
  - intros Hm. rewrite Hm in Hi. unfold step_fn.
    destruct (timers (sw s)) as [| t ts] eqn:E; [| by eexists].
    unfold interval_ids in Hi. rewrite E in Hi. simpl in Hi.
    by rewrite <-Hi in Hc.
  - intros Hm t Ht. rewrite Hm in Hi.
    destruct (proj2 (next_timer_spec _) t Ht) as [Hin _].
    destruct (tm_repeat t) eqn:Hr; [exfalso | done].
    assert (Hn : In (tm_id t) (interval_ids (sw s))) by (apply in_interval_ids; by exists t).
    by rewrite Hi in Hn.
Qed.

Lemma periodic_refresh_live_witness :
  reachable "/api" (load "/api" ∅ 0) /\
  (mounted (load "/api" ∅ 0) = true -> exists s', step_fn "/api" (load "/api" ∅ 0) EFire = Some s') /\
  (mounted (load "/api" ∅ 0) = false -> forall t,
     next_timer (timers (sw (load "/api" ∅ 0))) = Some t -> tm_repeat t = false).
Proof.
  assert (H : reachable "/api" (load "/api" ∅ 0)) by (exists ∅, 0%Z; apply steps_refl).
  split; [exact H | exact (periodic_refresh_live "/api" _ H)].
Defined.

End Timers.
