(* ===== verification/Feeds.v ===== *)
(** * Feeds: the views backed by the simulated feeds never throw

    [SmartMoneyView] and [PoliciesView] (App.js 793-1003) read only the
    three collections the simulated feeds fill: [institutionalData],
    [policyUpdates] and [marketAlerts] (App.js 243-320).  No reply of the
    server is ever stored there, so, unlike the dashboard and the live
    view, these views cannot be broken by the backend.  This file proves
    it over every state a page reaches, whatever the replies, the timers
    and the user do:
    - [feeds_inv]: each collection holds its initial value or the data of
      its feed, and the alerts' timestamps come from a clock reading of
      the run, between the load and now;
    - every program of App.js keeps it in the Hoare logic of [Async]
      ([fetchers_feeds], [handler_feeds], ...), and so does every step
      of the page ([step_feeds]), by [App.sys_hoare];
    - with the clock in the range of ECMAScript dates, both views render
      ([simulated_views_render]).

    The clock of the model advances only when a timer fires, to the due
    time of that timer; [clock_ok] (every pending timer has a
    non-negative delay and is not overdue) makes it monotone, which is
    what places the alerts' timestamps below the current time. *)

From S2P Require Import Prelude Http Storage State Async Session Fetchers Scheduler Views Render App Timers.
From stdpp Require Import gmap.
Import Http State Async Session Fetchers Scheduler Views Render App Timers.

Module Feeds.

(** ** The invariant *)

(** No pending timer is overdue, and none has a negative delay. *)
Definition clock_ok (w : World) : Prop :=
  Forall (fun t => 0 <= tm_delay t /\ now w <= tm_due t)%Z (timers w).

Definition alerts_ok (lo : Z) (w : World) : Prop :=
  marketAlerts (app w) = BJson (JArr []) \/
  exists t, marketAlerts (app w) = BJson (market_alerts_data t) /\ (lo <= t <= now w)%Z.

(** The page was loaded at time [lo] or later. *)
Definition feeds_inv (lo : Z) (w : World) : Prop :=
  clock_ok w /\ (lo <= now w)%Z /\
  (institutionalData (app w) = BJson (JArr []) \/
   institutionalData (app w) = BJson institutional_data) /\
  (policyUpdates (app w) = BJson (JArr []) \/
   policyUpdates (app w) = BJson policy_updates_data) /\
  alerts_ok lo w.

(** A statement that keeps the three collections, the clock and the
    timers. *)
Definition feeds_frame (f : World -> World) : Prop :=
  forall w, institutionalData (app (f w)) = institutionalData (app w) /\
    policyUpdates (app (f w)) = policyUpdates (app w) /\
    marketAlerts (app (f w)) = marketAlerts (app w) /\
    now (f w) = now w /\ timers (f w) = timers w.

Section Statements.
Context (lo : Z).

Lemma feeds_frame_inv f w : feeds_frame f -> feeds_inv lo w -> feeds_inv lo (f w).
Proof.
  intros Hf Hw. destruct (Hf w) as (H1 & H2 & H3 & Hn & Ht).
  unfold feeds_inv, alerts_ok, clock_ok in *. by rewrite H1, H2, H3, Hn, Ht.
Qed.

Lemma issue_feeds r w : feeds_inv lo w -> feeds_inv lo (issue r w).
Proof. apply feeds_frame_inv. by intros w'. Qed.

Lemma frame_feeds P Q f k :
  feeds_frame f -> hoare (feeds_inv lo) TT k Q -> hoare (feeds_inv lo) P (PAct f k) Q.
Proof.
  intros Hf Hk. apply (ps_act _ TT); [| exact Hk].
  intros w Hw _. split; [by apply feeds_frame_inv | done].
Qed.

(** [setTimeout] and [setInterval] with a non-negative delay. *)
Lemma timer_feeds P Q d r cb k :
  (0 <= d)%Z -> hoare (feeds_inv lo) TT k Q ->
  hoare (feeds_inv lo) P (PAct (add_timer d r cb) k) Q.
Proof.
  intros Hd Hk. apply (ps_act _ TT); [| exact Hk].
  intros w (Hc & Hlo & Hi & Hp & Ha) _. split; [| done].
  split; [| done]. apply Forall_app. split; [done |].
  repeat constructor; unfold tm_due; simpl; lia.
Qed.

(** The three feeds. *)
Lemma local_feeds P :
  hoare (feeds_inv lo) P fetchInstitutionalData TT /\
  hoare (feeds_inv lo) P fetchPolicyUpdates TT /\
  hoare (feeds_inv lo) P fetchMarketAlerts TT.
Proof.
  unfold fetchInstitutionalData, fetchPolicyUpdates, fetchMarketAlerts, set, act.
  split; [| split].
  - apply (ps_act _ TT); [| by constructor].
    intros w (Hc & Hlo & Hi & Hp & Ha) _. by split; [repeat split; auto |].
  - apply (ps_act _ TT); [| by constructor].
    intros w (Hc & Hlo & Hi & Hp & Ha) _. by split; [repeat split; auto |].
  - constructor. intros w0. apply (ps_act _ TT); [| by constructor].
    intros w (Hc & Hlo & Hi & Hp & Ha) [_ ->]. split; [| done].
    repeat split; auto. right. exists (now w0). simpl. split; [done | lia].
Qed.

End Statements.

(** Decompose a program into statements that keep the collections. *)
Ltac feeds_auto :=
  repeat (simpl; match goal with
  | |- hoare _ _ PDone _ => by constructor
  | |- hoare _ _ (PAct (add_timer _ _ _) _) _ => apply timer_feeds; [lia |]
  | |- hoare _ _ (PAct _ _) _ =>
      apply frame_feeds; [intros ?; repeat split; reflexivity |]
  | |- hoare _ _ (PRead _) _ => constructor; intros ?
  | |- hoare _ _ (PAwait _ _) _ => constructor; intros ?
  | |- hoare _ _ (PFork _ _) _ => constructor
  | |- hoare _ _ (match ?x with _ => _ end) _ => destruct x
  | |- hoare _ _ (if ?b then _ else _) _ => destruct b
  | |- hoare _ _ (pseq (match ?x with _ => _ end) _) _ => destruct x
  | |- hoare _ _ (pseq (if ?b then _ else _) _) _ => destruct b
  end).

(** ** Every program of App.js keeps the invariant *)

Section Programs.
Context (api : string) (lo : Z).

Lemma fetchers_feeds P c cat :
  hoare (feeds_inv lo) P (fetchArticles api c) TT /\
  hoare (feeds_inv lo) P (fetchSeoStats api) TT /\
  hoare (feeds_inv lo) P (fetchMarketData api) TT /\
  hoare (feeds_inv lo) P (fetchLiveStreams api cat) TT /\
  hoare (feeds_inv lo) P (fetchAdminStats api) TT /\
  hoare (feeds_inv lo) P (fetchNewsSources api) TT /\
  hoare (feeds_inv lo) P (triggerArticleGeneration api) TT /\
  hoare (feeds_inv lo) P (keepAlive api) TT /\
  hoare (feeds_inv lo) P (handleLogin api) TT /\
  hoare (feeds_inv lo) P handleLogout TT /\
  hoare (feeds_inv lo) P handlePasswordReset TT /\
  hoare (feeds_inv lo) P restoreSession TT /\
  hoare (feeds_inv lo) P fetchTrendingTopics TT /\
  hoare (feeds_inv lo) P fetchReadingList TT.
Proof.
  unfold fetchArticles, fetchSeoStats, fetchMarketData, fetchLiveStreams,
    fetchAdminStats, fetchNewsSources, triggerArticleGeneration, keepAlive,
    handleLogin, handleLogout, handlePasswordReset, restoreSession,
    fetchTrendingTopics, fetchReadingList,
    await_axios, await_fetch, read_storage, set, act.
  repeat split; feeds_auto.
Qed.

Lemma callback_feeds P cb : hoare (feeds_inv lo) P (callback_prog api cb) TT.
Proof.
  destruct (fetchers_feeds P None "all") as (_ & _ & ? & ? & ? & _ & _ & ? & _ & _ & _ & _ & ? & ?).
  destruct (local_feeds lo P) as (? & ? & ?).
  by destruct cb.
Qed.

Lemma handler_feeds P e : hoare (feeds_inv lo) P (handler api e) TT.
Proof.
  destruct e; simpl; unfold fork, set, act; feeds_auto;
    first [apply (fetchers_feeds _ None "all") | apply (fetchers_feeds _ None)].
Qed.

Lemma viewEffect_feeds P : hoare (feeds_inv lo) P (viewEffect api) TT.
Proof.
  constructor. intros w. unfold viewEffectFor, fork.
  destruct (fetchers_feeds (fun w' => P w' /\ w' = w) (Some (selectedCategory (app w))) "all")
    as (? & ? & _ & _ & ? & ? & _).
  destruct (fetchers_feeds TT None "all") as (_ & ? & _ & _ & ? & ? & _).
  apply (hoare_pseq _ _ TT); [by constructor; [| constructor] |].
  apply (hoare_pseq _ _ TT).
  - destruct (decide _); [| by constructor].
    apply (hoare_pseq _ _ TT); (constructor; [done | by constructor]).
  - destruct (decide _); (constructor; [done | by constructor]) || by constructor.
Qed.

Lemma set_timers_feeds P r sched :
  Forall (fun dc => 0 <= dc.1)%Z sched -> hoare (feeds_inv lo) P (set_timers r sched) TT.
Proof.
  revert P. induction sched as [| [d cb] rest IH]; intros P Hs; simpl; [by constructor |].
  apply Forall_cons in Hs as [Hd Hs]. apply timer_feeds; [exact Hd | by apply IH].
Qed.

Lemma mountEffect_feeds P : hoare (feeds_inv lo) P (mountEffect api) TT.
Proof.
  unfold mountEffect, loadCriticalData, loadSecondaryData.
  destruct (fetchers_feeds P None "all") as (Ha & _ & Hm & _).
  destruct (fetchers_feeds TT None "all") as (Ha' & _).
  constructor.
  - apply (hoare_pseq _ _ TT); [exact Hm | exact Ha'].
  - apply (hoare_pseq _ _ TT); apply set_timers_feeds; repeat constructor; simpl; lia.
Qed.

End Programs.
(** ** The page keeps the invariant *)

Section System.
Context (api : string) (lo : Z).

(** The queue fires the timer due first: no pending timer is due before
    it. *)
Lemma next_timer_due ts t :
  next_timer ts = Some t -> In t ts /\ Forall (fun t' => tm_due t <= tm_due t')%Z ts.
Proof.
  intros E. destruct (proj2 (next_timer_spec ts) t E) as [Hin Hall]. split; [done |].
  eapply Forall_impl; [exact Hall |]. intros t' Hf.
  destruct (Z.le_gt_cases (tm_due t) (tm_due t')) as [| Hlt]; [done |].
  enough (fires_before t' t = true) by congruence. apply fires_before_true. by left.
Qed.

(** Firing the next timer moves the clock forward to its due time. *)
Lemma take_timer_feeds t w :
  next_timer (timers w) = Some t -> feeds_inv lo w -> feeds_inv lo (take_timer t w).
Proof.
  intros E (Hc & Hlo & Hi & Hp & Ha). destruct (next_timer_due _ _ E) as [Hin Hall].
  assert (Hn : (now w <= tm_due t)%Z).
  { unfold clock_ok in Hc. rewrite Forall_forall in Hc.
    apply list_elem_of_In in Hin. by apply Hc. }
  assert (Hc' : clock_ok (set_now (tm_due t) w)).
  { unfold clock_ok in *. simpl. rewrite Forall_forall in Hc, Hall |- *.
    intros t' Ht'. split; [by apply Hc | by apply Hall]. }
  unfold take_timer, feeds_inv, alerts_ok in *. simpl.
  split; [| split; [lia | split; [done | split; [done |]]]].
  - destruct (tm_repeat t); [done |]. unfold clock_ok in *. simpl in *.
    apply Forall_forall. intros t' Ht'. apply list_elem_of_filter in Ht' as [_ Ht'].
    by apply (proj1 (Forall_forall _ _) Hc').
  - destruct Ha as [| (t' & Ht' & Hb)]; [by left | right; exists t'; split; [done | lia]].
Qed.

(** An interval is re-armed at the current time. *)
Lemma rearm_timer_feeds id w : feeds_inv lo w -> feeds_inv lo (rearm_timer id w).
Proof.
  intros (Hc & Hlo & Hi & Hp & Ha). unfold rearm_timer, feeds_inv, alerts_ok, clock_ok in *.
  simpl. split; [| done]. apply Forall_map. eapply Forall_impl; [exact Hc |].
  intros t [Hd Hdue]. destruct (decide _); [| done]. unfold tm_due; simpl. lia.
Qed.

Lemma clear_timers_feeds ids w :
  feeds_inv lo w -> feeds_inv lo (fold_left (fun w id => clear_timer id w) ids w).
Proof.
  revert w. induction ids as [| id ids IH]; intros w Hw; simpl; [done |].
  apply IH. destruct Hw as (Hc & Hw). split; [| done].
  unfold clock_ok in *. simpl. apply Forall_forall. intros t Ht.
  apply list_elem_of_filter in Ht as [_ Ht]. by apply (proj1 (Forall_forall _ _) Hc).
Qed.

Lemma boot_feeds st t0 : (lo <= t0)%Z -> feeds_inv lo (boot st t0).
Proof. intros Ht. split; [constructor | split; [done | split; [by left | split; by left]]]. Qed.

Lemma step_feeds s s' :
  step api s s' -> sys_hoare (feeds_inv lo) s -> sys_hoare (feeds_inv lo) s'.
Proof.
  intros Hstep Hs. pose proof (viewEffect_feeds api lo TT) as Hv.
  pose proof (issue_feeds lo) as Hiss.
  destruct Hs as [Hw Hp], Hstep as [s i r k rest Ht | s t Ht | s e Hm He | s Hm Hv' | s Hm].
  - by apply (resolve_hoare api _ Hiss Hv s i r k rest).
  - unfold fire_turn.
    pose proof (turn_hoare api _ Hiss Hv TT (callback_prog api (tm_cb t))
                  (with_world (take_timer t (sw s)) s) (pend s)
                  (callback_feeds api lo TT _) I (take_timer_feeds _ _ Ht Hw) Hp) as [H1 P1].
    destruct (tm_repeat t); [| done].
    split; [by apply rearm_timer_feeds | done].
  - by apply (turn_hoare api _ Hiss Hv TT); [apply handler_feeds | | |].
  - apply load_hoare; [exact Hiss | exact Hv | apply mountEffect_feeds
                      | apply (fetchers_feeds api lo _ None "all")
                      | apply boot_feeds; by destruct Hw as (_ & ? & _)].
  - unfold unmount, mountCleanup. simpl.
    split; [by apply clear_timers_feeds | by rewrite app_nil_r].
Qed.

Lemma steps_feeds st t0 s :
  steps api (load api st t0) s -> (lo <= t0)%Z -> sys_hoare (feeds_inv lo) s.
Proof.
  intros Hs Ht.
  assert (H : sys_hoare (feeds_inv lo) (load api st t0)).
  { apply load_hoare; [apply issue_feeds | apply viewEffect_feeds | apply mountEffect_feeds
                      | apply (fetchers_feeds api lo _ None "all") | by apply boot_feeds]. }
  induction Hs as [s | s1 s2 s3 H12 _ IH]; [exact H | apply IH].
  by apply (step_feeds s1).
Qed.

End System.

(** ** Properties *)

#[local] Arguments time_value_ok : simpl never.

(** C15: the views fed by the simulated data never throw: in every state
    a page reaches from a load at [t0], whatever the server replies and
    whatever the timers and the user do, the three collections hold
    their initial value or their feed's data ([feeds_inv]), and the
    markup of [SmartMoneyView] (holdings, policies, alerts with
    [formatDistanceToNow] of their timestamps) and of [PoliciesView]
    renders, as long as the clock stays in the range of ECMAScript
    dates. *)
Theorem simulated_views_render api st t0 s :
  steps api (load api st t0) s ->
  (600000 - 8640000000000000 <= t0)%Z -> (now (sw s) <= 8640000000000000)%Z ->
  feeds_inv t0 (sw s) /\
  smart_money_ok (app (sw s)) = true /\ policies_ok (app (sw s)) = true.
Proof.
  intros Hs Hlo Hhi.
  destruct (steps_feeds api t0 st t0 s Hs (Z.le_refl _)) as [Hinv _].
  split; [exact Hinv |]. destruct Hinv as (_ & Hn & Hi & Hp & Ha).
  unfold smart_money_ok, policies_ok, map_fields.
  destruct Ha as [-> | (t & -> & Ht)];
    [| destruct (alert_times_ok t ltac:(lia)) as [H1 H2]];
    destruct Hi as [-> | ->], Hp as [-> | ->]; simpl; by rewrite ?H1, ?H2.
Qed.

Lemma simulated_views_render_witness :
  steps "/api" (load "/api" ∅ 0) (load "/api" ∅ 0) /\
  (600000 - 8640000000000000 <= 0)%Z /\
  (now (sw (load "/api" ∅ 0)) <= 8640000000000000)%Z /\
  feeds_inv 0 (sw (load "/api" ∅ 0)) /\
  smart_money_ok (app (sw (load "/api" ∅ 0))) = true /\
  policies_ok (app (sw (load "/api" ∅ 0))) = true.
Proof.
  assert (Hs : steps "/api" (load "/api" ∅ 0) (load "/api" ∅ 0)) by apply steps_refl.
  assert (Hlo : (600000 - 8640000000000000 <= 0)%Z) by lia.
  assert (Hhi : (now (sw (load "/api" ∅ 0)) <= 8640000000000000)%Z)
    by (apply Z.leb_le; reflexivity).
  split; [exact Hs | split; [exact Hlo | split; [exact Hhi |]]].
  exact (simulated_views_render "/api" ∅ 0 _ Hs Hlo Hhi).
Defined.

End Feeds.
