(* ===== verification/Spinners.v ===== *)
(** * Spinners: a loading indicator is always backed by a pending request

    App.js shows three spinners, each driven by a flag of the state:
    [loading] (the dashboard's article list, raised by [fetchArticles]),
    [marketLoading] (the market sidebar, raised by [fetchMarketData]) and
    [liveStreamsLoading] (the live view, raised by [fetchLiveStreams]).
    Each function raises its flag before its first [await] and lowers it
    in a [finally] block, so no path through the function leaves the flag
    up once its requests are answered.

    [settles fl b p] classifies a program by what it does to the flag
    [fl] on every path, whatever the replies: with [b = false], every
    raise of the flag is followed by a lowering on every path; with
    [b = true], moreover, every path lowers the flag after its last
    raise.  Every program of App.js settles each flag ([programs_settle]),
    and the pending continuations keep this class, so in every state a
    page reaches, a raised flag has a pending request whose continuation
    lowers it on every reply ([spinners_backed]).  Together with the
    reply bounds of [Termination], the spinner goes away once that
    request and the at most two that follow it are answered. *)

From S2P Require Import Prelude Http Storage State Async Session Fetchers Scheduler Views App.
From stdpp Require Import gmap.
Import Http State Async Session Fetchers Scheduler Views App.

Module Spinners.

Section Flag.
Context (fl : AppState -> bool).

(** The three kinds of statements, by their effect on the flag. *)
Definition keeps (f : World -> World) : Prop := forall w, fl (app (f w)) = fl (app w).
Definition lowers (f : World -> World) : Prop := forall w, fl (app (f w)) = false.
Definition raises (f : World -> World) : Prop := forall w, fl (app (f w)) = true.

Inductive settles : bool -> Prog -> Prop :=
| se_done : settles false PDone
| se_keep b f k : keeps f -> settles b k -> settles b (PAct f k)
| se_lower b f k : lowers f -> settles false k -> settles b (PAct f k)
| se_raise b f k : raises f -> settles true k -> settles b (PAct f k)
| se_read b k : (forall w, settles b (k w)) -> settles b (PRead k)
| se_await b r k : (forall x, settles b (k x)) -> settles b (PAwait r k)
| se_fork b1 b2 p q : settles b1 p -> settles b2 q -> settles (b1 || b2) (PFork p q).

(** A continuation that lowers the flag on every reply, and one that
    settles it. *)
Definition lowers_pend (pk : pending) : Prop := forall x, settles true (pk.2 x).
Definition settles_pend (pk : pending) : Prop := exists b, forall x, settles b (pk.2 x).

Lemma settles_true_false p : settles true p -> settles false p.
Proof.
  remember true as b eqn:E. intros H. revert E.
  induction H as [| b f k Hf Hk IH | b f k Hf Hk | b f k Hf Hk | b k Hk IH
                 | b r k Hk IH | b1 b2 p q H1 IH1 H2 IH2]; intros E; subst.
  - discriminate.
  - apply se_keep; auto.
  - by apply se_lower.
  - by apply se_raise.
  - apply se_read. auto.
  - apply se_await. auto.
  - apply (se_fork false false).
    + destruct b1; [auto | exact H1].
    + destruct b2; [auto | exact H2].
Qed.

Lemma settles_false b p : settles b p -> settles false p.
Proof. destruct b; [apply settles_true_false | done]. Qed.

(** [p; q] lowers the flag at its end when [p] or [q] does. *)
Lemma settles_pseq b1 b2 p q : settles b1 p -> settles b2 q -> settles (b1 || b2) (p ;;; q).
Proof.
  intros Hp Hq. revert b2 q Hq.
  induction Hp as [| b f k Hf Hk IH | b f k Hf Hk IH | b f k Hf Hk IH | b k Hk IH
                 | b r k Hk IH | c1 c2 p1 p2 H1 IH1 H2 IH2];
    intros b2 q Hq; simpl.
  - exact Hq.
  - apply se_keep; auto.
  - apply se_lower; [done |]. apply (IH false). by apply (settles_false b2).
  - apply se_raise; [done |]. apply (IH b2 q Hq).
  - apply se_read. auto.
  - apply se_await. auto.
  - rewrite <-orb_assoc. apply se_fork; auto.
Qed.

(** ** One turn *)

Lemma issue_keeps r : keeps (issue r).
Proof. by intros w. Qed.

(** After one turn of a program that settles the flag, the
    continuations left settle it, and a raised flag was raised before
    (and [b] is [false]) or is lowered on every reply by one of them. *)
Lemma run_settles b p w :
  settles b p ->
  Forall settles_pend (run p w).2 /\
  (fl (app (run p w).1) = true ->
   (b = false /\ fl (app w) = true) \/ Exists lowers_pend (run p w).2).
Proof.
  intros H. revert w.
  induction H as [| b f k Hf Hk IH | b f k Hf Hk IH | b f k Hf Hk IH | b k Hk IH
                 | b r k Hk IH | b1 b2 p q H1 IH1 H2 IH2]; intros w; simpl.
  - split; [constructor | intros Hw; by left].
  - destruct (IH (f w)) as [Hps Hfl]. split; [done |]. by rewrite <-(Hf w).
  - destruct (IH (f w)) as [Hps Hfl]. split; [done |].
    intros Hw. destruct (Hfl Hw) as [[_ Hw'] | Hex]; [| by right].
    by rewrite Hf in Hw'.
  - destruct (IH (f w)) as [Hps Hfl]. split; [done |].
    intros Hw. destruct (Hfl Hw) as [[? _] | Hex]; [discriminate | by right].
  - apply IH.
  - split; [repeat constructor; by exists b |].
    intros Hw. destruct b; [right; by constructor | left; done].
  - destruct (IH1 w) as [Hps1 Hfl1]. destruct (run p w) as [w1 ps1]. cbn [fst snd] in *.
    destruct (IH2 w1) as [Hps2 Hfl2]. destruct (run q w1) as [w2 ps2]. cbn [fst snd] in *.
    split; [by apply Forall_app |]. intros Hw2.
    destruct (Hfl2 Hw2) as [[-> Hw1] | Hex]; [| right; by apply Exists_app; right].
    destruct (Hfl1 Hw1) as [[-> Hw] | Hex]; [by left | right; by apply Exists_app; left].
Qed.

(** The first continuation waiting for request [i] is taken out of the
    pending list: a property that one pending continuation has is held
    by the one taken or by one of the rest. *)
Lemma take_pending_Exists (P : pending -> Prop) i ps k rest :
  take_pending i ps = Some (k, rest) -> Exists P ps -> P (i, k) \/ Exists P rest.
Proof.
  revert rest. induction ps as [| [j k'] ps IH]; intros rest; simpl; [done |].
  intros H Hex. apply Exists_cons in Hex.
  destruct (Nat.eqb_spec i j) as [-> |].
  - injection H as <- <-. destruct Hex as [Hx | Hx]; [by left | by right].
  - destruct (take_pending i ps) as [[k'' rest'] |] eqn:E; [| done].
    injection H as <- <-. destruct Hex as [Hx | Hx].
    + right. by constructor.
    + destruct (IH rest' eq_refl Hx) as [? | ?]; [by left | right; by constructor 2].
Qed.

(** ** The page *)

Section System.
Context (api : string).
Hypothesis fl_initial : fl initial_state = false.
Hypothesis mount_settles : settles false (mountEffect api).
Hypothesis view_settles : settles false (viewEffect api).
Hypothesis restore_settles : settles false restoreSession.
Hypothesis callback_settles : forall cb, settles false (callback_prog api cb).
Hypothesis handler_settles : forall e, settles false (handler api e).

(** The continuations pending settle the flag, and a raised flag is
    lowered on every reply by one of them. *)
Definition spin_inv (s : Sys) : Prop :=
  Forall settles_pend (pend s) /\ (fl (app (sw s)) = true -> Exists lowers_pend (pend s)).

Lemma turn_settles b p s rest :
  settles b p -> Forall settles_pend rest ->
  (b = false -> fl (app (sw s)) = true -> Exists lowers_pend rest) ->
  spin_inv (turn api p s rest).
Proof.
  intros Hp Hrest Hb. unfold turn.
  destruct (run_settles b p (sw s) Hp) as [Hps1 Hfl1].
  destruct (run p (sw s)) as [w1 ps1]. cbn [fst snd] in *.
  assert (Hw1 : fl (app w1) = true -> Exists lowers_pend (rest ++ ps1)).
  { intros Hw. apply Exists_app.
    destruct (Hfl1 Hw) as [[-> Hw0] | Hex]; [left; by apply Hb | by right]. }
  destruct (_ && _).
  - destruct (run_settles false _ w1 view_settles) as [Hps2 Hfl2].
    destruct (run (viewEffect api) w1) as [w2 ps2]. cbn [fst snd] in *.
    split; [by repeat apply Forall_app_2 |]. intros Hw2. cbn [sw pend].
    rewrite app_assoc. apply Exists_app.
    destruct (Hfl2 Hw2) as [[_ Hw] | Hex]; [left; by apply Hw1 | by right].
  - split; [by apply Forall_app_2 | exact Hw1].
Qed.

Lemma load_settles st t0 : spin_inv (load api st t0).
Proof.
  unfold load.
  destruct (run_settles false _ (boot st t0) mount_settles) as [P1 F1].
  destruct (run (mountEffect api) (boot st t0)) as [w1 ps1]. cbn [fst snd] in *.
  destruct (run_settles false _ w1 view_settles) as [P2 F2].
  destruct (run (viewEffect api) w1) as [w2 ps2]. cbn [fst snd] in *.
  destruct (run_settles false _ w2 restore_settles) as [P3 F3].
  destruct (run restoreSession w2) as [w3 ps3]. cbn [fst snd] in *.
  split; [by repeat apply Forall_app_2 |]. intros Hw3. cbn [sw pend] in *.
  destruct (F3 Hw3) as [[_ Hw2] | Hex3]; [| by repeat (apply Exists_app; right)].
  destruct (F2 Hw2) as [[_ Hw1] | Hex2]; [| apply Exists_app; right; by apply Exists_app; left].
  destruct (F1 Hw1) as [[_ Hw0] | Hex1]; [| by apply Exists_app; left].
  simpl in Hw0. congruence.
Qed.

Lemma clear_timers_app ids w : app (fold_left (fun w id => clear_timer id w) ids w) = app w.
Proof. revert w. induction ids as [| id ids IH]; intros w; simpl; [done | by rewrite IH]. Qed.

Lemma step_settles s s' : step api s s' -> spin_inv s -> spin_inv s'.
Proof.
  intros Hstep [Hp Hfl].
  destruct Hstep as [s i r k rest Ht | s t Ht | s e Hm He | s Hm Hv | s Hm].
  - destruct (take_pending_Forall _ _ _ _ _ Ht Hp) as [[bk Hk] Hrest].
    destruct (fl (app (sw s))) eqn:Hw.
    + destruct (take_pending_Exists _ _ _ _ _ Ht (Hfl eq_refl)) as [Hl | Hex].
      * apply (turn_settles true); [apply Hl | done | discriminate].
      * apply (turn_settles bk); [apply Hk | done | intros _ _; exact Hex].
    + apply (turn_settles bk); [apply Hk | done | congruence].
  - unfold fire_turn.
    assert (Hs1 : spin_inv (turn api (callback_prog api (tm_cb t))
                              (with_world (take_timer t (sw s)) s) (pend s))).
    { apply (turn_settles false); [apply callback_settles | done | intros _ Hw; by apply Hfl]. }
    destruct (tm_repeat t); [| exact Hs1].
    destruct Hs1 as [P1 F1]. split; [exact P1 | exact F1].
  - apply (turn_settles false); [apply handler_settles | done | intros _; exact Hfl].
  - apply load_settles.
  - unfold unmount, mountCleanup, act. cbn [run sw pend fst snd].
    rewrite app_nil_r. split; [exact Hp |]. intros Hw. apply Hfl.
    by rewrite <-(clear_timers_app (cleanup s) (sw s)).
Qed.

Lemma reachable_settles s : reachable api s -> spin_inv s.
Proof.
  intros (st & t0 & Hs). pose proof (load_settles st t0) as H.
  induction Hs as [s | s1 s2 s3 H12 _ IH]; [done |].
  apply IH. by apply (step_settles s1).
Qed.

End System.

End Flag.

(** ** The programs of App.js settle the three flags *)

(** The flags of the three spinners. *)
Definition spinner_flag (fl : AppState -> bool) : Prop :=
  fl = loading \/ fl = marketLoading \/ fl = liveStreamsLoading.

(** Decompose a program, classifying each statement by computation. *)
Ltac settles_tac :=
  repeat (simpl; match goal with
  | |- settles _ false PDone => apply se_done
  | |- settles _ _ (PAct _ _) =>
      first [apply se_keep; [intros ?; reflexivity |]
            | apply se_lower; [intros ?; reflexivity |]
            | apply se_raise; [intros ?; reflexivity |]]
  | |- settles _ _ (PRead _) => apply se_read; intros ?
  | |- settles _ _ (PAwait _ _) => apply se_await; intros ?
  | |- settles _ false (PFork _ _) => apply (se_fork _ false false)
  | |- settles _ _ (match ?x with _ => _ end) => destruct x
  | |- settles _ _ (if ?b then _ else _) => destruct b
  | |- settles _ _ (pseq (match ?x with _ => _ end) _) => destruct x
  | |- settles _ _ (pseq (if ?b then _ else _) _) => destruct b
  end).

Section Programs.
Context (api : string) (fl : AppState -> bool) (Hfl : spinner_flag fl).

Lemma fetchers_settle c cat :
  settles fl false (fetchArticles api c) /\ settles fl false (fetchSeoStats api) /\
  settles fl false (fetchMarketData api) /\ settles fl false (fetchLiveStreams api cat) /\
  settles fl false (fetchAdminStats api) /\ settles fl false (fetchNewsSources api) /\
  settles fl false (triggerArticleGeneration api) /\ settles fl false (keepAlive api) /\
  settles fl false (handleLogin api) /\ settles fl false handleLogout /\
  settles fl false handlePasswordReset /\ settles fl false restoreSession /\
  settles fl false fetchTrendingTopics /\ settles fl false fetchMarketAlerts /\
  settles fl false fetchReadingList /\ settles fl false fetchInstitutionalData /\
  settles fl false fetchPolicyUpdates.
Proof.
  unfold fetchArticles, fetchSeoStats, fetchMarketData, fetchLiveStreams,
    fetchAdminStats, fetchNewsSources, triggerArticleGeneration, keepAlive,
    handleLogin, handleLogout, handlePasswordReset, restoreSession,
    fetchTrendingTopics, fetchMarketAlerts, fetchReadingList,
    fetchInstitutionalData, fetchPolicyUpdates,
    await_axios, await_fetch, read_storage, set, act.
  destruct Hfl as [-> | [-> | ->]]; repeat split; settles_tac.
Qed.

Lemma fork_settles p : settles fl false p -> settles fl false (fork p).
Proof. intros H. apply (se_fork _ false false); [exact H | apply se_done]. Qed.

Lemma callback_settle cb : settles fl false (callback_prog api cb).
Proof.
  destruct (fetchers_settle None "all")
    as (_ & _ & ? & ? & ? & _ & _ & ? & _ & _ & _ & _ & ? & ? & ? & ? & ?).
  by destruct cb.
Qed.

Lemma handler_settle e : settles fl false (handler api e).
Proof.
  destruct (fetchers_settle None "all")
    as (_ & _ & _ & _ & _ & _ & Htg & _ & Hli & Hlo & Hpr & _).
  assert (Hls : forall c, settles fl false (fetchLiveStreams api c))
    by (intros c; apply (fetchers_settle None c)).
  destruct Hfl as [-> | [-> | ->]]; destruct e; cbn [handler]; unfold fork, set, act;
    settles_tac; first [apply Hls | assumption].
Qed.

Lemma viewEffect_settle : settles fl false (viewEffect api).
Proof.
  apply se_read. intros w. unfold viewEffectFor.
  destruct (fetchers_settle (Some (selectedCategory (app w))) "all")
    as (Ha & Hs & _ & _ & Hst & Hns & _).
  apply (settles_pseq _ false false); [by apply fork_settles |].
  apply (settles_pseq _ false false).
  - destruct (decide _); [| apply se_done].
    apply (settles_pseq _ false false); by apply fork_settles.
  - destruct (decide _); [by apply fork_settles | apply se_done].
Qed.

Lemma set_timers_settle r sched : settles fl false (set_timers r sched).
Proof.
  induction sched as [| [d cb] rest IH]; simpl; [apply se_done |].
  apply se_keep; [by intros ? | exact IH].
Qed.

Lemma mountEffect_settle : settles fl false (mountEffect api).
Proof.
  destruct (fetchers_settle None "all") as (Ha & _ & Hm & _).
  apply (se_fork _ false false).
  - apply (settles_pseq _ false false); [exact Hm | exact Ha].
  - apply (settles_pseq _ false false); apply set_timers_settle.
Qed.

End Programs.

(** ** Properties *)

(** C12: no spinner is left without a request behind it: in every state
    a page reaches (whatever the replies, the timers and the user do),
    when the articles spinner ([loading]), the market spinner
    ([marketLoading]) or the live-stream spinner ([liveStreamsLoading])
    is shown, some pending request has a continuation that lowers that
    flag on every reply it can get. *)
Theorem spinners_backed api s :
  reachable api s ->
  (loading (app (sw s)) = true -> Exists (lowers_pend loading) (pend s)) /\
  (marketLoading (app (sw s)) = true -> Exists (lowers_pend marketLoading) (pend s)) /\
  (liveStreamsLoading (app (sw s)) = true -> Exists (lowers_pend liveStreamsLoading) (pend s)).
Proof.
  intros Hs.
  assert (H : forall fl, spinner_flag fl ->
            fl (app (sw s)) = true -> Exists (lowers_pend fl) (pend s)).
  { intros fl Hfl. apply (reachable_settles fl api); [| | | | | | exact Hs].
    - by destruct Hfl as [-> | [-> | ->]].
    - by apply mountEffect_settle.
    - by apply viewEffect_settle.
    - by apply (fetchers_settle api fl Hfl None "all").
    - intros cb. by apply callback_settle.
    - intros e. by apply handler_settle. }
  split; [| split]; apply H; unfold spinner_flag; auto.
Qed.

(** At load the market spinner is up, backed by the market-data request. *)
Lemma spinners_backed_witness :
  reachable "/api" (load "/api" ∅ 0) /\
  marketLoading (app (sw (load "/api" ∅ 0))) = true /\
  Exists (lowers_pend marketLoading) (pend (load "/api" ∅ 0)).
Proof.
  assert (Hr : reachable "/api" (load "/api" ∅ 0)) by (exists ∅, 0%Z; apply steps_refl).
  assert (Hm : marketLoading (app (sw (load "/api" ∅ 0))) = true) by reflexivity.
  split; [exact Hr | split; [exact Hm |]].
  exact (proj1 (proj2 (spinners_backed "/api" _ Hr)) Hm).
Defined.

End Spinners.
