(* ===== verification/Scenarios.v ===== *)
(** * Scenarios: runs of the page that the specification describes

    Each theorem here is a statement about [App.load] and the steps of
    [App.step] (through [App.step_fn] and [App.run_events]): the requests
    a page load issues and their order, what follows the first reply,
    the category filter, the session scenarios of the specification
    (login through the dialog, a 401 on the admin statistics), the
    staggered secondary loads and the periodic timers, the teardown,
    replies that arrive out of order, and an HTML 404 page.
    Runs over concrete inputs are evaluated with [vm_compute]; the
    general ones combine the functional lemmas of the components. *)

From S2P Require Import Prelude Http Storage State Async Session Fetchers Scheduler Views Render App.
From stdpp Require Import gmap.
Import Http State Async Session Fetchers Scheduler Views Render App.

Module Scenarios.

(** The requests a page has issued so far, oldest first. *)
Definition requests (s : Sys) : list request := log (sw s).

(** A visit: the page loaded with storage [st] at time [t0], then the
    events [evs] in order. *)
Definition visit (api : string) (st : gmap string string) (t0 : Z) (evs : list Event)
    : option Sys :=
  run_events api (load api st t0) evs.

(** The restoring effect issues nothing and changes neither the view
    nor the category. *)
Lemma restoreSession_run w :
  log (run restoreSession w).1 = log w /\ (run restoreSession w).2 = [] /\
  deps_of (run restoreSession w).1 = deps_of w.
Proof.
  unfold restoreSession, read_storage. cbn [run].
  destruct (js_truthy_str _); done.
Qed.

(** What [loadCriticalData] does once the market data has arrived. *)
Definition market_cont (api : string) (x : reply) : Prog :=
  ((match axios_outcome default_validate x with
    | AxOk _ d => set (setMarketData d)
    | AxErr _ => PDone
    end ;;; set (setMarketLoading false)) ;;; fetchArticles api None).

Lemma mountEffect_pending api w :
  (run (mountEffect api) w).2 = [(length (log w), market_cont api)].
Proof. reflexivity. Qed.

Lemma market_cont_run api x w :
  log (run (market_cont api x) w).1 = log w ++ [articles_request api None] /\
  deps_of (run (market_cont api x) w).1 = deps_of w.
Proof. unfold market_cont. by destruct (axios_outcome _ x). Qed.

Lemma load_deps api st t0 : deps (load api st t0) = deps_of (sw (load api st t0)).
Proof.
  unfold load.
  destruct (run (mountEffect api) (boot st t0)) as [w1 ps1].
  destruct (run (viewEffect api) w1) as [w2 ps2].
  by destruct (run restoreSession w2) as [w3 ps3].
Qed.

Lemma load_pending api st t0 :
  exists rest, pend (load api st t0) = (0%nat, market_cont api) :: rest.
Proof.
  unfold load. pose proof (mountEffect_pending api (boot st t0)) as L.
  destruct (run (mountEffect api) (boot st t0)) as [w1 ps1].
  cbn [snd] in L. subst ps1.
  destruct (run (viewEffect api) w1) as [w2 ps2].
  destruct (run restoreSession w2) as [w3 ps3]. by eexists.
Qed.

(** C6: a page load issues, in this order, the market-data request of
    the critical tier, then (from the view effect, before the market
    data has arrived) the unscoped article request and the SEO
    statistics; the three are pending at once. *)
Theorem load_requests api st t0 :
  requests (load api st t0) =
    [market_data_request api; articles_request api (Some "all");
     seo_stats_request api] /\
  map fst (pend (load api st t0)) = [0; 1; 2]%nat.
Proof.
  unfold requests, load.
  destruct (run (mountEffect api) (boot st t0)) as [w1 ps1] eqn:E1.
  destruct (run (viewEffect api) w1) as [w2 ps2] eqn:E2.
  destruct (restoreSession_run w2) as (Hl & Hp & _).
  destruct (run restoreSession w2) as [w3 ps3] eqn:E3. cbn [fst snd] in Hl, Hp.
  cbn [sw pend]. rewrite Hl, Hp.
  vm_compute in E1. injection E1 as <- <-.
  vm_compute in E2. injection E2 as <- <-.
  split; reflexivity.
Qed.

(** C18: whatever the reply to the market-data request (data, error
    status or transport failure), the critical tier then issues its own
    article request, so the page requests the same unscoped articles a
    second time. *)
Theorem market_reply_then_articles api st t0 r :
  exists s', step_fn api (load api st t0) (EResolve 0 r) = Some s' /\
    requests s' = requests (load api st t0) ++ [articles_request api None].
Proof.
  destruct (load_pending api st t0) as [rest Hp].
  unfold step_fn. rewrite Hp. cbn [take_pending Nat.eqb].
  eexists; split; [reflexivity |].
  unfold requests, turn.
  destruct (market_cont_run api r (sw (load api st t0))) as [Hl Hd].
  destruct (run (market_cont api r) (sw (load api st t0))) as [w' ps'].
  cbn [fst] in Hl, Hd. rewrite Hd, <-load_deps, bool_decide_eq_true_2 by done.
  rewrite andb_false_r. exact Hl.
Qed.

(** The timers that fire in the next [n] steps of the timer queue when
    nothing else happens: their due time and their callback. *)
Fixpoint fire_trace (api : string) (n : nat) (s : Sys) : list (Z * Callback) :=
  match n with
  | O => []
  | S n' =>
      match next_timer (timers (sw s)) with
      | Some t =>
          (tm_due t, tm_cb t) ::
          match step_fn api s EFire with
          | Some s' => fire_trace api n' s'
          | None => []
          end
      | None => []
      end
  end.

(** Evaluate a run of the page and check what it leads to. *)
Ltac scenario :=
  match goal with
  | |- exists s', ?e = Some s' /\ _ =>
      let E := fresh "E" in
      destruct e as [s' |] eqn:E;
      [ exists s'; split; [reflexivity |];
        vm_compute in E; injection E as <-; vm_compute
      | vm_compute in E; discriminate E ]
  end.

(** The storage of a returning administrator. *)
Definition token_storage (tok : string) : gmap string string := <["token" := tok]> ∅.

(** C26: the SEO statistics are not fetched once per session: leaving the
    dashboard and coming back re-fetches them, and each change of view
    re-fetches the articles. *)
Theorem dashboard_reentry_refetches api t0 :
  exists s', visit api ∅ t0
               [EClick (ClickNav LiveNow); EClick (ClickNav Dashboard)] = Some s' /\
    requests s' = requests (load api ∅ t0) ++
                  [articles_request api (Some "all"); articles_request api (Some "all");
                   seo_stats_request api].
Proof. scenario. reflexivity. Qed.

(** C22: an administrator whose stored token the server refuses: opening
    the admin view requests the statistics with that token, and the 401
    returns the page to an anonymous dashboard without token, whose
    effect re-fetches the dashboard's data. *)
Theorem admin_stats_401_scenario api t0 b :
  exists s', visit api (token_storage "abc") t0
               [EClick ClickAdmin; EResolve 4 (Resp 401 b)] = Some s' /\
    currentView (app (sw s')) = Dashboard /\
    isAuthenticated (app (sw s')) = false /\
    getItem "token" (storage (sw s')) = None /\
    requests s' = requests (load api (token_storage "abc") t0) ++
                  [articles_request api (Some "all");
                   admin_stats_request api (Some "abc");
                   news_sources_request api (Some "abc");
                   articles_request api (Some "all"); seo_stats_request api].
Proof. scenario. by repeat split. Qed.

Definition admin_secret : login_data := {| username := "admin"; password := "secret" |}.

(** C23: the login scenario of the specification through the dialog: the
    form [admin]/[secret] answered with [{access_token: "abc123"}] stores
    the token, opens the admin view, and the view effect then requests
    the admin statistics and the news sources with [Bearer abc123]. *)
Theorem login_dialog_scenario api t0 :
  exists s', visit api ∅ t0
               [EClick ClickAdminLogin; EClick (InputUsername "admin");
                EClick (InputPassword "secret"); EClick SubmitLogin;
                EResolve 3 (Resp 200 (BJson (JObj [("access_token", JStr "abc123")])))]
             = Some s' /\
    currentView (app (sw s')) = Admin /\
    isAuthenticated (app (sw s')) = true /\
    getItem "token" (storage (sw s')) = Some "abc123" /\
    requests s' = requests (load api ∅ t0) ++
                  [login_request api admin_secret; articles_request api (Some "all");
                   admin_stats_request api (Some "abc123");
                   news_sources_request api (Some "abc123")].
Proof. scenario. by repeat split. Qed.

(** C24: the same dialog answered 401 (invalid credentials) leaves the
    session anonymous, stores no token, keeps the dialog open and shows
    the failure alert. *)
Theorem login_dialog_rejected api t0 b :
  exists s', visit api ∅ t0
               [EClick ClickAdminLogin; EClick (InputUsername "admin");
                EClick (InputPassword "wrong"); EClick SubmitLogin;
                EResolve 3 (Resp 401 b)] = Some s' /\
    currentView (app (sw s')) = Dashboard /\
    isAuthenticated (app (sw s')) = false /\
    getItem "token" (storage (sw s')) = None /\
    showLogin (app (sw s')) = true /\
    alerts (sw s') = [login_failed_msg].
Proof. scenario. by repeat split. Qed.

(** C30: the periodic timers over the first 14 minutes: market data every
    60 s, alerts every 120 s, keep-alive every 300 s, trending topics
    every 600 s, with no drift; timers due together fire in the order
    they were armed. *)
Theorem periodic_schedule api :
  fire_trace api 30 (load api ∅ 0) =
    [(1000, CbFetchTrendingTopics); (1500, CbFetchMarketAlerts);
     (2000, CbFetchReadingList); (2500, CbFetchInstitutionalData);
     (3000, CbFetchPolicyUpdates); (3500, CbFetchLiveStreams);
     (60000, CbFetchMarketData); (120000, CbFetchMarketAlerts);
     (120000, CbFetchMarketData); (180000, CbFetchMarketData);
     (240000, CbFetchMarketAlerts); (240000, CbFetchMarketData);
     (300000, CbKeepAlive); (300000, CbFetchMarketData);
     (360000, CbFetchMarketAlerts); (360000, CbFetchMarketData);
     (420000, CbFetchMarketData); (480000, CbFetchMarketAlerts);
     (480000, CbFetchMarketData); (540000, CbFetchMarketData);
     (600000, CbFetchTrendingTopics); (600000, CbKeepAlive);
     (600000, CbFetchMarketAlerts); (600000, CbFetchMarketData);
     (660000, CbFetchMarketData); (720000, CbFetchMarketAlerts);
     (720000, CbFetchMarketData); (780000, CbFetchMarketData);
     (840000, CbFetchMarketAlerts); (840000, CbFetchMarketData)]%Z.
Proof. vm_compute. reflexivity. Qed.

(** C31: after the component is torn down no interval fires any more,
    but the six staggered timeouts of the load still do. *)
Theorem teardown_leaves_timeouts api :
  exists s', step_fn api (load api ∅ 0) EUnmount = Some s' /\
    fire_trace api 10 s' =
      [(1000, CbFetchTrendingTopics); (1500, CbFetchMarketAlerts);
       (2000, CbFetchReadingList); (2500, CbFetchInstitutionalData);
       (3000, CbFetchPolicyUpdates); (3500, CbFetchLiveStreams)]%Z /\
    run_events api s' (repeat EFire 7) = None.
Proof. scenario. split; reflexivity. Qed.

(** C25: the last reply wins, whatever the order the requests were
    issued in: on the dashboard, after choosing [finance], a late reply
    to the load's unscoped article request overwrites the finance
    articles, so the page lists all articles under the [finance]
    filter. *)
Theorem stale_articles_overwrite api t0 bf ba :
  exists s', visit api ∅ t0
               [EClick (ClickCategory "finance");
                EResolve 3 (Resp 200 bf); EResolve 1 (Resp 200 ba)] = Some s' /\
    selectedCategory (app (sw s')) = "finance" /\
    articles (app (sw s')) = ba.
Proof. scenario. by split. Qed.

(** C19: an article request answered with a 404 page in HTML is accepted
    by [validateStatus] (status < 500), its text becomes [articles], and
    once loading ends the dashboard's [articles.map] throws: the page
    cannot render its article list. *)
Theorem html_404_breaks_dashboard api t0 :
  exists s', visit api ∅ t0
               [EResolve 1 (Resp 404 (BText "<!DOCTYPE html><title>Not Found</title>"))]
             = Some s' /\
    articles (app (sw s')) = BText "<!DOCTYPE html><title>Not Found</title>" /\
    loading (app (sw s')) = false /\
    dashboard_articles (app (sw s')) = None.
Proof. scenario. by repeat split. Qed.

(** An article as the backend sends it, with or without its [tags]. *)
Definition article_json (tags : bool) : json :=
  JObj ([("id", JNum 1); ("title", JStr "Markets rally"); ("published_at", JNum 0)] ++
        if tags then [("tags", JArr [])] else []).

(** C20: the dashboard needs every article to carry [tags]: an article
    reply whose items lack it makes [article.tags.slice] throw once
    loading ends, whatever the date parser; the same reply with [tags]
    renders. *)
Theorem article_tags_required api t0 parse :
  (exists s', visit api ∅ t0 [EResolve 1 (Resp 200 (BJson (JArr [article_json false])))] = Some s' /\
     page_renders parse (app (sw s')) = false) /\
  (exists s', visit api ∅ t0 [EResolve 1 (Resp 200 (BJson (JArr [article_json true])))] = Some s' /\
     page_renders parse (app (sw s')) = true).
Proof. split; scenario; reflexivity. Qed.

(** C21: the live view needs the streams as an array: a live-streams
    reply whose data is an object (such as [{streams: [...]}]) makes
    [liveStreams.filter] throw in the category buttons; an array renders. *)
Theorem live_streams_array_required api t0 parse :
  (exists s', visit api ∅ t0
     [EClick (ClickNav LiveNow); EClick ClickRefreshStreams;
      EResolve 4 (Resp 200 (BJson (JObj [("streams", JArr [])])))] = Some s' /\
     currentView (app (sw s')) = LiveNow /\ page_renders parse (app (sw s')) = false) /\
  (exists s', visit api ∅ t0
     [EClick (ClickNav LiveNow); EClick ClickRefreshStreams;
      EResolve 4 (Resp 200 (BJson (JArr [])))] = Some s' /\
     currentView (app (sw s')) = LiveNow /\ page_renders parse (app (sw s')) = true).
Proof. split; scenario; by split. Qed.

End Scenarios.
